(** * FastTransformInterceptor: the schema-driven transform engine

    A shallow embedding of the interceptor of
    [src/interceptors/fast-transform.interceptor.ts], in the revision that
    handles [undefined] and runs [validateFieldType] over inline nested
    objects: [prepareMetadata] and [prepareField] (schema resolution),
    [transformDtoFilter], [transform], [transformField], [transformPrimitive],
    [validatePrimitiveType], [coerceToPrimitiveType], [validateFieldType] and
    [isFieldRequired].

    - JavaScript values are the inductive type [jsval]; a record is the list
      of its own properties in enumeration order.
    - A thrown exception is the [Throw] branch of [outcome]; the [try]/[catch]
      of [transformPrimitive] is a match on the coercion's result.
    - [this.transform] recurses into the value only, so [transform] is defined
      with the value's depth as recursion bound ([transform_fuel]), and
      [transform_total] shows that the bound is never reached.
    - The number, bigint and date grammar of the runtime is a parameter
      ([JSHost]); the theorems hold for every host.
    - Around the engine: the cache [dtoCache] with [clearCache], and the
      pipeline of [intercept] ([getDataObject], [dataToResponse],
      [handleError], the metadata of [@ResponseType]) for an interceptor
      with [debug] off.
    - The earlier revision of [transform] and [transformField], with its
      methods [transformArrayOfClass], [transformEnum] and
      [transformArrayOfPrimitive], is the module [Rev1]. *)

From Stdlib Require Import String Ascii List ZArith Bool Arith Lia.
From Stdlib Require Import DecimalString.
Import ListNotations.

Set Warnings "-register-all".

Local Open Scope list_scope.
Local Open Scope string_scope.

(* ================================================================== *)
(** ** JavaScript values *)
(* ================================================================== *)

(** A JS number.  The engine never computes with numbers: it asks [isNaN] and
    hands them to [String] / [Number] / [BigInt] / [Date].  The finite numbers
    carried here are the integral ones: numbers with a fractional part are
    outside the values of this development, as received values and as
    results of a host's [string_to_number]. *)
Inductive number : Type :=
| NaN
| Inf (negative : bool)
| Fin (z : Z).

(** The values the interceptor can receive.
    - [VDate t]: a [Date] object; [t = None] is the invalid date, whose
      [getTime()] is [NaN].
    - [VObj snapshot fields]: an object with own enumerable data properties
      [fields], in enumeration order.  When [snapshot = Some plain] the object
      also inherits a callable [get] member (an ORM instance), and
      [get({plain: true})] returns [plain].  There are no other function
      values: every object inherits [hasOwnProperty] and [toString] from
      [Object.prototype], and an own property of either name shadows the
      method with data, so that calling it throws a [TypeError]. *)
Inductive jsval : Type :=
| VUndefined
| VNull
| VBool (b : bool)
| VNum (n : number)
| VStr (s : string)
| VBigInt (z : Z)
| VSymbol (description : string) (id : nat)
| VDate (time : option Z)
| VArr (items : list jsval)
| VObj (snapshot : option jsval) (fields : list (string * jsval)).

Definition props : Type := list (string * jsval).

(** A plain record [{k1: v1, ...}]. *)
Definition record (fields : props) : jsval := VObj None fields.

Definition number_eqb (a b : number) : bool :=
  match a, b with
  | NaN, NaN => true
  | Inf x, Inf y => Bool.eqb x y
  | Fin x, Fin y => Z.eqb x y
  | _, _ => false
  end.

(** [typeof v] *)
Definition typeof (v : jsval) : string :=
  match v with
  | VUndefined => "undefined"
  | VNull => "object"
  | VBool _ => "boolean"
  | VNum _ => "number"
  | VStr _ => "string"
  | VBigInt _ => "bigint"
  | VSymbol _ _ => "symbol"
  | VDate _ | VArr _ | VObj _ _ => "object"
  end.

(** [Array.isArray(v)] *)
Definition isArray (v : jsval) : bool :=
  match v with VArr _ => true | _ => false end.

(** [v == null] *)
Definition is_nullish (v : jsval) : bool :=
  match v with VUndefined | VNull => true | _ => false end.

(** [v === undefined], [v === null] *)
Definition is_undefined (v : jsval) : bool :=
  match v with VUndefined => true | _ => false end.

Definition is_null (v : jsval) : bool :=
  match v with VNull => true | _ => false end.

(** [isNaN(n)] on a number *)
Definition isNaN (n : number) : bool :=
  match n with NaN => true | _ => false end.

(* ------------------------------------------------------------------ *)
(** *** Property access *)

Fixpoint lookup {A : Type} (key : string) (l : list (string * A)) : option A :=
  match l with
  | [] => None
  | (k, x) :: rest => if String.eqb k key then Some x else lookup key rest
  end.

(** [o[key] = x]: overwrite in place, or append a new property. *)
Fixpoint set_prop {A : Type} (key : string) (x : A) (l : list (string * A))
  : list (string * A) :=
  match l with
  | [] => [(key, x)]
  | (k, y) :: rest =>
      if String.eqb k key then (k, x) :: rest else (k, y) :: set_prop key x rest
  end.

Definition keys {A : Type} (l : list (string * A)) : list string := map fst l.

Definition string_of_nat (n : nat) : string :=
  NilEmpty.string_of_uint (Nat.to_uint n).

Definition string_of_Z (z : Z) : string :=
  NilEmpty.string_of_int (Z.to_int z).

(** A property name that is a canonical array index. *)
Definition index_of_key (key : string) : option nat :=
  match NilEmpty.uint_of_string key with
  | Some u =>
      let i := Nat.of_uint u in
      if String.eqb (string_of_nat i) key then Some i else None
  | None => None
  end.

Fixpoint chars (s : string) : list string :=
  match s with
  | EmptyString => []
  | String c rest => String c EmptyString :: chars rest
  end.

Definition indexed_prop (elems : list jsval) (key : string) : option jsval :=
  if String.eqb key "length" then Some (VNum (Fin (Z.of_nat (length elems))))
  else match index_of_key key with
       | Some i => nth_error elems i
       | None => None
       end.

(** The own property [key] of [v], if there is one.  Arrays and strings own
    their indices and [length]; the other primitives and dates own nothing. *)
Definition own_prop (v : jsval) (key : string) : option jsval :=
  match v with
  | VObj _ fields => lookup key fields
  | VArr items => indexed_prop items key
  | VStr s => indexed_prop (map VStr (chars s)) key
  | _ => None
  end.

(** [typeof v.hasOwnProperty === 'function'], for [v] neither [null] nor
    [undefined]: the method is inherited from [Object.prototype] unless an
    own property of that name shadows it, and an own property holds data.
    Where this fails, the call [v.hasOwnProperty(key)] throws a
    [TypeError]. *)
Definition hasOwnProperty_callable (v : jsval) : bool :=
  match own_prop v "hasOwnProperty" with Some _ => false | None => true end.

(** What [v.hasOwnProperty(key)] returns when the call goes through. *)
Definition hasOwnProperty (v : jsval) (key : string) : bool :=
  match own_prop v key with Some _ => true | None => false end.

(** [v[key]] for an own property; [undefined] when there is none. *)
Definition get_prop (v : jsval) (key : string) : jsval :=
  match own_prop v key with Some x => x | None => VUndefined end.

(** [typeof obj.get === 'function']: the inherited [get] member is callable
    unless an own data property shadows it. *)
Definition has_get_function (v : jsval) : bool :=
  match v with
  | VObj (Some _) fields =>
      match lookup "get" fields with Some _ => false | None => true end
  | _ => false
  end.

(** [obj.get({ plain: true })] *)
Definition call_get (v : jsval) : jsval :=
  match v with
  | VObj (Some plain) _ => plain
  | _ => VUndefined
  end.

(** Nesting depth of a value, the bound on the engine's recursion. *)
Fixpoint depth (v : jsval) : nat :=
  match v with
  | VArr items =>
      S ((fix go (l : list jsval) : nat :=
            match l with [] => 0 | x :: r => Nat.max (depth x) (go r) end) items)
  | VObj snapshot fields =>
      S (Nat.max
           (match snapshot with Some p => S (depth p) | None => 0 end)
           ((fix go (l : props) : nat :=
               match l with [] => 0 | (_, x) :: r => Nat.max (depth x) (go r) end)
              fields))
  | _ => 0
  end.

(* ================================================================== *)
(** ** The JavaScript runtime conversions used by the coercer *)
(* ================================================================== *)

(** The Number value of an integer: the nearest double, ties to the even
    mantissa, and an infinity from 2^1024 on. *)
Definition nearest_double (z : Z) : number :=
  let a := Z.abs z in
  let e := Z.log2 a in
  if (e <=? 52)%Z then Fin z
  else
    let s := (e - 52)%Z in
    let q := Z.shiftr a s in
    let r := Z.land a (Z.ones s) in
    let half := Z.shiftl 1 (s - 1) in
    let q' :=
      if (half <? r)%Z || ((r =? half)%Z && Z.odd q) then (q + 1)%Z else q in
    let m := Z.shiftl q' s in
    if (Z.shiftl 1 1024 <=? m)%Z then Inf (z <? 0)%Z
    else Fin (Z.sgn z * m).

(** What the engine needs from the host's number, bigint and date grammar. *)
Record JSHost : Type := {
  number_to_string : number -> string;     (* Number::toString *)
  string_to_number : string -> number;     (* StringToNumber *)
  string_to_bigint : string -> option Z;   (* StringToBigInt; None: SyntaxError *)
  date_parse : string -> option Z;         (* Date.parse; None: NaN *)
  date_to_string : option Z -> string      (* Date.prototype.toString *)
}.

Section Conversions.

Context (host : JSHost).

(** The abstract operation ToString; [None] when it throws (a symbol, or
    an object left without a callable [toString]). *)
Fixpoint to_string (v : jsval) : option string :=
  match v with
  | VUndefined => Some "undefined"
  | VNull => Some "null"
  | VBool true => Some "true"
  | VBool false => Some "false"
  | VNum n => Some (number_to_string host n)
  | VStr s => Some s
  | VBigInt z => Some (string_of_Z z)
  | VSymbol _ _ => None
  | VDate t => Some (date_to_string host t)
  | VArr items =>
      (fix join (first : bool) (l : list jsval) : option string :=
         match l with
         | [] => Some ""
         | x :: rest =>
             match (if is_nullish x then Some "" else to_string x), join false rest with
             | Some s, Some tail => Some ((if first then "" else ",") ++ s ++ tail)
             | _, _ => None
             end
         end) true items
  | VObj _ fields =>
      (* [Object.prototype.toString], unless an own property shadows it: an
         own property holds data, and [Object.prototype.valueOf] returns no
         primitive, so the conversion throws. *)
      match lookup "toString" fields with
      | Some _ => None
      | None => Some "[object Object]"
      end
  end.

(** [String(v)] *)
Definition js_String (v : jsval) : option string :=
  match v with
  | VSymbol d _ => Some ("Symbol(" ++ d ++ ")")
  | _ => to_string v
  end.

(** [Number(v)]; [None] when it throws. *)
Definition js_Number (v : jsval) : option number :=
  match v with
  | VUndefined => Some NaN
  | VNull => Some (Fin 0)
  | VBool b => Some (Fin (if b then 1 else 0))
  | VNum n => Some n
  | VStr s => Some (string_to_number host s)
  | VBigInt z => Some (nearest_double z)
  | VSymbol _ _ => None
  | VDate (Some t) => Some (Fin t)
  | VDate None => Some NaN
  | VArr _ | VObj _ _ => option_map (string_to_number host) (to_string v)
  end.

(** [Boolean(v)] *)
Definition js_Boolean (v : jsval) : bool :=
  match v with
  | VUndefined | VNull => false
  | VBool b => b
  | VNum NaN => false
  | VNum (Fin z) => negb (Z.eqb z 0)
  | VNum (Inf _) => true
  | VStr s => negb (String.eqb s "")
  | VBigInt z => negb (Z.eqb z 0)
  | VSymbol _ _ | VDate _ | VArr _ | VObj _ _ => true
  end.

(** [BigInt(v)]; [None] when it throws. *)
Definition js_BigInt (v : jsval) : option Z :=
  match v with
  | VUndefined | VNull | VSymbol _ _ => None
  | VBool b => Some (if b then 1 else 0)%Z
  | VNum (Fin z) => Some z
  | VNum _ => None
  | VStr s => string_to_bigint host s
  | VBigInt z => Some z
  | VDate t => t
  | VArr _ | VObj _ _ =>
      match to_string v with
      | Some s => string_to_bigint host s
      | None => None
      end
  end.

(** TimeClip *)
Definition time_clip (n : number) : option Z :=
  match n with
  | Fin t => if (Z.abs t <=? 8640000000000000)%Z then Some t else None
  | _ => None
  end.

(** [new Date(v)]; the outer [None] when it throws. *)
Definition js_new_Date (v : jsval) : option (option Z) :=
  match v with
  | VDate t => Some t
  | VUndefined => Some None
  | VNull => Some (Some 0%Z)
  | VBool b => Some (Some (if b then 1 else 0)%Z)
  | VNum n => Some (time_clip n)
  | VStr s => Some (date_parse host s)
  | VBigInt _ | VSymbol _ _ => None
  | VArr _ | VObj _ _ => option_map (date_parse host) (to_string v)
  end.

End Conversions.

(* ================================================================== *)
(** ** Schemas *)
(* ================================================================== *)

(** What a raw field's [type] resolves to ([value.type()] or [value.type]):
    a builtin constructor, some other plain function such as [Object], a class
    declaration, an array literal, an inline object literal of raw fields, or
    anything else ([undefined], a string, ...). *)
Inductive tyRef : Type :=
| TyNumber | TyString | TyBoolean | TyBigInt | TySymbol | TyDate
| TyFunction (name : string)
| TyClass (name : string)
| TyArray (elems : list tyRef)
| TyInline (fields : list (string * rawField))
| TyOther
with rawField : Type :=
| RawField (rtype : tyRef) (renum : option (list jsval))
           (rrequired rnullable : bool).

Definition rtype_of (r : rawField) : tyRef :=
  match r with RawField t _ _ _ => t end.
Definition renum_of (r : rawField) : option (list jsval) :=
  match r with RawField _ e _ _ => e end.
Definition rrequired_of (r : rawField) : bool :=
  match r with RawField _ _ q _ => q end.
Definition rnullable_of (r : rawField) : bool :=
  match r with RawField _ _ _ n => n end.

(** A prepared field, the object built by [prepareField].  [enum] holds
    [Object.values(value.enum)]; the copy of the raw description kept under
    [metadata] is never read and is left out. *)
Inductive fieldMeta : Type := FieldMeta {
  type : tyRef;
  enum : option (list jsval);
  required : bool;
  nullable : bool;
  isEnum : bool;
  isPrimitive : bool;
  isClass : bool;
  isArrayOfClass : bool;
  isArrayOfPrimitive : bool;
  isNestedObject : bool;
  noCheck : bool;
  expectedType : option string;
  typeCheck : Z;
  nestedFields : list (string * fieldMeta)
}.

Definition dtoFilter : Type := list (string * fieldMeta).

(** A DTO class as the interceptor sees it: the swagger metadata factory and
    the decorators read through [Reflect.getMetadata]. *)
Record dtoClass : Type := {
  openapi_metadata : list (string * rawField);  (* _OPENAPI_METADATA_FACTORY() *)
  classNoCheck : bool;                          (* @NoCheck on the class *)
  classNoCheckPrimitives : bool;                (* @NoCheckPrimitives *)
  propertyNoCheck : string -> bool;             (* @NoCheck on a property *)
  propertyNoOut : string -> bool                (* @NoOut on a property *)
}.

(** [isClass(func)] *)
Definition isClassFn (t : tyRef) : bool :=
  match t with TyClass _ => true | _ => false end.

Definition isArrayTy (t : tyRef) : bool :=
  match t with TyArray _ => true | _ => false end.

(** [type[0]] *)
Definition elem0 (t : tyRef) : tyRef :=
  match t with
  | TyArray (e :: _) => e
  | _ => TyOther
  end.

(** [typeof type === 'object' && !Array.isArray(type)] *)
Definition isInlineTy (t : tyRef) : bool :=
  match t with TyInline _ => true | _ => false end.

(** [getExpectedTypeName(type)] *)
Definition getExpectedTypeName (t : tyRef) : string :=
  match t with
  | TyNumber => "number"
  | TyString => "string"
  | TyBoolean => "boolean"
  | TyBigInt => "bigint"
  | TySymbol => "symbol"
  | TyDate => "date"
  | _ => "unknown"
  end.

Definition bit (b : bool) (n : Z) : Z := if b then n else 0%Z.

(** [prepareField(value, noCheck, noCheckPrimitives)], with the call of
    [prepareMetadata(type, Object, noCheck, noCheckPrimitives)] for an inline
    object unfolded in place: [Object.prototype] carries no decorator, so no
    nested key is dropped and every nested field inherits [noCheck]. *)
Fixpoint prepareField (value : rawField) (noCheck0 noCheckPrimitives : bool)
  : fieldMeta :=
  let ty := rtype_of value in
  let isNested := isInlineTy ty in
  let isEnum0 := match renum_of value with Some _ => true | None => false end in
  let nested :=
    match ty with
    | TyInline fields =>
        (fix prepareInline (l : list (string * rawField)) (acc : dtoFilter)
           : dtoFilter :=
           match l with
           | [] => acc
           | (key, v) :: rest =>
               prepareInline rest
                 (set_prop key (prepareField v noCheck0 noCheckPrimitives) acc)
           end) fields []
    | _ => []
    end in
  let isClass0 := if isNested then false else isClassFn ty in
  let isArrayOfClass0 :=
    if isNested then false else isArrayTy ty && isClassFn (elem0 ty) in
  let isArrayOfPrimitive0 :=
    if isNested then false else isArrayTy ty && negb (isClassFn (elem0 ty)) in
  let isPrimitive0 :=
    if isNested then false
    else negb isClass0 && negb isArrayOfClass0 && negb isArrayOfPrimitive0
         && negb isEnum0 && negb isNested in
  let scalar := isPrimitive0 || isArrayOfPrimitive0 in
  {| type := ty;
     enum := renum_of value;
     required := rrequired_of value;
     nullable := rnullable_of value;
     isEnum := isEnum0;
     isPrimitive := isPrimitive0;
     isClass := isClass0;
     isArrayOfClass := isArrayOfClass0;
     isArrayOfPrimitive := isArrayOfPrimitive0;
     isNestedObject := isNested;
     noCheck := if scalar && noCheckPrimitives then true else noCheck0;
     expectedType :=
       if scalar
       then Some (getExpectedTypeName (if isArrayOfPrimitive0 then elem0 ty else ty))
       else None;
     typeCheck :=
       Z.lor (Z.lor (Z.lor (Z.lor (Z.lor
         (bit isPrimitive0 1) (bit isClass0 2)) (bit isArrayOfClass0 4))
         (bit isEnum0 8)) (bit isArrayOfPrimitive0 16)) (bit isNested 32);
     nestedFields := nested |}.

(** [prepareMetadata(metadata, DtoClass, classNoCheck, classNoCheckPrimitives)]:
    the [reduce] over [Object.entries(metadata)], [propertyNoCheck] and
    [propertyNoOut] being the decorators of [DtoClass.prototype]. *)
Fixpoint prepareMetadata_from (acc : dtoFilter)
    (metadata : list (string * rawField))
    (propertyNoCheck propertyNoOut : string -> bool)
    (classNoCheck classNoCheckPrimitives : bool) : dtoFilter :=
  match metadata with
  | [] => acc
  | (key, value) :: rest =>
      let acc' :=
        if propertyNoOut key then acc
        else set_prop key
               (prepareField value (classNoCheck || propertyNoCheck key)
                  classNoCheckPrimitives) acc in
      prepareMetadata_from acc' rest propertyNoCheck propertyNoOut
        classNoCheck classNoCheckPrimitives
  end.

Definition prepareMetadata (metadata : list (string * rawField))
    (propertyNoCheck propertyNoOut : string -> bool)
    (classNoCheck classNoCheckPrimitives : bool) : dtoFilter :=
  prepareMetadata_from [] metadata propertyNoCheck propertyNoOut
    classNoCheck classNoCheckPrimitives.

(** The prepared metadata of a class, what [transformDtoFilter] stores in
    [dtoCache] for it:
    [prepareMetadata(DtoClass._OPENAPI_METADATA_FACTORY(), DtoClass,
    classNoCheck, classNoCheckPrimitives)]. *)
Definition filter_of_class (c : dtoClass) : dtoFilter :=
  prepareMetadata (openapi_metadata c) (propertyNoCheck c) (propertyNoOut c)
    (classNoCheck c) (classNoCheckPrimitives c).

(* ================================================================== *)
(** ** Errors and results *)
(* ================================================================== *)

(** The last constructor argument of [TransformError]: the DTO filter in
    [transform], the field's own metadata everywhere else. *)
Inductive errFilter : Type :=
| OfFilter (f : dtoFilter)
| OfField (fm : fieldMeta).

(** [new TransformError(message, dtoName, fieldName, receivedValue,
    expectedType, expectedValues, fullObject, filter)] *)
Record transformError : Type := TransformError {
  err_message : string;
  err_dtoName : string;
  err_fieldName : string;
  err_receivedValue : jsval;
  err_expectedType : option string;
  err_expectedValues : option (list jsval);
  err_fullObject : jsval;
  err_filter : errFilter
}.

(** What a call can throw: a [TransformError], a [TypeError] of the runtime
    (a property read on [null], a type without metadata factory), or the
    recursion bound of the embedding being hit. *)
Inductive exn : Type :=
| TransformErr (e : transformError)
| TypeError (what : string)
| FuelExhausted.

Inductive outcome (A : Type) : Type :=
| Ok (a : A)
| Throw (e : exn).

Arguments Ok {A} a.
Arguments Throw {A} e.

Definition bind {A B : Type} (r : outcome A) (k : A -> outcome B) : outcome B :=
  match r with
  | Ok a => k a
  | Throw e => Throw e
  end.

Notation "x <- r ;; k" := (bind r (fun x => k))
  (at level 61, r at next level, right associativity).

(** [l.map((item, index) => f(item, index))], stopping at the first throw. *)
Fixpoint map_from {A B : Type} (f : A -> nat -> outcome B) (index : nat)
    (l : list A) : outcome (list B) :=
  match l with
  | [] => Ok []
  | item :: rest =>
      y <- f item index ;;
      ys <- map_from f (S index) rest ;;
      Ok (y :: ys)
  end.

Definition map_indexed {A B : Type} (f : A -> nat -> outcome B) (l : list A)
  : outcome (list B) := map_from f 0 l.

(* ================================================================== *)
(** ** The primitive coercer *)
(* ================================================================== *)

(** [Object.values(e).includes(v)] compares with SameValueZero: primitives by
    value ([NaN] equal to itself), objects by identity; a received object is
    never one of the objects stored in the schema. *)
Definition same_value_zero (a b : jsval) : bool :=
  match a, b with
  | VUndefined, VUndefined => true
  | VNull, VNull => true
  | VBool x, VBool y => Bool.eqb x y
  | VNum x, VNum y => number_eqb x y
  | VStr x, VStr y => String.eqb x y
  | VBigInt x, VBigInt y => Z.eqb x y
  | VSymbol _ i, VSymbol _ j => Nat.eqb i j
  | _, _ => false
  end.

Definition includes (l : list jsval) (v : jsval) : bool :=
  existsb (fun x => same_value_zero x v) l.

(** [validatePrimitiveType(value, expectedType)]; [expectedType] is [None]
    for the [null] that [prepareField] leaves on non-scalar fields. *)
Definition validatePrimitiveType (value : jsval) (expectedType : option string)
  : bool :=
  match expectedType with
  | Some t =>
      if t =? "number" then
        match value with VNum n => negb (isNaN n) | _ => false end
      else if t =? "string" then typeof value =? "string"
      else if t =? "boolean" then typeof value =? "boolean"
      else if t =? "bigint" then typeof value =? "bigint"
      else if t =? "symbol" then typeof value =? "symbol"
      else if t =? "date" then
        match value with VDate (Some _) => true | _ => false end
      else false
  | None => false
  end.

Section Engine.

Context (host : JSHost).

(** The DTO classes of the application, by class name. *)
Context (classes : string -> option dtoClass).

(** [coerceToPrimitiveType(value, expectedType)]; [None] when the conversion
    throws. *)
Definition coerceToPrimitiveType (value : jsval) (expectedType : option string)
  : option jsval :=
  match expectedType with
  | Some t =>
      if t =? "number" then option_map VNum (js_Number host value)
      else if t =? "string" then option_map VStr (js_String host value)
      else if t =? "boolean" then Some (VBool (js_Boolean value))
      else if t =? "bigint" then option_map VBigInt (js_BigInt host value)
      else if t =? "date" then option_map VDate (js_new_Date host value)
      else Some value
  | None => Some value
  end.

(** The template literal [`${expectedType}`]. *)
Definition show_expected (expectedType : option string) : string :=
  match expectedType with Some t => t | None => "null" end.

Definition wrong_scalar_type (value : jsval) (fieldMetadata : fieldMeta)
    (fieldPath : string) : exn :=
  TransformErr
    (TransformError
       ("Field should be a " ++ show_expected (expectedType fieldMetadata))
       fieldPath "" value (expectedType fieldMetadata) None value
       (OfField fieldMetadata)).

(** [transformPrimitive(value, fieldMetadata, fieldPath)] *)
Definition transformPrimitive (value : jsval) (fieldMetadata : fieldMeta)
    (fieldPath : string) : outcome jsval :=
  if noCheck fieldMetadata then Ok value
  else
    let expectedType := expectedType fieldMetadata in
    if negb (validatePrimitiveType value expectedType) then
      match coerceToPrimitiveType value expectedType with
      | Some coercedValue =>
          if negb (validatePrimitiveType coercedValue expectedType)
          then Throw (wrong_scalar_type value fieldMetadata fieldPath)
          else Ok coercedValue
      | None => Throw (wrong_scalar_type value fieldMetadata fieldPath)
      end
    else Ok value.

(** [validateFieldType(value, fieldMetadata, fieldPath)], returning
    [(isValid, expectedType)].  A prepared field is always an object, so the
    guard on [fieldMetadata] itself never fires. *)
Definition validateFieldType (value : jsval) (fieldMetadata : fieldMeta)
    (fieldPath : string) : bool * option string :=
  if noCheck fieldMetadata then (true, None)
  else
    let tc := typeCheck fieldMetadata in
    if (tc =? 1)%Z then
      let expectedType :=
        match expectedType fieldMetadata with
        | Some t => if t =? "" then "primitive" else t
        | None => "primitive"
        end in
      (validatePrimitiveType value (Some expectedType), Some expectedType)
    else if (tc =? 2)%Z || (tc =? 32)%Z then
      ((typeof value =? "object") && negb (is_null value), Some "object")
    else if (tc =? 4)%Z || (tc =? 16)%Z then
      (isArray value, Some "array")
    else if (tc =? 8)%Z then
      (match enum fieldMetadata with
       | Some allowed => includes allowed value
       | None => false
       end, Some "enum")
    else (false, Some "unknown").

(** [isFieldRequired(fieldMetadata)] *)
Definition isFieldRequired (fieldMetadata : fieldMeta) : bool :=
  required fieldMetadata.

(** [transformDtoFilter(DtoClass)].  The cache [dtoCache] memoises the
    prepared metadata by class name; classes are identified by their name
    here, so the memo is not observable and the filter is recomputed. *)
Definition transformDtoFilter (DtoClass : tyRef) : outcome dtoFilter :=
  match DtoClass with
  | TyClass name =>
      match classes name with
      | Some c => Ok (filter_of_class c)
      | None => Throw (TypeError "DtoClass._OPENAPI_METADATA_FACTORY is not a function")
      end
  | _ => Throw (TypeError "DtoClass._OPENAPI_METADATA_FACTORY is not a function")
  end.

(** [type.name] *)
Definition type_name (t : tyRef) : option string :=
  match t with
  | TyNumber => Some "Number"
  | TyString => Some "String"
  | TyBoolean => Some "Boolean"
  | TyBigInt => Some "BigInt"
  | TySymbol => Some "Symbol"
  | TyDate => Some "Date"
  | TyFunction name | TyClass name => Some name
  | _ => None
  end.

(** The thrown [TransformError] values, in source order. *)
Definition err (message dtoName fieldName : string) (receivedValue : jsval)
    (expectedType : option string) (expectedValues : option (list jsval))
    (fullObject : jsval) (filter : errFilter) : exn :=
  TransformErr
    (TransformError message dtoName fieldName receivedValue expectedType
       expectedValues fullObject filter).

Section Recursion.

(** [this.transform], as seen from inside one call. *)
Variable transform_rec : jsval -> dtoFilter -> string -> outcome jsval.

(** The loop of [transformField] over [Object.entries(fieldMetadata.nestedFields)]
    that follows the recursive transform of an inline nested object. *)
Fixpoint validateNestedFields (value : jsval) (fieldMetadata : fieldMeta)
    (fieldPath : string) (entries : dtoFilter) : outcome unit :=
  match entries with
  | [] => Ok tt
  | (nestedKey, nestedValue) :: rest =>
      let nestedFieldPath := fieldPath ++ "." ++ nestedKey in
      if negb (hasOwnProperty_callable value) then
        Throw (TypeError "value.hasOwnProperty is not a function")
      else if hasOwnProperty value nestedKey then
        let validationResult :=
          validateFieldType (get_prop value nestedKey) nestedValue nestedFieldPath in
        if negb (fst validationResult) then
          Throw (err ("Invalid type for nested field '" ++ nestedKey ++ "'")
                   nestedFieldPath nestedKey (get_prop value nestedKey)
                   (snd validationResult) None value (OfField fieldMetadata))
        else validateNestedFields value fieldMetadata fieldPath rest
      else if isFieldRequired nestedValue then
        Throw (err ("Required nested field '" ++ nestedKey ++ "' is missing")
                 fieldPath nestedKey VUndefined None None value
                 (OfField fieldMetadata))
      else validateNestedFields value fieldMetadata fieldPath rest
  end.

(** The [switch (fieldMetadata.typeCheck)] that ends [transformField]. *)
Definition transformField_switch (value : jsval) (fieldMetadata : fieldMeta)
    (fieldPath : string) : outcome jsval :=
  let tc := typeCheck fieldMetadata in
  if (tc =? 1)%Z then transformPrimitive value fieldMetadata fieldPath
  else if (tc =? 2)%Z || (tc =? 32)%Z then
    if negb (typeof value =? "object") || is_null value then
      Throw (err "Field should be an object" fieldPath "" value (Some "object")
               None value (OfField fieldMetadata))
    else
      filter <- (if isNestedObject fieldMetadata
                 then Ok (nestedFields fieldMetadata)
                 else transformDtoFilter (type fieldMetadata)) ;;
      transform_rec value filter fieldPath
  else if (tc =? 4)%Z || (tc =? 16)%Z then
    match value with
    | VArr items =>
        out <- map_indexed
                 (fun item index =>
                    let itemPath := fieldPath ++ "[" ++ string_of_nat index ++ "]" in
                    if is_undefined item then
                      Throw (err "Invalid value in array" itemPath "" item
                               (Some "non-undefined") None value
                               (OfField fieldMetadata))
                    else if is_null item && nullable fieldMetadata then Ok VNull
                    else if (tc =? 4)%Z then
                      itemFilter <- transformDtoFilter (elem0 (type fieldMetadata)) ;;
                      transform_rec item itemFilter itemPath
                    else transformPrimitive item fieldMetadata itemPath)
                 items ;;
        Ok (VArr out)
    | _ =>
        Throw (err "Field should be an array" fieldPath "" value (Some "array")
                 None value (OfField fieldMetadata))
    end
  else if (tc =? 8)%Z then
    match enum fieldMetadata with
    | Some allowed =>
        if negb (includes allowed value) then
          Throw (err "Invalid enum value" fieldPath "" value (Some "enum")
                   (Some allowed) value (OfField fieldMetadata))
        else Ok value
    | None => Throw (TypeError "Cannot convert undefined or null to object")
    end
  else
    Throw (err "Unexpected type for field" fieldPath "" value None None value
             (OfField fieldMetadata)).

(** [transformField(value, fieldMetadata, fieldPath)] *)
Definition transformField (value : jsval) (fieldMetadata : fieldMeta)
    (fieldPath : string) : outcome jsval :=
  if is_undefined value then
    if required fieldMetadata then
      Throw (err "Required field is missing" fieldPath "" value
               (type_name (type fieldMetadata)) None value (OfField fieldMetadata))
    else Ok VUndefined
  else if is_null value && nullable fieldMetadata then Ok VNull
  else if isNestedObject fieldMetadata then
    if negb (typeof value =? "object") || is_null value then
      Throw (err "Field should be an object" fieldPath "" value (Some "object")
               None value (OfField fieldMetadata))
    else
      transformedNested <-
        transform_rec value (nestedFields fieldMetadata) fieldPath ;;
      _ <- validateNestedFields value fieldMetadata fieldPath
             (nestedFields fieldMetadata) ;;
      Ok transformedNested
  else transformField_switch value fieldMetadata fieldPath.

(** The [for (const [key, value] of Object.entries(filter))] loop of
    [transform]: [entries] is what is left to visit, [result] the object built
    so far. *)
Fixpoint transform_fields (obj : jsval) (filter : dtoFilter) (dtoName : string)
    (entries : dtoFilter) (result : props) : outcome props :=
  match entries with
  | [] => Ok result
  | (key, value) :: rest =>
      if is_nullish obj then
        Throw (TypeError
                 ("Cannot read properties of " ++
                  (if is_undefined obj then "undefined" else "null") ++
                  " (reading 'hasOwnProperty')"))
      else if negb (hasOwnProperty_callable obj) then
        Throw (TypeError "obj.hasOwnProperty is not a function")
      else if negb (hasOwnProperty obj key) then
        if negb (noCheck value) && (required value || isNestedObject value) then
          Throw (err ("Required field '" ++ key ++ "' is missing") dtoName key
                   VUndefined None None obj (OfFilter filter))
        else transform_fields obj filter dtoName rest result
      else if is_undefined (get_prop obj key) then
        if negb (noCheck value) && required value then
          Throw (err ("Required field '" ++ key ++ "' cannot be undefined") dtoName
                   key VUndefined None None obj (OfFilter filter))
        else transform_fields obj filter dtoName rest result
      else if is_null (get_prop obj key) then
        if noCheck value || nullable value then
          transform_fields obj filter dtoName rest (set_prop key VNull result)
        else
          Throw (err ("Field '" ++ key ++ "' cannot be null") dtoName key VNull
                   None None obj (OfFilter filter))
      else
        out <- transformField (get_prop obj key) value (dtoName ++ "." ++ key) ;;
        transform_fields obj filter dtoName rest (set_prop key out result)
  end.

(** The body of [transform(obj, filter, dtoName)]. *)
Definition transform_body (obj : jsval) (filter : dtoFilter) (dtoName : string)
  : outcome jsval :=
  if is_nullish obj then Ok VNull
  else
    let obj := if has_get_function obj then call_get obj else obj in
    match obj with
    | VArr items =>
        out <- map_indexed (fun item _ => transform_rec item filter dtoName) items ;;
        Ok (VArr out)
    | _ =>
        result <- transform_fields obj filter dtoName filter [] ;;
        Ok (record result)
    end.

End Recursion.

(** [transform] with its recursion depth bounded by [fuel]. *)
Fixpoint transform_fuel (fuel : nat) (obj : jsval) (filter : dtoFilter)
    (dtoName : string) : outcome jsval :=
  match fuel with
  | O => Throw FuelExhausted
  | S fuel' => transform_body (transform_fuel fuel') obj filter dtoName
  end.

(** [transform(obj, filter, dtoName)]: every recursive call descends into the
    value, so its depth bounds the recursion. *)
Definition transform (obj : jsval) (filter : dtoFilter) (dtoName : string)
  : outcome jsval :=
  transform_fuel (S (depth obj)) obj filter dtoName.

End Engine.

(* ================================================================== *)
(** ** The engine of the earlier revision *)
(* ================================================================== *)

(** The earlier revision of the interceptor shares [prepareField],
    [transformPrimitive], the validators and the pipeline with the later one;
    its [transform] and [transformField] differ, and the array and enum cases
    are methods of their own. *)
Module Rev1.

Section Engine.

Context (host : JSHost) (classes : string -> option dtoClass).

Section Recursion.

(** [this.transform], as seen from inside one call. *)
Variable transform_rec : jsval -> dtoFilter -> string -> outcome jsval.

(** [transformArrayOfClass(value, fieldMetadata, fieldPath)] *)
Definition transformArrayOfClass (value : jsval) (fieldMetadata : fieldMeta)
    (fieldPath : string) : outcome jsval :=
  if negb (noCheck fieldMetadata) && negb (isArray value) then
    Throw (err "Field should be an array" fieldPath "" value (Some "array") None
             value (OfField fieldMetadata))
  else
    itemFilter <- transformDtoFilter classes (elem0 (type fieldMetadata)) ;;
    match value with
    | VArr items =>
        out <- map_indexed
                 (fun item index =>
                    transform_rec item itemFilter
                      (fieldPath ++ "[" ++ string_of_nat index ++ "]"))
                 items ;;
        Ok (VArr out)
    | _ => if noCheck fieldMetadata then Ok value else Ok (VArr [])
    end.

(** [transformEnum(value, fieldMetadata, fieldPath)] *)
Definition transformEnum (value : jsval) (fieldMetadata : fieldMeta)
    (fieldPath : string) : outcome jsval :=
  if noCheck fieldMetadata then Ok value
  else
    match enum fieldMetadata with
    | Some allowed =>
        if negb (includes allowed value) then
          Throw (err "Invalid enum value" fieldPath "" value (Some "enum")
                   (Some allowed) value (OfField fieldMetadata))
        else Ok value
    | None => Throw (TypeError "Cannot convert undefined or null to object")
    end.

(** [transformArrayOfPrimitive(value, fieldMetadata, fieldPath)] *)
Definition transformArrayOfPrimitive (value : jsval) (fieldMetadata : fieldMeta)
    (fieldPath : string) : outcome jsval :=
  if negb (noCheck fieldMetadata) && negb (isArray value) then
    Throw (err "Field should be an array" fieldPath "" value (Some "array") None
             value (OfField fieldMetadata))
  else
    match value with
    | VArr items =>
        out <- map_indexed
                 (fun item index =>
                    transformPrimitive host item fieldMetadata
                      (fieldPath ++ "[" ++ string_of_nat index ++ "]"))
                 items ;;
        Ok (VArr out)
    | _ => if noCheck fieldMetadata then Ok value else Ok (VArr [])
    end.

(** [transformField(value, fieldMetadata, fieldPath)]: the
    [switch (fieldMetadata.typeCheck)] and nothing before it. *)
Definition transformField (value : jsval) (fieldMetadata : fieldMeta)
    (fieldPath : string) : outcome jsval :=
  let tc := typeCheck fieldMetadata in
  if (tc =? 1)%Z then transformPrimitive host value fieldMetadata fieldPath
  else if (tc =? 2)%Z then
    filter <- transformDtoFilter classes (type fieldMetadata) ;;
    transform_rec value filter fieldPath
  else if (tc =? 4)%Z then transformArrayOfClass value fieldMetadata fieldPath
  else if (tc =? 8)%Z then transformEnum value fieldMetadata fieldPath
  else if (tc =? 16)%Z then
    transformArrayOfPrimitive value fieldMetadata fieldPath
  else if (tc =? 32)%Z then
    transform_rec value (nestedFields fieldMetadata) fieldPath
  else if noCheck fieldMetadata then Ok value
  else
    Throw (err "Unexpected type for field" fieldPath "" value None None value
             (OfField fieldMetadata)).

(** The [for (const [key, value] of Object.entries(filter))] loop of
    [transform]. *)
Fixpoint transform_fields (obj : jsval) (filter : dtoFilter) (dtoName : string)
    (entries : dtoFilter) (result : props) : outcome props :=
  match entries with
  | [] => Ok result
  | (key, value) :: rest =>
      if is_nullish obj then
        Throw (TypeError
                 ("Cannot read properties of " ++
                  (if is_undefined obj then "undefined" else "null") ++
                  " (reading 'hasOwnProperty')"))
      else if negb (hasOwnProperty_callable obj) then
        Throw (TypeError "obj.hasOwnProperty is not a function")
      else if negb (hasOwnProperty obj key) then
        if negb (noCheck value) && required value && negb (nullable value) then
          Throw (err ("Required field '" ++ key ++ "' is missing") dtoName key
                   VUndefined None None obj (OfFilter filter))
        else transform_fields obj filter dtoName rest result
      else if is_null (get_prop obj key) then
        if noCheck value || nullable value then
          transform_fields obj filter dtoName rest (set_prop key VNull result)
        else
          Throw (err ("Field '" ++ key ++ "' cannot be null") dtoName key VNull
                   None None obj (OfFilter filter))
      else
        out <- transformField (get_prop obj key) value (dtoName ++ "." ++ key) ;;
        transform_fields obj filter dtoName rest (set_prop key out result)
  end.

(** The body of [transform(obj, filter, dtoName)]. *)
Definition transform_body (obj : jsval) (filter : dtoFilter) (dtoName : string)
  : outcome jsval :=
  if is_nullish obj then Ok VNull
  else
    let obj := if has_get_function obj then call_get obj else obj in
    match obj with
    | VArr items =>
        out <- map_indexed (fun item _ => transform_rec item filter dtoName) items ;;
        Ok (VArr out)
    | _ =>
        result <- transform_fields obj filter dtoName filter [] ;;
        Ok (record result)
    end.

End Recursion.

(** [transform(obj, filter, dtoName)] with its recursion depth bounded by
    [fuel].  This revision recurses into class and inline-object fields
    without asking for an object first, so the depth of the value does not
    bound the recursion in general (a string owns its characters, which are
    strings); results are stated for every large enough [fuel]. *)
Fixpoint transform_fuel (fuel : nat) (obj : jsval) (filter : dtoFilter)
    (dtoName : string) : outcome jsval :=
  match fuel with
  | O => Throw FuelExhausted
  | S fuel' => transform_body (transform_fuel fuel') obj filter dtoName
  end.

End Engine.

End Rev1.


(* ================================================================== *)
(** ** The schema cache *)
(* ================================================================== *)

(** A constructor as [transformDtoFilter] receives it: its [name], and the
    DTO declaration behind its [_OPENAPI_METADATA_FACTORY] and decorators,
    when it has such a factory. *)
Record constructorRef : Type := Constructor {
  ctor_name : string;
  ctor_dto : option dtoClass
}.

(** [dtoCache], a [Map] from class names to prepared metadata, in insertion
    order. *)
Definition dtoCacheMap : Type := list (string * dtoFilter).

(** [transformDtoFilter(DtoClass)] together with [dtoCache], which it reads
    and extends: the prepared metadata returned, and the cache afterwards. *)
Definition transformDtoFilter_cached (dtoCache : dtoCacheMap)
    (DtoClass : constructorRef) : outcome (dtoFilter * dtoCacheMap) :=
  match lookup (ctor_name DtoClass) dtoCache with
  | Some cached => Ok (cached, dtoCache)
  | None =>
      match ctor_dto DtoClass with
      | Some c =>
          let preparedMetadata := filter_of_class c in
          Ok (preparedMetadata,
              set_prop (ctor_name DtoClass) preparedMetadata dtoCache)
      | None => Throw (TypeError "DtoClass._OPENAPI_METADATA_FACTORY is not a function")
      end
  end.

(** [FastTransformInterceptor.clearCache()] *)
Definition clearCache (dtoCache : dtoCacheMap) : dtoCacheMap := [].

(** The constructor a class table has under [name]. *)
Definition constructor_of (classes : string -> option dtoClass) (name : string)
  : constructorRef :=
  Constructor name (classes name).

(** Every cached entry is the prepared metadata of the class the table has
    under that name. *)
Definition cache_coherent (classes : string -> option dtoClass)
    (dtoCache : dtoCacheMap) : Prop :=
  forall name cached,
    lookup name dtoCache = Some cached ->
    exists c, classes name = Some c /\ cached = filter_of_class c.


(* ================================================================== *)
(** ** The interceptor around the engine *)
(* ================================================================== *)

(** This part models an interceptor constructed with [debug] off (the
    default, [options.debug ?? false]): no console output, and [debug: null]
    in every error response. *)

(** What reaches a [catch]: a [BadRequestException] with its response
    object, a [TransformError], another [Error] with its [name] and
    [message], or a thrown value that is no [Error]. *)
Inductive thrown : Type :=
| BadRequestException (response : jsval)
| TransformErrorThrown (e : transformError)
| ErrorThrown (name message : string)
| ValueThrown (v : jsval).

(** The exceptions of the engine as thrown values. *)
Definition thrown_of (e : exn) : thrown :=
  match e with
  | TransformErr e => TransformErrorThrown e
  | TypeError what => ErrorThrown "TypeError" what
  | FuelExhausted => ErrorThrown "RangeError" "Maximum call stack size exceeded"
  end.

(** What the stream of [next.handle()] delivers to the operators piped onto
    it: a value, or an error that ends the stream. *)
Inductive notification : Type :=
| Next (value : jsval)
| Error (error : thrown).

(** The interceptor's fields after its constructor. *)
Record interceptor : Type := {
  defaultResponse : jsval;
  defaultResponseKey : string;
  defaultDataKey : option string
}.

(** The constructor's options; [None] is an option left out (or [null]). *)
Record interceptorOptions : Type := {
  opt_defaultResponse : option jsval;
  opt_defaultResponseKey : option string;
  opt_defaultDataKey : option string
}.

(** [constructor(options)] *)
Definition new_interceptor (options : interceptorOptions) : interceptor := {|
  defaultResponse :=
    match opt_defaultResponse options with
    | Some r => if is_nullish r then VNull else r
    | None => VNull
    end;
  defaultResponseKey :=
    match opt_defaultResponseKey options with Some k => k | None => "data" end;
  defaultDataKey := opt_defaultDataKey options
|}.

(** A [dataKey] as metadata holds it: left out, [null], or a string. *)
Inductive dataKeyOption : Type :=
| DataKeyUndefined
| DataKeyNull
| DataKey (key : string).

(** The metadata stored under [RESPONSE_TYPE_KEY]: [type] ([None] when it is
    left out), [noTransform], [response] ([undefined] when left out),
    [responseKey] and [dataKey]. *)
Record responseTypeMetadata : Type := {
  md_type : option tyRef;
  md_noTransform : bool;
  md_response : jsval;
  md_responseKey : option string;
  md_dataKey : dataKeyOption
}.

(** The options of the [@ResponseType] decorator that reach the metadata. *)
Record responseTypeOptions : Type := {
  rt_type : option tyRef;
  rt_noTransform : option bool;
  rt_response : jsval;
  rt_responseKey : option string;
  rt_dataKey : dataKeyOption
}.

(** The object [ResponseType(options)] passes to
    [SetMetadata(RESPONSE_TYPE_KEY, ...)], after the defaults of its
    destructuring: [noTransform = false] and [responseKey = 'data']. *)
Definition ResponseType (options : responseTypeOptions) : responseTypeMetadata := {|
  md_type := rt_type options;
  md_noTransform :=
    match rt_noTransform options with Some b => b | None => false end;
  md_response := rt_response options;
  md_responseKey :=
    Some (match rt_responseKey options with Some k => k | None => "data" end);
  md_dataKey := rt_dataKey options
|}.

(** The entries of an array, keyed by index from [index] on. *)
Fixpoint indexed_from (index : nat) (items : list jsval) : props :=
  match items with
  | [] => []
  | x :: rest => (string_of_nat index, x) :: indexed_from (S index) rest
  end.

(** The own enumerable properties that [{ ...v }] copies. *)
Definition spread (v : jsval) : props :=
  match v with
  | VObj _ fields => fields
  | VArr items => indexed_from 0 items
  | VStr s => indexed_from 0 (map VStr (chars s))
  | _ => []
  end.

(** Where a new property named by the array index [index] goes in a list of
    own properties: integer-like names enumerate first, in ascending order,
    before every other name. *)
Fixpoint insert_index (index : nat) (key : string) (x : jsval) (l : props)
  : props :=
  match l with
  | [] => [(key, x)]
  | (k, y) :: rest =>
      match index_of_key k with
      | Some i =>
          if Nat.ltb index i then (key, x) :: l
          else (k, y) :: insert_index index key x rest
      | None => (key, x) :: l
      end
  end.

(** [result[key] = x] on an object whose own properties are [l]: an existing
    property keeps its place; a new one goes among the integer-like names
    when [key] is one, and after every property otherwise. *)
Definition assign_prop (key : string) (x : jsval) (l : props) : props :=
  match lookup key l, index_of_key key with
  | None, Some index => insert_index index key x l
  | _, _ => set_prop key x l
  end.

(** [dataToResponse(data, response, responseKey)] *)
Definition dataToResponse (data response : jsval) (responseKey : string)
  : jsval :=
  if negb (js_Boolean response) then data
  else record (assign_prop responseKey data (spread response)).

(** [getDataObject(data, dataKey)]; reading a key of [null] or [undefined]
    throws.  The key is read among the own properties of [data]. *)
Definition getDataObject (data : jsval) (dataKey : option string)
  : outcome jsval :=
  match dataKey with
  | None => Ok data
  | Some key =>
      if key =? "" then Ok data
      else if is_nullish data then
        Throw (TypeError
                 ("Cannot read properties of " ++
                  (if is_undefined data then "undefined" else "null") ++
                  " (reading '" ++ key ++ "')"))
      else Ok (get_prop data key)
  end.

(** The response object of the [BadRequestException] built by
    [handleError]. *)
Definition error_response (errorMessage : string) : jsval :=
  record [("message", VStr errorMessage); ("debug", VNull)].

(** [handleError(error)] *)
Definition handleError (error : thrown) : thrown :=
  match error with
  | BadRequestException _ => error
  | TransformErrorThrown e =>
      BadRequestException
        (error_response ("Validation error: " ++ err_message e))
  | ErrorThrown _ message =>
      BadRequestException (error_response ("Unexpected error: " ++ message))
  | ValueThrown _ =>
      BadRequestException
        (error_response "An error occurred while processing the request.")
  end.

Section Interceptor.

Context (host : JSHost) (classes : string -> option dtoClass).
Context (this : interceptor).

(** The [try] block of the callback given to [map] on a route that
    transforms; [dtoName] is [dtoType.name]. *)
Definition transform_data (isArray0 : bool) (dtoFilter0 : dtoFilter)
    (dtoName : string) (response : jsval) (responseKey : string)
    (dataKey : option string) (data : jsval) : outcome jsval :=
  dataObj <- getDataObject data dataKey ;;
  if isArray0 && negb (isArray dataObj) then
    Throw (err ("Expected an array, but received " ++ typeof dataObj) dtoName
             responseKey dataObj (Some "array") None data (OfFilter dtoFilter0))
  else
    transformedData <- transform host classes dataObj dtoFilter0 dtoName ;;
    Ok (dataToResponse transformedData response responseKey).

(** The callback given to [map]: what the [try] block returns is the next
    value; what it throws is rethrown as [this.handleError(error)] and ends
    the stream. *)
Definition map_callback (isArray0 : bool) (dtoFilter0 : dtoFilter)
    (dtoName : string) (response : jsval) (responseKey : string)
    (dataKey : option string) (data : jsval) : notification :=
  match
    transform_data isArray0 dtoFilter0 dtoName response responseKey dataKey data
  with
  | Ok value => Next value
  | Throw e => Error (handleError (thrown_of e))
  end.

(** [catchError(error => throwError(() => this.handleError(error)))] *)
Definition catch_error (n : notification) : notification :=
  match n with
  | Next value => Next value
  | Error error => Error (handleError error)
  end.

(** [intercept(context, next)], on what the reflector finds under
    [RESPONSE_TYPE_KEY] and on one notification of [next.handle()].  [Throw]
    is an exception thrown by [intercept] itself, before the stream is
    returned. *)
Definition intercept (metadata : option responseTypeMetadata)
    (upstream : notification) : outcome notification :=
  match metadata with
  | None => Ok upstream
  | Some metadata =>
      let response :=
        if is_undefined (md_response metadata) then defaultResponse this
        else md_response metadata in
      let responseKey :=
        match md_responseKey metadata with
        | Some key => key
        | None => defaultResponseKey this
        end in
      let dataKey :=
        match md_dataKey metadata with
        | DataKeyUndefined => defaultDataKey this
        | DataKeyNull => None
        | DataKey key => Some key
        end in
      match (if md_noTransform metadata then None else md_type metadata) with
      | None =>
          Ok (match upstream with
              | Next data => Next (dataToResponse data response responseKey)
              | Error error => Error error
              end)
      | Some responseType =>
          let isArray0 := isArrayTy responseType in
          let dtoType := if isArray0 then elem0 responseType else responseType in
          dtoFilter0 <- transformDtoFilter classes dtoType ;;
          (* [dtoType.name]: a [dtoType] without a name did not get past
             [transformDtoFilter]. *)
          let dtoName :=
            match type_name dtoType with Some name => name | None => "" end in
          Ok (catch_error
                (match upstream with
                 | Next data =>
                     map_callback isArray0 dtoFilter0 dtoName response
                       responseKey dataKey data
                 | Error error => Error error
                 end))
      end
  end.

End Interceptor.


(* ================================================================== *)
(** ** A concrete host and class table for running the engine *)
(* ================================================================== *)

Definition parse_digits (s : string) : option Z :=
  match s with
  | EmptyString => None
  | _ => option_map Z.of_uint (NilEmpty.uint_of_string s)
  end.

Definition parse_integer (s : string) : option Z :=
  match s with
  | EmptyString => Some 0%Z
  | String "-"%char rest => option_map Z.opp (parse_digits rest)
  | String "+"%char rest => parse_digits rest
  | _ => parse_digits s
  end.

(** A host that reads and prints integer numerals and knows one date string:
    enough to run the engine on the examples below, none of which depends on
    another numeral or date syntax. *)
Definition sample_host : JSHost := {|
  number_to_string := fun n =>
    match n with
    | NaN => "NaN"
    | Inf false => "Infinity"
    | Inf true => "-Infinity"
    | Fin z => string_of_Z z
    end;
  string_to_number := fun s =>
    if s =? "Infinity" then Inf false
    else if s =? "-Infinity" then Inf true
    else match parse_integer s with Some z => Fin z | None => NaN end;
  string_to_bigint := parse_integer;
  date_parse := fun s =>
    if s =? "1970-01-01T00:00:00.000Z" then Some 0%Z else None;
  date_to_string := fun t =>
    match t with
    | Some 0%Z => "Thu Jan 01 1970 00:00:00 GMT+0000 (Coordinated Universal Time)"
    | Some _ => "Date"
    | None => "Invalid Date"
    end
|}.

(** An application without DTO classes. *)
Definition no_classes : string -> option dtoClass := fun _ => None.

Definition no_decorator : string -> bool := fun _ => false.

(** The filter of a class-less schema written as raw swagger metadata. *)
Definition schema_of (metadata : list (string * rawField)) : dtoFilter :=
  prepareMetadata metadata no_decorator no_decorator false false.

(* ================================================================== *)
(** ** Predicates used in the statements *)
(* ================================================================== *)

(** The input owns [key] and holds something other than [undefined] there. *)
Definition present (obj : jsval) (key : string) : bool :=
  hasOwnProperty obj key && negb (is_undefined (get_prop obj key)).

(** Plain data in which no property holds [undefined]: no object with a
    snapshot to take, at any depth. *)
Fixpoint plain_defined (v : jsval) : bool :=
  match v with
  | VArr items => forallb plain_defined items
  | VObj None fields =>
      forallb (fun kv => negb (is_undefined (snd kv)) && plain_defined (snd kv))
        fields
  | VObj (Some _) _ => false
  | _ => true
  end.

(** A property name that an array owns. *)
Definition array_key (k : string) : bool :=
  (k =? "length") ||
  match index_of_key k with Some _ => true | None => false end.

Fixpoint distinct (l : list string) : bool :=
  match l with
  | [] => true
  | k :: rest => negb (existsb (String.eqb k) rest) && distinct rest
  end.

(** What idempotence uses of a resolved field: an inline object has
    [typeCheck] 32 (40 when it also carries an enum), and its fields have
    distinct names, none of them a name that arrays own. *)
Fixpoint regular_field (fm : fieldMeta) : bool :=
  match fm with
  | FieldMeta _ _ _ _ _ _ _ _ _ nested _ _ tc fields =>
      implb nested ((tc =? 32)%Z || (tc =? 40)%Z) &&
      distinct (keys fields) &&
      forallb (fun kf => negb (array_key (fst kf)) && regular_field (snd kf))
        fields
  end.

Definition regular_filter (filter : dtoFilter) : bool :=
  distinct (keys filter) && forallb (fun kf => regular_field (snd kf)) filter.

Definition regular_classes (classes : string -> option dtoClass) : Prop :=
  forall name c, classes name = Some c ->
                 regular_filter (filter_of_class c) = true.

(** A value [transform] can return for a root that is neither [null] nor
    [undefined]: an array or a plain record. *)
Definition object_like (v : jsval) : bool :=
  match v with
  | VArr _ | VObj None _ => true
  | _ => false
  end.

(** The object the loop rebuilds when every visited key that [R] holds is
    put back with the value [R] has for it. *)
Definition put_back (R : props) (entries : dtoFilter) (acc : props) : props :=
  fold_left
    (fun a kf =>
       match lookup (fst kf) R with
       | Some x => set_prop (fst kf) x a
       | None => a
       end)
    entries acc.

(** Raw metadata in which no field of an inline object is named like an
    array index or [length]. *)
Fixpoint ordinary_raw (r : rawField) : bool :=
  match r with
  | RawField (TyInline fields) _ _ _ =>
      forallb (fun kv => negb (array_key (fst kv)) && ordinary_raw (snd kv))
        fields
  | RawField _ _ _ _ => true
  end.

Definition ordinary_class (c : dtoClass) : bool :=
  forallb (fun kv => ordinary_raw (snd kv)) (openapi_metadata c).

(** [transform] returns its own accepted output unchanged, for the given
    recursion bound of the first run and any sufficient bound of the second. *)
Definition idempotent_at (host : JSHost) (classes : string -> option dtoClass)
    (n : nat) : Prop :=
  forall (v : jsval) (filter : dtoFilter) (d : string) (out : jsval),
    plain_defined v = true ->
    regular_filter filter = true ->
    transform_fuel host classes n v filter d = Ok out ->
    forall (m : nat) (d' : string),
      depth out < m ->
      transform_fuel host classes m out filter d' = Ok out.

(** [p] holds of a prepared field and of every field of its inline nested
    objects, at any depth. *)
Fixpoint every_field (p : fieldMeta -> bool) (fm : fieldMeta) : bool :=
  p fm &&
  match fm with
  | FieldMeta _ _ _ _ _ _ _ _ _ _ _ _ _ fields =>
      forallb (fun kf => every_field p (snd kf)) fields
  end.

(** The [typeCheck] of a type without [enum]: the bit of its one kind. *)
Definition kind_bit (t : tyRef) : Z :=
  match t with
  | TyInline _ => 32
  | TyClass _ => 2
  | TyArray (TyClass _ :: _) => 4
  | TyArray _ => 16
  | _ => 1
  end%Z.


(** What the comparison of the two revisions uses of a resolved field: it is
    an inline object exactly when [typeCheck] is 32; a nullable array of
    scalars is unchecked; the element class of an array of class is a class
    of the table; and the same holds of its nested fields. *)
Fixpoint comparable_field (classes : string -> option dtoClass)
    (fm : fieldMeta) : bool :=
  match fm with
  | FieldMeta ty _ _ nl _ _ _ _ _ nested nc _ tc fields =>
      Bool.eqb nested (tc =? 32)%Z &&
      implb ((tc =? 16)%Z && nl) nc &&
      implb (tc =? 4)%Z
        match elem0 ty with
        | TyClass name =>
            match classes name with Some _ => true | None => false end
        | _ => false
        end &&
      forallb (fun kf => comparable_field classes (snd kf)) fields
  end.

Definition comparable_filter (classes : string -> option dtoClass)
    (filter : dtoFilter) : bool :=
  forallb (fun kf => comparable_field classes (snd kf)) filter.

Definition comparable_classes (classes : string -> option dtoClass) : Prop :=
  forall name c, classes name = Some c ->
                 comparable_filter classes (filter_of_class c) = true.


(** What applying [transform] twice asks of the value [x] that the input
    holds under a field: an inline nested object is not held as [undefined]
    unless the field is unchecked, and what it receives is plain data in
    which no property holds [undefined]; a class field and the elements of
    an array of class are looked at in turn, by [rec]; a scalar, an enum or
    an array of scalars may hold anything. *)
Definition settled_field (classes : string -> option dtoClass)
    (rec : jsval -> dtoFilter -> bool) (x : jsval) (fm : fieldMeta) : bool :=
  if is_undefined x then negb (negb (noCheck fm) && isNestedObject fm)
  else if is_null x then true
  else if isNestedObject fm then plain_defined x
  else if (typeCheck fm =? 1)%Z then true
  else if (typeCheck fm =? 2)%Z || (typeCheck fm =? 32)%Z then
    match transformDtoFilter classes (type fm) with
    | Ok filter => rec x filter
    | Throw _ => true
    end
  else if (typeCheck fm =? 4)%Z then
    match x, transformDtoFilter classes (elem0 (type fm)) with
    | VArr items, Ok filter => forallb (fun item => rec item filter) items
    | _, _ => true
    end
  else true.

(** [settled_field] along the way [transform] takes through [obj]: through
    the snapshot of an ORM instance, the elements of an array, and the own
    properties that the schema names.  [fuel] bounds the recursion as it
    does in [transform_fuel]. *)
Fixpoint settled_fuel (classes : string -> option dtoClass) (fuel : nat)
    (obj : jsval) (filter : dtoFilter) : bool :=
  match fuel with
  | O => true
  | S fuel' =>
      if is_nullish obj then true
      else
        let obj := if has_get_function obj then call_get obj else obj in
        match obj with
        | VArr items =>
            forallb (fun item => settled_fuel classes fuel' item filter) items
        | _ =>
            forallb
              (fun kf =>
                 match own_prop obj (fst kf) with
                 | Some x =>
                     settled_field classes (settled_fuel classes fuel') x
                       (snd kf)
                 | None => true
                 end)
              filter
        end
  end.

(** Every inline nested object field that [transform] meets on its way
    through [obj] receives plain data in which no property holds
    [undefined], and is not itself held as [undefined] unless unchecked. *)
Definition settled (classes : string -> option dtoClass) (obj : jsval)
    (filter : dtoFilter) : bool :=
  settled_fuel classes (S (depth obj)) obj filter.

(** Deep equality: scalars by value, dates by their time, arrays element by
    element, plain records property by property whatever the order of
    their properties. *)
Fixpoint deep_equal (a b : jsval) : bool :=
  match a, b with
  | VDate (Some s), VDate (Some t) => Z.eqb s t
  | VDate None, VDate None => true
  | VArr xs, VArr ys =>
      (fix all2 (xs ys : list jsval) : bool :=
         match xs, ys with
         | [], [] => true
         | x :: xs', y :: ys' => deep_equal x y && all2 xs' ys'
         | _, _ => false
         end) xs ys
  | VObj None fa, VObj None fb =>
      Nat.eqb (length fa) (length fb) && distinct (keys fa) &&
      (fix each (l : list (string * jsval)) : bool :=
         match l with
         | [] => true
         | (k, x) :: rest =>
             match lookup k fb with
             | Some y => deep_equal x y
             | None => false
             end && each rest
         end) fa
  | _, _ => same_value_zero a b
  end.

(** A value of the declared type for a field, [null] and [undefined] apart:
    a scalar of the expected type, a member of the enum, an array of such
    scalars, and, through [rec], a conformant record of the class or of the
    inline object, or an array of such records.  In an array a [null]
    element conforms when the field is nullable. *)
Definition conformant_field (classes : string -> option dtoClass)
    (rec : bool -> jsval -> dtoFilter -> bool) (x : jsval) (fm : fieldMeta)
  : bool :=
  if isNestedObject fm then
    (typeCheck fm =? 32)%Z && rec true x (nestedFields fm)
  else if (typeCheck fm =? 1)%Z then validatePrimitiveType x (expectedType fm)
  else if (typeCheck fm =? 2)%Z then
    match transformDtoFilter classes (type fm) with
    | Ok filter => rec false x filter
    | Throw _ => false
    end
  else if (typeCheck fm =? 4)%Z then
    match x, transformDtoFilter classes (elem0 (type fm)) with
    | VArr items, Ok filter =>
        forallb
          (fun item =>
             if is_null item then nullable fm else rec false item filter)
          items
    | _, _ => false
    end
  else if (typeCheck fm =? 16)%Z then
    match x with
    | VArr items =>
        forallb
          (fun item =>
             if is_null item then nullable fm
             else validatePrimitiveType item (expectedType fm))
          items
    | _ => false
    end
  else if (typeCheck fm =? 8)%Z then
    match enum fm with
    | Some allowed => includes allowed x
    | None => false
    end
  else false.

(** An already conformant value: a plain record that has exactly the
    properties the schema names (all fields present, no extras, none of
    them named [hasOwnProperty]), each holding a value of the declared type.
    A field may hold [null] when it is nullable; directly inside an inline
    nested object ([inline]), only when it is unchecked as well. *)
Fixpoint conformant_fuel (classes : string -> option dtoClass) (fuel : nat)
    (inline : bool) (obj : jsval) (filter : dtoFilter) : bool :=
  match fuel, obj with
  | S fuel', VObj None fields =>
      match lookup "hasOwnProperty" fields with
      | Some _ => false
      | None => true
      end &&
      distinct (keys fields) &&
      Nat.eqb (length fields) (length filter) &&
      forallb
        (fun kf =>
           match lookup (fst kf) fields with
           | Some x =>
               if is_undefined x then false
               else if is_null x then
                 nullable (snd kf) && (negb inline || noCheck (snd kf))
               else
                 conformant_field classes (conformant_fuel classes fuel') x
                   (snd kf)
           | None => false
           end)
        filter
  | _, _ => false
  end.

Definition conformant (classes : string -> option dtoClass) (obj : jsval)
    (filter : dtoFilter) : bool :=
  conformant_fuel classes (S (depth obj)) false obj filter.


(** A schema none of whose fields is an inline nested object, and a class
    table all of whose schemas are such. *)
Definition inline_free_filter (filter : dtoFilter) : bool :=
  forallb (fun kf => negb (isNestedObject (snd kf))) filter.

Definition inline_free_classes (classes : string -> option dtoClass) : Prop :=
  forall name c, classes name = Some c ->
                 inline_free_filter (filter_of_class c) = true.


(* ================================================================== *)
(** ** Example schemas, classes and fields *)
(* ================================================================== *)

(** A checked boolean field of a class-less schema. *)
Definition boolean_field : fieldMeta :=
  prepareField (RawField TyBoolean None true false) false false.

(** Checked text and number fields of a class-less schema. *)
Definition text_field : fieldMeta :=
  prepareField (RawField TyString None true false) false false.

Definition number_field : fieldMeta :=
  prepareField (RawField TyNumber None true false) false false.

Definition raw (t : tyRef) : rawField := RawField t None false false.
Definition raw_required (t : tyRef) : rawField := RawField t None true false.

(** [class UserDto { id: number; name: string; @NoOut() password: string }] *)
Definition UserDto : dtoClass := {|
  openapi_metadata :=
    [("id", raw TyNumber); ("name", raw TyString); ("password", raw TyString)];
  classNoCheck := false;
  classNoCheckPrimitives := false;
  propertyNoCheck := no_decorator;
  propertyNoOut := fun k => k =? "password"
|}.

(** [{ id: number (required) }], the schema prefix of the examples. *)
Definition id_schema : dtoFilter := schema_of [("id", raw_required TyNumber)].

Definition optional_text_field : fieldMeta :=
  prepareField (raw TyString) false false.

(** [address: { city: string }], an inline nested object that is not
    required. *)
Definition optional_address_field : fieldMeta :=
  prepareField (raw (TyInline [("city", raw TyString)])) false false.

(** [address: { city: string, zipCode: number }] *)
Definition address_field : fieldMeta :=
  prepareField
    (raw (TyInline [("city", raw TyString); ("zipCode", raw TyNumber)]))
    false false.

(** [class AccountDto { @NoCheck() status: Status }] with
    [enum Status { active, inactive }]. *)
Definition AccountDto : dtoClass := {|
  openapi_metadata :=
    [("status",
      RawField TyString (Some [VStr "active"; VStr "inactive"]) false false)];
  classNoCheck := false;
  classNoCheckPrimitives := false;
  propertyNoCheck := fun k => k =? "status";
  propertyNoOut := no_decorator
|}.

(** [class MemberDto { id: number; @NoCheck() name: string }], both
    required. *)
Definition MemberDto : dtoClass := {|
  openapi_metadata :=
    [("id", raw_required TyNumber); ("name", raw_required TyString)];
  classNoCheck := false;
  classNoCheckPrimitives := false;
  propertyNoCheck := fun k => k =? "name";
  propertyNoOut := no_decorator
|}.

(** [class ItemDto { id: number }] and
    [class OrderDto { items: ItemDto[]; quantities: number[] }], neither
    array nullable. *)
Definition ItemDto : dtoClass := {|
  openapi_metadata := [("id", raw_required TyNumber)];
  classNoCheck := false;
  classNoCheckPrimitives := false;
  propertyNoCheck := no_decorator;
  propertyNoOut := no_decorator
|}.

Definition OrderDto : dtoClass := {|
  openapi_metadata :=
    [("items", raw (TyArray [TyClass "ItemDto"]));
     ("quantities", raw (TyArray [TyNumber]))];
  classNoCheck := false;
  classNoCheckPrimitives := false;
  propertyNoCheck := no_decorator;
  propertyNoOut := no_decorator
|}.

Definition order_classes (name : string) : option dtoClass :=
  if name =? "ItemDto" then Some ItemDto
  else if name =? "OrderDto" then Some OrderDto
  else None.

(** [profile: { nick: string | null }] *)
Definition profile_schema : dtoFilter :=
  schema_of [("profile", raw (TyInline [("nick", RawField TyString None false true)]))].

(** [pair: { 0: string }], an inline object with a field named like an array
    index. *)
Definition pair_schema : dtoFilter :=
  schema_of [("pair", raw (TyInline [("0", raw TyString)]))].

(** [class LineDto { item: ItemDto }] as a class-less schema over
    [order_classes]. *)
Definition line_schema : dtoFilter := schema_of [("item", raw (TyClass "ItemDto"))].

(** [nick: string | null] and [{ id: number (required), nick: string }]. *)
Definition nullable_text_field : fieldMeta :=
  prepareField (RawField TyString None false true) false false.

Definition member_schema : dtoFilter :=
  (id_schema ++ [("nick", optional_text_field)])%list.

(** [payload: Object], a field whose type is no builtin scalar constructor,
    and [tags: string[]] carrying an [enum]. *)
Definition object_typed : rawField := raw (TyFunction "Object").

Definition enum_array : rawField :=
  RawField (TyArray [TyString]) (Some [VStr "a"; VStr "b"]) false false.

(** An order whose first item has a text where its [id] should be. *)
Definition bad_order : jsval :=
  record [("items", VArr [record [("id", VStr "x")]])].

(** [zipCode: number], not required. *)
Definition number_optional : fieldMeta := prepareField (raw TyNumber) false false.


(** An interceptor constructed without options, and one answering under
    [payload] by default. *)
Definition plain_interceptor : interceptor :=
  new_interceptor {| opt_defaultResponse := None;
                     opt_defaultResponseKey := None;
                     opt_defaultDataKey := None |}.

Definition payload_interceptor : interceptor :=
  new_interceptor {| opt_defaultResponse := None;
                     opt_defaultResponseKey := Some "payload";
                     opt_defaultDataKey := None |}.

(** [@ResponseType({ type: ItemDto })] and
    [@ResponseType({ type: [ItemDto], response: { ok: true } })]. *)
Definition item_route : responseTypeMetadata :=
  ResponseType {| rt_type := Some (TyClass "ItemDto");
                  rt_noTransform := None;
                  rt_response := VUndefined;
                  rt_responseKey := None;
                  rt_dataKey := DataKeyUndefined |}.

Definition items_route_options : responseTypeOptions :=
  {| rt_type := Some (TyArray [TyClass "ItemDto"]);
     rt_noTransform := None;
     rt_response := record [("ok", VBool true)];
     rt_responseKey := None;
     rt_dataKey := DataKeyUndefined |}.

(** An unchecked enum field, [@NoCheck() status: Status]. *)
Definition unchecked_status : fieldMeta :=
  prepareField
    (RawField TyString (Some [VStr "active"; VStr "inactive"]) false false)
    true false.


(** [class NodeDto { 0: NodeDto }], a class whose field is typed by the
    class itself, and a class table that has it. *)
Definition NodeDto : dtoClass := {|
  openapi_metadata := [("0", raw (TyClass "NodeDto"))];
  classNoCheck := false;
  classNoCheckPrimitives := false;
  propertyNoCheck := no_decorator;
  propertyNoOut := no_decorator
|}.

Definition node_classes (name : string) : option dtoClass :=
  if name =? "NodeDto" then Some NodeDto else None.


(* ================================================================== *)
(** ** Basic facts about the building blocks *)
(* ================================================================== *)

Lemma bind_Ok_inv {A B : Type} (r : outcome A) (k : A -> outcome B) (b : B) :
  bind r k = Ok b -> exists a, r = Ok a /\ k a = Ok b.
Proof.
  destruct r as [a|e]; simpl; intros H.
  - exists a. split; [reflexivity | exact H].
  - discriminate H.
Qed.

Lemma bind_Throw_inv {A B : Type} (r : outcome A) (k : A -> outcome B) (e : exn) :
  bind r k = Throw e -> r = Throw e \/ exists a, r = Ok a /\ k a = Throw e.
Proof.
  destruct r as [a|e']; simpl; intros H.
  - right. exists a. split; [reflexivity | exact H].
  - left. inversion H. reflexivity.
Qed.

Lemma is_undefined_true (v : jsval) : is_undefined v = true -> v = VUndefined.
Proof. destruct v; simpl; intros H; try discriminate H; reflexivity. Qed.

Lemma is_null_true (v : jsval) : is_null v = true -> v = VNull.
Proof. destruct v; simpl; intros H; try discriminate H; reflexivity. Qed.

Lemma is_nullish_false (v : jsval) :
  is_nullish v = false -> is_undefined v = false /\ is_null v = false.
Proof. destruct v; simpl; intros H; try discriminate H; split; reflexivity. Qed.

(** The check of the boolean kind accepts exactly the booleans. *)
Lemma validate_boolean (v : jsval) :
  validatePrimitiveType v (Some "boolean") = (typeof v =? "boolean").
Proof. reflexivity. Qed.

Lemma typeof_boolean (v : jsval) :
  (typeof v =? "boolean") = true -> exists b, v = VBool b.
Proof.
  destruct v; simpl; intros H; try discriminate H.
  eexists; reflexivity.
Qed.

(* ================================================================== *)
(** ** The root of [transform] *)
(* ================================================================== *)

(** C10.  Whatever the schema, [transform] of an [undefined] root returns
    [null], exactly as for a [null] root, and raises nothing, required fields
    or not. *)
Theorem transform_undefined_root :
  forall (host : JSHost) (classes : string -> option dtoClass)
         (filter : dtoFilter) (dtoName : string),
    transform host classes VUndefined filter dtoName = Ok VNull /\
    transform host classes VUndefined filter dtoName
      = transform host classes VNull filter dtoName.
Proof.
  intros host classes filter dtoName. split; reflexivity.
Qed.

(* ================================================================== *)
(** ** The primitive coercer *)
(* ================================================================== *)

(** C9.  For a checked field of boolean kind, [transformPrimitive] never
    throws: a boolean is returned as it is, anything else is replaced by
    [Boolean(value)], which passes the second check. *)
Theorem transformPrimitive_boolean_total :
  forall (host : JSHost) (value : jsval) (fieldMetadata : fieldMeta)
         (fieldPath : string),
    noCheck fieldMetadata = false ->
    expectedType fieldMetadata = Some "boolean" ->
    transformPrimitive host value fieldMetadata fieldPath
      = Ok (if typeof value =? "boolean" then value
            else VBool (js_Boolean value)) /\
    exists b : bool,
      transformPrimitive host value fieldMetadata fieldPath = Ok (VBool b).
Proof.
  intros host value fm fieldPath Hcheck Hkind.
  assert (Hres : transformPrimitive host value fm fieldPath
                 = Ok (if typeof value =? "boolean" then value
                       else VBool (js_Boolean value))).
  { unfold transformPrimitive. rewrite Hcheck, Hkind.
    rewrite validate_boolean.
    destruct (typeof value =? "boolean"); reflexivity. }
  split; [exact Hres|].
  rewrite Hres.
  destruct (typeof value =? "boolean") eqn:Hty.
  - destruct (typeof_boolean value Hty) as [b ->]. exists b. reflexivity.
  - exists (js_Boolean value). reflexivity.
Qed.

Lemma transformPrimitive_boolean_total_witness :
  transformPrimitive sample_host (VStr "yes") boolean_field "Dto.flag"
    = Ok (VBool true).
Proof.
  destruct (transformPrimitive_boolean_total sample_host (VStr "yes")
              boolean_field "Dto.flag" eq_refl eq_refl) as [H _].
  exact H.
Defined.

(** C2.  For a checked scalar whose type check fails, [transformPrimitive]
    coerces once, to the declared kind, and checks the coerced value: a
    number field returns [Number(value)] unless that is [NaN], a text field
    [String(value)], a boolean field [Boolean(value)], a bigint field
    [BigInt(value)], a date field [new Date(value)] unless that is the
    invalid date; when the second check fails, when the conversion throws,
    and for every other kind (to which nothing is converted), it raises
    "Field should be a <kind>" with the expected kind and the value
    originally received.  A text field receiving a number returns the
    stringified number; a number field receiving a string that does not
    denote a number raises. *)
Theorem transformPrimitive_coerces_once :
  forall (host : JSHost) (value : jsval) (fieldMetadata : fieldMeta)
         (fieldPath : string),
    noCheck fieldMetadata = false ->
    validatePrimitiveType value (expectedType fieldMetadata) = false ->
    let wrong :=
      TransformErr
        (TransformError
           ("Field should be a " ++ show_expected (expectedType fieldMetadata))
           fieldPath "" value (expectedType fieldMetadata) None value
           (OfField fieldMetadata)) in
    let result := transformPrimitive host value fieldMetadata fieldPath in
    (expectedType fieldMetadata = Some "number" ->
     result = match js_Number host value with
              | Some n => if isNaN n then Throw wrong else Ok (VNum n)
              | None => Throw wrong
              end) /\
    (expectedType fieldMetadata = Some "string" ->
     result = match js_String host value with
              | Some s => Ok (VStr s)
              | None => Throw wrong
              end) /\
    (expectedType fieldMetadata = Some "boolean" ->
     result = Ok (VBool (js_Boolean value))) /\
    (expectedType fieldMetadata = Some "bigint" ->
     result = match js_BigInt host value with
              | Some z => Ok (VBigInt z)
              | None => Throw wrong
              end) /\
    (expectedType fieldMetadata = Some "date" ->
     result = match js_new_Date host value with
              | Some (Some time) => Ok (VDate (Some time))
              | Some None | None => Throw wrong
              end) /\
    (expectedType fieldMetadata <> Some "number" ->
     expectedType fieldMetadata <> Some "string" ->
     expectedType fieldMetadata <> Some "boolean" ->
     expectedType fieldMetadata <> Some "bigint" ->
     expectedType fieldMetadata <> Some "date" ->
     result = Throw wrong) /\
    (forall n : number,
        value = VNum n -> expectedType fieldMetadata = Some "string" ->
        result = Ok (VStr (number_to_string host n))) /\
    (forall s : string,
        value = VStr s -> expectedType fieldMetadata = Some "number" ->
        isNaN (string_to_number host s) = true ->
        result = Throw wrong).
Proof.
  intros host value fm fieldPath Hcheck Hbad wrong result.
  assert (Hpolicy :
    result
      = match coerceToPrimitiveType host value (expectedType fm) with
        | Some coercedValue =>
            if validatePrimitiveType coercedValue (expectedType fm)
            then Ok coercedValue
            else Throw wrong
        | None => Throw wrong
        end).
  { unfold result, transformPrimitive. rewrite Hcheck, Hbad. simpl negb.
    cbv iota.
    destruct (coerceToPrimitiveType host value (expectedType fm)) as [c|];
      [|reflexivity].
    destruct (validatePrimitiveType c (expectedType fm)); reflexivity. }
  repeat split.
  - intros Hkind. rewrite Hpolicy, Hkind. cbn.
    destruct (js_Number host value) as [n|]; [|reflexivity]. cbn.
    destruct (isNaN n); reflexivity.
  - intros Hkind. rewrite Hpolicy, Hkind. cbn.
    destruct (js_String host value) as [s|]; reflexivity.
  - intros Hkind. rewrite Hpolicy, Hkind. reflexivity.
  - intros Hkind. rewrite Hpolicy, Hkind. cbn.
    destruct (js_BigInt host value) as [z|]; reflexivity.
  - intros Hkind. rewrite Hpolicy, Hkind. cbn.
    destruct (js_new_Date host value) as [[time|]|]; reflexivity.
  - intros Hnumber Hstring Hboolean Hbigint Hdate. rewrite Hpolicy.
    destruct (expectedType fm) as [t|] eqn:Hkind; [|reflexivity].
    unfold coerceToPrimitiveType.
    destruct (String.eqb_spec t "number") as [->|_]; [contradiction Hnumber; reflexivity|].
    destruct (String.eqb_spec t "string") as [->|_]; [contradiction Hstring; reflexivity|].
    destruct (String.eqb_spec t "boolean") as [->|_]; [contradiction Hboolean; reflexivity|].
    destruct (String.eqb_spec t "bigint") as [->|_]; [contradiction Hbigint; reflexivity|].
    destruct (String.eqb_spec t "date") as [->|_]; [contradiction Hdate; reflexivity|].
    rewrite Hbad. reflexivity.
  - intros n -> Hkind. rewrite Hpolicy, Hkind. reflexivity.
  - intros s -> Hkind Hnan. rewrite Hpolicy, Hkind. simpl.
    destruct (string_to_number host s); simpl in *;
      try discriminate Hnan; reflexivity.
Qed.

Lemma transformPrimitive_coerces_once_witness :
  transformPrimitive sample_host (VNum (Fin 42)) text_field "Dto.name"
    = Ok (VStr "42") /\
  transformPrimitive sample_host (VStr "abc") number_field "Dto.id"
    = Throw (wrong_scalar_type (VStr "abc") number_field "Dto.id") /\
  transformPrimitive sample_host (VStr "42") number_field "Dto.id"
    = Ok (VNum (Fin 42)) /\
  transformPrimitive sample_host (VNum (Fin 0)) boolean_field "Dto.active"
    = Ok (VBool false).
Proof.
  split; [|split; [|split]].
  - destruct (transformPrimitive_coerces_once sample_host (VNum (Fin 42))
                text_field "Dto.name" eq_refl eq_refl)
      as [_ [_ [_ [_ [_ [_ [H _]]]]]]].
    exact (H (Fin 42) eq_refl eq_refl).
  - destruct (transformPrimitive_coerces_once sample_host (VStr "abc")
                number_field "Dto.id" eq_refl eq_refl)
      as [_ [_ [_ [_ [_ [_ [_ H]]]]]]].
    exact (H "abc" eq_refl eq_refl eq_refl).
  - destruct (transformPrimitive_coerces_once sample_host (VStr "42")
                number_field "Dto.id" eq_refl eq_refl) as [H _].
    exact (H eq_refl).
  - destruct (transformPrimitive_coerces_once sample_host (VNum (Fin 0))
                boolean_field "Dto.active" eq_refl eq_refl)
      as [_ [_ [H _]]].
    exact (H eq_refl).
Defined.

(* ================================================================== *)
(** ** Records as ordered property lists *)
(* ================================================================== *)

Section PropLists.

Context {A : Type}.
Implicit Types (l : list (string * A)) (k : string).

Lemma lookup_None_not_In l k : lookup k l = None <-> ~ In k (keys l).
Proof.
  induction l as [|[k0 x] l IH]; simpl.
  - split; [intros _ []|reflexivity].
  - destruct (String.eqb_spec k0 k) as [->|Hne].
    + split; [discriminate|]. intros H. exfalso. apply H. left. reflexivity.
    + rewrite IH. split.
      * intros H [Heq|Hin]; [exact (Hne Heq)|exact (H Hin)].
      * intros H Hin. apply H. right. exact Hin.
Qed.

Lemma lookup_Some_In l k x : lookup k l = Some x -> In k (keys l).
Proof.
  intros H. destruct (in_dec string_dec k (keys l)) as [Hin|Hout];
    [exact Hin|].
  apply lookup_None_not_In in Hout. rewrite Hout in H. discriminate H.
Qed.

Lemma keys_set_prop_fresh l k x :
  ~ In k (keys l) -> keys (set_prop k x l) = (keys l ++ [k])%list.
Proof.
  induction l as [|[k0 y] l IH]; simpl; intros Hout; [reflexivity|].
  destruct (String.eqb_spec k0 k) as [->|Hne].
  - exfalso. apply Hout. left. reflexivity.
  - simpl. f_equal. apply IH. intros Hin. apply Hout. right. exact Hin.
Qed.

Lemma keys_set_prop_In l k k' x :
  In k' (keys (set_prop k x l)) <-> k' = k \/ In k' (keys l).
Proof.
  induction l as [|[k0 y] l IH]; simpl.
  - split; [intros [H|[]]; left; symmetry; exact H
           |intros [H|[]]; left; symmetry; exact H].
  - destruct (String.eqb_spec k0 k) as [->|Hne]; simpl.
    + split; [intros H; right; exact H|].
      intros [->|H]; [left; reflexivity|exact H].
    + rewrite IH. split.
      * intros [H|[H|H]]; [right; left; exact H|left; exact H|right; right; exact H].
      * intros [H|[H|H]]; [right; left; exact H|left; exact H|right; right; exact H].
Qed.

End PropLists.

Lemma filter_filter {A : Type} (f g : A -> bool) (l : list A) :
  filter f (filter g l) = filter (fun x => g x && f x) l.
Proof.
  induction l as [|x l IH]; simpl; [reflexivity|].
  destruct (g x); simpl; [|exact IH].
  destruct (f x); [f_equal|]; exact IH.
Qed.

(* ================================================================== *)
(** ** Schema resolution drops the excluded properties *)
(* ================================================================== *)

Lemma keys_prepareMetadata_from :
  forall (metadata : list (string * rawField)) (acc : dtoFilter)
         (propertyNoCheck propertyNoOut : string -> bool)
         (classNoCheck classNoCheckPrimitives : bool),
    NoDup (keys acc ++ keys metadata) ->
    keys (prepareMetadata_from acc metadata propertyNoCheck propertyNoOut
            classNoCheck classNoCheckPrimitives)
    = (keys acc ++ filter (fun k => negb (propertyNoOut k)) (keys metadata))%list.
Proof.
  induction metadata as [|[key value] rest IH];
    intros acc pNoCheck pNoOut cNoCheck cPrim Hnd; simpl.
  - rewrite app_nil_r. reflexivity.
  - simpl in Hnd.
    destruct (pNoOut key) eqn:Hout; simpl.
    + apply IH. apply NoDup_remove_1 in Hnd. exact Hnd.
    + rewrite IH.
      * rewrite keys_set_prop_fresh.
        -- rewrite <- app_assoc. reflexivity.
        -- apply NoDup_remove_2 in Hnd. intros Hin. apply Hnd.
           apply in_or_app. left. exact Hin.
      * rewrite keys_set_prop_fresh.
        -- rewrite <- app_assoc. exact Hnd.
        -- apply NoDup_remove_2 in Hnd. intros Hin. apply Hnd.
           apply in_or_app. left. exact Hin.
Qed.

(** The resolved schema lists the declared properties that are not marked
    [@NoOut], in declaration order. *)
Lemma keys_prepareMetadata :
  forall (metadata : list (string * rawField))
         (propertyNoCheck propertyNoOut : string -> bool)
         (classNoCheck classNoCheckPrimitives : bool),
    NoDup (keys metadata) ->
    keys (prepareMetadata metadata propertyNoCheck propertyNoOut
            classNoCheck classNoCheckPrimitives)
    = filter (fun k => negb (propertyNoOut k)) (keys metadata).
Proof.
  intros metadata pNoCheck pNoOut cNoCheck cPrim Hnd.
  unfold prepareMetadata. rewrite keys_prepareMetadata_from; [reflexivity|].
  exact Hnd.
Qed.

(* ================================================================== *)
(** ** The field loop of [transform] *)
(* ================================================================== *)

Ltac case_if :=
  match goal with
  | |- context [if ?c then _ else _] => destruct c eqn:?
  | H : context [if ?c then _ else _] |- _ => destruct c eqn:?
  end.

Ltac case_if_in H :=
  match type of H with
  | context [if ?c then _ else _] => destruct c eqn:?
  end.

Ltac case_bind_in H :=
  match type of H with
  | context [bind ?r _] => destruct r eqn:?; cbn [bind] in H
  end.

Ltac case_bind :=
  match goal with
  | |- context [bind ?r _] => destruct r eqn:?; cbn [bind]
  | H : context [bind ?r _] |- _ => destruct r eqn:?; cbn [bind] in H
  end.

Section FieldLoop.

Context (host : JSHost) (classes : string -> option dtoClass).
Context (rec : jsval -> dtoFilter -> string -> outcome jsval).

Lemma transform_fields_app :
  forall (obj : jsval) (filter : dtoFilter) (dtoName : string)
         (pre post : dtoFilter) (acc : props),
    transform_fields host classes rec obj filter dtoName (pre ++ post)%list acc
    = (acc' <- transform_fields host classes rec obj filter dtoName pre acc ;;
       transform_fields host classes rec obj filter dtoName post acc').
Proof.
  intros obj filter dtoName pre post. induction pre as [|[key fm] pre IH];
    intros acc; simpl; [reflexivity|].
  repeat case_if; simpl; try reflexivity; try apply IH.
  case_bind; [apply IH|reflexivity].
Qed.

(** The [filter] argument only travels into the errors. *)
Lemma transform_fields_Ok_filter :
  forall (obj : jsval) (filter filter' : dtoFilter) (dtoName : string)
         (entries : dtoFilter) (acc r : props),
    transform_fields host classes rec obj filter dtoName entries acc = Ok r ->
    transform_fields host classes rec obj filter' dtoName entries acc = Ok r.
Proof.
  intros obj filter filter' dtoName entries.
  induction entries as [|[key fm] rest IH]; intros acc r; simpl;
    [intros H; exact H|].
  repeat case_if; simpl; try discriminate; try apply IH.
  case_bind; [apply IH|discriminate].
Qed.

(** An accepted record keeps, of the schema's keys, those that the input
    holds with a defined value, in schema order. *)
Lemma transform_fields_keys :
  forall (obj : jsval) (filter : dtoFilter) (dtoName : string)
         (entries : dtoFilter) (acc r : props),
    NoDup (keys acc ++ keys entries) ->
    transform_fields host classes rec obj filter dtoName entries acc = Ok r ->
    keys r = (keys acc ++ List.filter (present obj) (keys entries))%list.
Proof.
  intros obj filter dtoName entries.
  induction entries as [|[key fm] rest IH]; intros acc r Hnd; simpl.
  - intros H. inversion H. rewrite app_nil_r. reflexivity.
  - simpl in Hnd.
    assert (Hfresh : ~ In key (keys acc)).
    { apply NoDup_remove_2 in Hnd. intros Hin. apply Hnd.
      apply in_or_app. left. exact Hin. }
    assert (Hnd' : NoDup (keys acc ++ keys rest))
      by (apply NoDup_remove_1 in Hnd; exact Hnd).
    assert (Hnd'' : forall x, NoDup (keys (set_prop key x acc) ++ keys rest)).
    { intros x. rewrite keys_set_prop_fresh by exact Hfresh.
      rewrite <- app_assoc. exact Hnd. }
    assert (Hput : forall x,
               (keys (set_prop key x acc) ++ List.filter (present obj) (keys rest)
                = keys acc ++ key :: List.filter (present obj) (keys rest))%list).
    { intros x. rewrite keys_set_prop_fresh by exact Hfresh.
      rewrite <- app_assoc. reflexivity. }
    unfold present at 1.
    destruct (is_nullish obj) eqn:Hnull; [discriminate|].
    destruct (hasOwnProperty_callable obj) eqn:Hcall; [|discriminate].
    destruct (hasOwnProperty obj key) eqn:Hown; simpl.
    + destruct (is_undefined (get_prop obj key)) eqn:Hundef; simpl.
      * case_if; [discriminate|]. apply IH. exact Hnd'.
      * destruct (is_null (get_prop obj key)) eqn:Hnul.
        -- case_if; [|discriminate]. intros H.
           rewrite (IH _ _ (Hnd'' _) H). apply Hput.
        -- case_bind; [|discriminate]. intros H.
           rewrite (IH _ _ (Hnd'' _) H). apply Hput.
    + case_if; [discriminate|]. apply IH. exact Hnd'.
Qed.

(** Every key of an accepted record was either there before the loop or is
    one the input holds with a defined value. *)
Lemma transform_fields_present :
  forall (obj : jsval) (filter : dtoFilter) (dtoName : string)
         (entries : dtoFilter) (acc r : props) (k : string),
    transform_fields host classes rec obj filter dtoName entries acc = Ok r ->
    In k (keys r) ->
    In k (keys acc) \/ (In k (keys entries) /\ present obj k = true).
Proof.
  intros obj filter dtoName entries.
  induction entries as [|[key fm] rest IH]; intros acc r k; simpl.
  - intros H Hin. inversion H. subst r. left. exact Hin.
  - assert (Hstep : forall acc',
               transform_fields host classes rec obj filter dtoName rest acc' = Ok r ->
               In k (keys r) ->
               (forall k', In k' (keys acc') ->
                           In k' (keys acc) \/ (k' = key /\ present obj key = true)) ->
               In k (keys acc) \/
               ((key = k \/ In k (keys rest)) /\ present obj k = true)).
    { intros acc' H Hin Hacc.
      destruct (IH _ _ _ H Hin) as [Hold|[Hrest Hp]].
      - destruct (Hacc _ Hold) as [Hl|[-> Hp]].
        + left. exact Hl.
        + right. split; [left; reflexivity|exact Hp].
      - right. split; [right; exact Hrest|exact Hp]. }
    unfold present in Hstep |- *.
    destruct (is_nullish obj) eqn:Hnull; [discriminate|].
    destruct (hasOwnProperty_callable obj) eqn:Hcall; [|discriminate].
    destruct (hasOwnProperty obj key) eqn:Hown; simpl.
    + destruct (is_undefined (get_prop obj key)) eqn:Hundef; simpl.
      * case_if; [discriminate|]. intros H Hin.
        apply (Hstep acc H Hin). intros k' Hk'. left. exact Hk'.
      * destruct (is_null (get_prop obj key)) eqn:Hnul.
        -- case_if; [|discriminate]. intros H Hin.
           apply (Hstep _ H Hin). intros k' Hk'.
           apply keys_set_prop_In in Hk'. destruct Hk' as [->|Hk'].
           ++ right. split; reflexivity.
           ++ left. exact Hk'.
        -- case_bind; [|discriminate]. intros H Hin.
           apply (Hstep _ H Hin). intros k' Hk'.
           apply keys_set_prop_In in Hk'. destruct Hk' as [->|Hk'].
           ++ right. split; reflexivity.
           ++ left. exact Hk'.
    + case_if; [discriminate|]. intros H Hin.
      apply (Hstep acc H Hin). intros k' Hk'. left. exact Hk'.
Qed.

End FieldLoop.

Section TransformOfRecords.

Context (host : JSHost) (classes : string -> option dtoClass).

(** [transform] on a plain record: no snapshot to take, not an array, the
    field loop starts from the empty object. *)
Lemma transform_record :
  forall (fields : props) (filter : dtoFilter) (dtoName : string),
    transform host classes (record fields) filter dtoName
    = (result <- transform_fields host classes
                   (transform_fuel host classes (depth (record fields)))
                   (record fields) filter dtoName filter [] ;;
       Ok (record result)).
Proof. intros fields filter dtoName. reflexivity. Qed.

Lemma transform_record_Ok :
  forall (fields : props) (filter : dtoFilter) (dtoName : string) (out : jsval),
    transform host classes (record fields) filter dtoName = Ok out <->
    exists result,
      transform_fields host classes
        (transform_fuel host classes (depth (record fields)))
        (record fields) filter dtoName filter [] = Ok result /\
      out = record result.
Proof.
  intros fields filter dtoName out. rewrite transform_record. split.
  - intros H. apply bind_Ok_inv in H. destruct H as [r [Hr Hout]].
    exists r. split; [exact Hr|]. inversion Hout. reflexivity.
  - intros [r [Hr ->]]. rewrite Hr. reflexivity.
Qed.

Lemma hasOwnProperty_record (fields : props) (key : string) :
  hasOwnProperty (record fields) key
  = match lookup key fields with Some _ => true | None => false end.
Proof. reflexivity. Qed.

Lemma hasOwnProperty_callable_record (fields : props) :
  hasOwnProperty_callable (record fields)
  = match lookup "hasOwnProperty" fields with Some _ => false | None => true end.
Proof. reflexivity. Qed.

Lemma get_prop_record (fields : props) (key : string) :
  get_prop (record fields) key
  = match lookup key fields with Some x => x | None => VUndefined end.
Proof. reflexivity. Qed.

Variable rec : jsval -> dtoFilter -> string -> outcome jsval.

(** One turn of the loop on a key the input does not own. *)
Lemma transform_fields_missing :
  forall (obj : jsval) (filter : dtoFilter) (dtoName key : string)
         (fm : fieldMeta) (rest : dtoFilter) (acc : props),
    is_nullish obj = false ->
    hasOwnProperty_callable obj = true ->
    hasOwnProperty obj key = false ->
    transform_fields host classes rec obj filter dtoName ((key, fm) :: rest) acc
    = if negb (noCheck fm) && (required fm || isNestedObject fm)
      then Throw (err ("Required field '" ++ key ++ "' is missing") dtoName key
                    VUndefined None None obj (OfFilter filter))
      else transform_fields host classes rec obj filter dtoName rest acc.
Proof.
  intros obj filter dtoName key fm rest acc Hnull Hcall Hown.
  simpl. rewrite Hnull, Hcall, Hown. reflexivity.
Qed.

(** One turn of the loop on a key the input owns with the value [undefined]. *)
Lemma transform_fields_undefined :
  forall (obj : jsval) (filter : dtoFilter) (dtoName key : string)
         (fm : fieldMeta) (rest : dtoFilter) (acc : props),
    is_nullish obj = false ->
    hasOwnProperty_callable obj = true ->
    hasOwnProperty obj key = true ->
    get_prop obj key = VUndefined ->
    transform_fields host classes rec obj filter dtoName ((key, fm) :: rest) acc
    = if negb (noCheck fm) && required fm
      then Throw (err ("Required field '" ++ key ++ "' cannot be undefined")
                    dtoName key VUndefined None None obj (OfFilter filter))
      else transform_fields host classes rec obj filter dtoName rest acc.
Proof.
  intros obj filter dtoName key fm rest acc Hnull Hcall Hown Hget.
  simpl. rewrite Hnull, Hcall, Hown, Hget. reflexivity.
Qed.

(** A schema entry on which the loop does nothing can be dropped from the
    schema without changing what is accepted, or the accepted result. *)
Lemma transform_fields_skip :
  forall (obj : jsval) (filter filter' : dtoFilter) (dtoName : string)
         (pre post : dtoFilter) (entry : string * fieldMeta),
    (forall acc,
        transform_fields host classes rec obj filter dtoName (entry :: post) acc
        = transform_fields host classes rec obj filter dtoName post acc) ->
    forall r,
      transform_fields host classes rec obj filter dtoName
        (pre ++ entry :: post)%list [] = Ok r <->
      transform_fields host classes rec obj filter' dtoName
        (pre ++ post)%list [] = Ok r.
Proof.
  intros obj filter filter' dtoName pre post entry Hskip r.
  rewrite !transform_fields_app.
  destruct (transform_fields host classes rec obj filter dtoName pre [])
    as [acc|e] eqn:Hpre.
  - rewrite (transform_fields_Ok_filter _ _ _ _ _ filter' _ _ _ _ Hpre).
    cbn [bind]. rewrite Hskip. split; apply transform_fields_Ok_filter.
  - cbn [bind]. split; [discriminate|].
    destruct (transform_fields host classes rec obj filter' dtoName pre [])
      as [acc|e'] eqn:Hpre'; [|discriminate].
    rewrite (transform_fields_Ok_filter _ _ _ _ _ filter _ _ _ _ Hpre') in Hpre.
    discriminate Hpre.
Qed.

End TransformOfRecords.

(* ================================================================== *)
(** ** Filtering: which keys an accepted record keeps *)
(* ================================================================== *)

(** C1.  For a class whose metadata declares each property once and a plain
    record that [transform] accepts under the class's resolved schema, the
    output is a plain record whose keys are exactly the declared properties
    that are not marked [@NoOut] and that the input holds with a defined
    value, in declaration order.  So every output key is declared and not
    excluded, no undeclared input key survives, and no excluded key does. *)
Theorem transform_output_keys :
  forall (host : JSHost) (classes : string -> option dtoClass) (c : dtoClass)
         (fields : props) (dtoName : string) (out : jsval),
    NoDup (keys (openapi_metadata c)) ->
    transform host classes (record fields) (filter_of_class c) dtoName = Ok out ->
    exists result : props,
      out = record result /\
      keys result
      = List.filter
          (fun k => negb (propertyNoOut c k) && present (record fields) k)
          (keys (openapi_metadata c)) /\
      (forall k, In k (keys result) ->
                 In k (keys (openapi_metadata c)) /\ propertyNoOut c k = false) /\
      (forall k, In k (keys fields) -> ~ In k (keys (openapi_metadata c)) ->
                 ~ In k (keys result)) /\
      (forall k, propertyNoOut c k = true -> ~ In k (keys result)).
Proof.
  intros host classes c fields dtoName out Hnd Hout.
  apply transform_record_Ok in Hout. destruct Hout as [result [Hloop ->]].
  exists result. split; [reflexivity|].
  assert (Hschema : keys (filter_of_class c)
                    = List.filter (fun k => negb (propertyNoOut c k))
                        (keys (openapi_metadata c)))
    by (apply keys_prepareMetadata; exact Hnd).
  assert (Hkeys : keys result
                  = List.filter
                      (fun k => negb (propertyNoOut c k) && present (record fields) k)
                      (keys (openapi_metadata c))).
  { apply transform_fields_keys in Hloop.
    - simpl in Hloop. rewrite Hloop, Hschema. apply filter_filter.
    - simpl. rewrite Hschema. apply NoDup_filter. exact Hnd. }
  split; [exact Hkeys|].
  assert (Hin : forall k, In k (keys result) ->
                  In k (keys (openapi_metadata c)) /\ propertyNoOut c k = false).
  { intros k Hk. rewrite Hkeys in Hk. apply filter_In in Hk.
    destruct Hk as [Hdecl Hcond]. split; [exact Hdecl|].
    apply andb_prop in Hcond. destruct Hcond as [Hno _].
    destruct (propertyNoOut c k); [discriminate Hno|reflexivity]. }
  split; [exact Hin|]. split.
  - intros k _ Hundeclared Hk. apply Hundeclared. apply (Hin k Hk).
  - intros k Hno Hk. destruct (Hin k Hk) as [_ Hfalse].
    rewrite Hno in Hfalse. discriminate Hfalse.
Qed.

Lemma NoDup_keys_UserDto : NoDup (keys (openapi_metadata UserDto)).
Proof.
  simpl. repeat constructor; simpl; intuition discriminate.
Qed.

Lemma transform_output_keys_witness :
  exists result : props,
    transform sample_host no_classes
      (record [("extra", VStr "x"); ("password", VStr "secret");
               ("name", VStr "John"); ("id", VNum (Fin 1))])
      (filter_of_class UserDto) "UserDto" = Ok (record result) /\
    keys result = ["id"; "name"].
Proof.
  destruct (transform_output_keys sample_host no_classes UserDto
              [("extra", VStr "x"); ("password", VStr "secret");
               ("name", VStr "John"); ("id", VNum (Fin 1))]
              "UserDto" _ NoDup_keys_UserDto eq_refl)
    as [result [Hout [Hkeys _]]].
  exists result. split.
  - rewrite <- Hout. reflexivity.
  - exact Hkeys.
Defined.

(* ================================================================== *)
(** ** Missing and undefined fields *)
(* ================================================================== *)

Section MissingAndUndefined.

Context (host : JSHost) (classes : string -> option dtoClass).

Lemma prefix_accepted :
  forall (fields : props) (pre filter : dtoFilter) (dtoName : string),
    (exists out0, transform host classes (record fields) pre dtoName = Ok out0) ->
    exists acc,
      transform_fields host classes
        (transform_fuel host classes (depth (record fields)))
        (record fields) filter dtoName pre [] = Ok acc.
Proof.
  intros fields pre filter dtoName [out0 Hpre].
  apply transform_record_Ok in Hpre. destruct Hpre as [acc [Hacc _]].
  exists acc. apply (transform_fields_Ok_filter _ _ _ _ pre). exact Hacc.
Qed.

Lemma dropped_entry :
  forall (fields : props) (pre post : dtoFilter) (key : string) (fm : fieldMeta)
         (dtoName : string),
    present (record fields) key = false ->
    (forall acc,
        transform_fields host classes
          (transform_fuel host classes (depth (record fields)))
          (record fields) (pre ++ (key, fm) :: post)%list dtoName
          ((key, fm) :: post) acc
        = transform_fields host classes
            (transform_fuel host classes (depth (record fields)))
            (record fields) (pre ++ (key, fm) :: post)%list dtoName post acc) ->
    (forall out,
        transform host classes (record fields) (pre ++ (key, fm) :: post)%list
          dtoName = Ok out <->
        transform host classes (record fields) (pre ++ post)%list dtoName
          = Ok out) /\
    (forall result,
        transform host classes (record fields) (pre ++ (key, fm) :: post)%list
          dtoName = Ok (record result) ->
        ~ In key (keys result)).
Proof.
  intros fields pre post key fm dtoName Habsent Hskip. split.
  - intros out. rewrite !transform_record_Ok.
    split; intros [r [Hr ->]]; exists r; (split; [|reflexivity]).
    + apply (transform_fields_skip _ _ _ _ _ (pre ++ post)%list _ _ _ _ Hskip).
      exact Hr.
    + apply (transform_fields_skip _ _ _ _ _ (pre ++ post)%list _ _ _ _ Hskip).
      exact Hr.
  - intros result Hout Hin.
    apply transform_record_Ok in Hout. destruct Hout as [r [Hr Heq]].
    inversion Heq. subst r.
    destruct (transform_fields_present _ _ _ _ _ _ _ _ _ key Hr Hin)
      as [[]|[_ Hp]].
    rewrite Habsent in Hp. discriminate Hp.
Qed.

(** C5, as the code has it.  A checked field that the input holds with the
    value [undefined], the fields declared before it being accepted, on an
    input that has no own property named [hasOwnProperty] (the loop calls
    [obj.hasOwnProperty(key)]): when the field is required, [transform]
    raises "Required field '<key>' cannot be undefined"; when it is not, the
    field is left out of the output and raises nothing, that is, [transform]
    accepts exactly as it does without the field in the schema, with the
    same output, and that output has no such key. *)
Theorem transform_undefined_field :
  forall (fields : props) (pre post : dtoFilter) (key : string) (fm : fieldMeta)
         (dtoName : string),
    lookup "hasOwnProperty" fields = None ->
    lookup key fields = Some VUndefined ->
    noCheck fm = false ->
    (exists out0, transform host classes (record fields) pre dtoName = Ok out0) ->
    let filter := (pre ++ (key, fm) :: post)%list in
    (required fm = true ->
     transform host classes (record fields) filter dtoName
     = Throw
         (TransformErr
            (TransformError
               ("Required field '" ++ key ++ "' cannot be undefined")
               dtoName key VUndefined None None (record fields)
               (OfFilter filter)))) /\
    (required fm = false ->
     (forall out,
         transform host classes (record fields) filter dtoName = Ok out <->
         transform host classes (record fields) (pre ++ post)%list dtoName
           = Ok out) /\
     (forall result,
         transform host classes (record fields) filter dtoName
           = Ok (record result) ->
         ~ In key (keys result))).
Proof.
  intros fields pre post key fm dtoName Hshadow Hlookup Hcheck Hpre filter.
  assert (Hcall : hasOwnProperty_callable (record fields) = true)
    by (rewrite hasOwnProperty_callable_record, Hshadow; reflexivity).
  assert (Hown : hasOwnProperty (record fields) key = true)
    by (rewrite hasOwnProperty_record, Hlookup; reflexivity).
  assert (Hget : get_prop (record fields) key = VUndefined)
    by (rewrite get_prop_record, Hlookup; reflexivity).
  split.
  - intros Hreq.
    destruct (prefix_accepted fields pre filter dtoName Hpre) as [acc Hacc].
    rewrite transform_record. unfold filter at 2.
    rewrite transform_fields_app, Hacc. cbn [bind].
    rewrite (transform_fields_undefined host classes _ (record fields) _ _ _ _ _ _
               eq_refl Hcall Hown Hget).
    rewrite Hcheck, Hreq. reflexivity.
  - intros Hreq. apply dropped_entry.
    + unfold present. rewrite Hown, Hget. reflexivity.
    + intros acc.
      rewrite (transform_fields_undefined host classes _ (record fields) _ _ _ _ _ _
               eq_refl Hcall Hown Hget).
      rewrite Hcheck, Hreq. reflexivity.
Qed.

(** C3, as the code has it.  A field whose key the input does not own, the
    fields declared before it being accepted, on an input that has no own
    property named [hasOwnProperty] (the loop calls
    [obj.hasOwnProperty(key)]): [transform] raises "Required field '<key>'
    is missing" exactly when the field is checked and is either required or
    an inline nested object; otherwise the field is left out and raises
    nothing: [transform] accepts exactly as it does without the field in the
    schema, with the same output, and that output has no such key. *)
Theorem transform_missing_field :
  forall (fields : props) (pre post : dtoFilter) (key : string) (fm : fieldMeta)
         (dtoName : string),
    lookup "hasOwnProperty" fields = None ->
    lookup key fields = None ->
    (exists out0, transform host classes (record fields) pre dtoName = Ok out0) ->
    let filter := (pre ++ (key, fm) :: post)%list in
    let raises := negb (noCheck fm) && (required fm || isNestedObject fm) in
    (raises = true ->
     transform host classes (record fields) filter dtoName
     = Throw
         (TransformErr
            (TransformError ("Required field '" ++ key ++ "' is missing")
               dtoName key VUndefined None None (record fields)
               (OfFilter filter)))) /\
    (raises = false ->
     (forall out,
         transform host classes (record fields) filter dtoName = Ok out <->
         transform host classes (record fields) (pre ++ post)%list dtoName
           = Ok out) /\
     (forall result,
         transform host classes (record fields) filter dtoName
           = Ok (record result) ->
         ~ In key (keys result))).
Proof.
  intros fields pre post key fm dtoName Hshadow Hlookup Hpre filter raises.
  assert (Hcall : hasOwnProperty_callable (record fields) = true)
    by (rewrite hasOwnProperty_callable_record, Hshadow; reflexivity).
  assert (Hown : hasOwnProperty (record fields) key = false)
    by (rewrite hasOwnProperty_record, Hlookup; reflexivity).
  split.
  - intros Hraises.
    destruct (prefix_accepted fields pre filter dtoName Hpre) as [acc Hacc].
    rewrite transform_record. unfold filter at 2.
    rewrite transform_fields_app, Hacc. cbn [bind].
    rewrite (transform_fields_missing host classes _ (record fields) _ _ _ _ _ _
               eq_refl Hcall Hown).
    fold raises. rewrite Hraises. reflexivity.
  - intros Hraises. apply dropped_entry.
    + unfold present. rewrite Hown. reflexivity.
    + intros acc.
      rewrite (transform_fields_missing host classes _ (record fields) _ _ _ _ _ _
               eq_refl Hcall Hown).
      fold raises. rewrite Hraises. reflexivity.
Qed.

End MissingAndUndefined.

Lemma transform_undefined_field_witness :
  transform sample_host no_classes
    (record [("id", VNum (Fin 1)); ("name", VUndefined)])
    (id_schema ++ [("name", text_field)])%list "UserDto"
  = Throw
      (TransformErr
         (TransformError "Required field 'name' cannot be undefined"
            "UserDto" "name" VUndefined None None
            (record [("id", VNum (Fin 1)); ("name", VUndefined)])
            (OfFilter (id_schema ++ [("name", text_field)])%list))) /\
  transform sample_host no_classes
    (record [("id", VNum (Fin 1)); ("name", VUndefined)])
    (id_schema ++ [("name", optional_text_field)])%list "UserDto"
  = Ok (record [("id", VNum (Fin 1))]).
Proof.
  split.
  - destruct (transform_undefined_field sample_host no_classes
                [("id", VNum (Fin 1)); ("name", VUndefined)]
                id_schema [] "name" text_field "UserDto"
                eq_refl eq_refl eq_refl
                (ex_intro _ (record [("id", VNum (Fin 1))]) eq_refl))
      as [Hrequired _].
    exact (Hrequired eq_refl).
  - destruct (transform_undefined_field sample_host no_classes
                [("id", VNum (Fin 1)); ("name", VUndefined)]
                id_schema [] "name" optional_text_field "UserDto"
                eq_refl eq_refl eq_refl
                (ex_intro _ (record [("id", VNum (Fin 1))]) eq_refl))
      as [_ Hoptional].
    destruct (Hoptional eq_refl) as [Hsame _].
    apply Hsame. reflexivity.
Defined.

(** C5 as stated fails: the loop asks the input itself for [hasOwnProperty],
    so on an input with an own property of that name the call is a
    [TypeError], whether the field held as [undefined] is required or not:
    neither the error that names the field nor the omission. *)
Lemma undefined_field_of_shadowing_input_raises_TypeError :
  let input :=
    record [("hasOwnProperty", VNum (Fin 1)); ("name", VUndefined)] in
  noCheck text_field = false /\ required text_field = true /\
  noCheck optional_text_field = false /\ required optional_text_field = false /\
  transform sample_host no_classes input [("name", text_field)] "UserDto"
  = Throw (TypeError "obj.hasOwnProperty is not a function") /\
  transform sample_host no_classes input [("name", optional_text_field)]
    "UserDto"
  = Throw (TypeError "obj.hasOwnProperty is not a function").
Proof. repeat split; reflexivity. Qed.

(** C3 as stated fails: a checked inline nested object that is not required
    raises "Required field 'address' is missing" when the input lacks it. *)
Lemma missing_optional_nested_object_raises :
  noCheck optional_address_field = false /\
  required optional_address_field = false /\
  lookup "address" [("id", VNum (Fin 1))] = None /\
  transform sample_host no_classes (record [("id", VNum (Fin 1))])
    (id_schema ++ [("address", optional_address_field)])%list "UserDto"
  = Throw
      (TransformErr
         (TransformError "Required field 'address' is missing"
            "UserDto" "address" VUndefined None None
            (record [("id", VNum (Fin 1))])
            (OfFilter (id_schema ++ [("address", optional_address_field)])%list))).
Proof. repeat split; reflexivity. Qed.

Lemma transform_missing_field_witness :
  transform sample_host no_classes (record [("id", VNum (Fin 1))])
    (id_schema ++ [("address", optional_address_field)])%list "UserDto"
  = Throw
      (TransformErr
         (TransformError "Required field 'address' is missing"
            "UserDto" "address" VUndefined None None
            (record [("id", VNum (Fin 1))])
            (OfFilter (id_schema ++ [("address", optional_address_field)])%list))) /\
  transform sample_host no_classes (record [("id", VNum (Fin 1))])
    (id_schema ++ [("name", optional_text_field)])%list "UserDto"
  = Ok (record [("id", VNum (Fin 1))]).
Proof.
  split.
  - destruct (transform_missing_field sample_host no_classes
                [("id", VNum (Fin 1))] id_schema [] "address"
                optional_address_field "UserDto" eq_refl eq_refl
                (ex_intro _ (record [("id", VNum (Fin 1))]) eq_refl))
      as [Hraises _].
    exact (Hraises eq_refl).
  - destruct (transform_missing_field sample_host no_classes
                [("id", VNum (Fin 1))] id_schema [] "name"
                optional_text_field "UserDto" eq_refl eq_refl
                (ex_intro _ (record [("id", VNum (Fin 1))]) eq_refl))
      as [_ Hquiet].
    destruct (Hquiet eq_refl) as [Hsame _].
    apply Hsame. reflexivity.
Defined.

(* ================================================================== *)
(** ** Skip-validation fields *)
(* ================================================================== *)

(** C4 at its failing input: the enum field is marked [@NoCheck] and the
    value is present, yet a value outside the enum raises "Invalid enum
    value" instead of being passed through. *)
Lemma noCheck_enum_still_checked :
  (exists fm, lookup "status" (filter_of_class AccountDto) = Some fm /\
              noCheck fm = true) /\
  exists e,
    transform sample_host no_classes (record [("status", VStr "pending")])
      (filter_of_class AccountDto) "AccountDto"
    = Throw (TransformErr e) /\
    err_message e = "Invalid enum value" /\
    err_receivedValue e = VStr "pending".
Proof.
  split.
  - eexists. split; reflexivity.
  - eexists. repeat split; reflexivity.
Qed.

(** The same omission on the way to [transformField]: a [@NoCheck] field
    that the input holds as [undefined] is dropped, not kept. *)
Lemma noCheck_undefined_dropped :
  transform sample_host no_classes
    (record [("id", VNum (Fin 1)); ("name", VUndefined)])
    (filter_of_class MemberDto) "MemberDto"
  = Ok (record [("id", VNum (Fin 1))]).
Proof. reflexivity. Qed.

(* ================================================================== *)
(** ** Arrays *)
(* ================================================================== *)

(** C6 at its failing inputs: neither array field is nullable, yet a [null]
    element is accepted.  In the array of records it comes back as [null];
    in the array of numbers it is coerced to [0]. *)
Lemma null_element_accepted_when_not_nullable :
  map (fun entry => (fst entry, typeCheck (snd entry), nullable (snd entry)))
      (filter_of_class OrderDto)
  = [("items", 4%Z, false); ("quantities", 16%Z, false)] /\
  transform sample_host order_classes
    (record [("items", VArr [record [("id", VNum (Fin 1))]; VNull])])
    (filter_of_class OrderDto) "OrderDto"
  = Ok (record [("items", VArr [record [("id", VNum (Fin 1))]; VNull])]) /\
  transform sample_host order_classes
    (record [("quantities", VArr [VNum (Fin 2); VNull])])
    (filter_of_class OrderDto) "OrderDto"
  = Ok (record [("quantities", VArr [VNum (Fin 2); VNum (Fin 0)])]).
Proof. repeat split; reflexivity. Qed.

(* ================================================================== *)
(** ** Applying [transform] twice *)
(* ================================================================== *)

(** C8 as stated fails.  An inline nested object that is not required and
    that the input holds as [undefined] is left out by the first [transform];
    the second one then finds the key missing, where an inline nested object
    raises. *)
Lemma transform_twice_raises :
  let schema := (id_schema ++ [("address", optional_address_field)])%list in
  transform sample_host no_classes
    (record [("id", VNum (Fin 1)); ("address", VUndefined)]) schema "UserDto"
  = Ok (record [("id", VNum (Fin 1))]) /\
  transform sample_host no_classes (record [("id", VNum (Fin 1))]) schema
    "UserDto"
  = Throw
      (TransformErr
         (TransformError "Required field 'address' is missing"
            "UserDto" "address" VUndefined None None
            (record [("id", VNum (Fin 1))]) (OfFilter schema))).
Proof. split; reflexivity. Qed.

Lemma distinct_NoDup (l : list string) : distinct l = true -> NoDup l.
Proof.
  induction l as [|k rest IH]; simpl; intros H; [constructor|].
  apply andb_prop in H. destruct H as [Hk Hrest].
  constructor; [|exact (IH Hrest)].
  intros Hin. apply negb_true_iff in Hk.
  assert (Hex : existsb (String.eqb k) rest = true).
  { apply existsb_exists. exists k. split; [exact Hin|apply String.eqb_refl]. }
  rewrite Hex in Hk. discriminate Hk.
Qed.

Lemma regular_field_unfold (fm : fieldMeta) :
  regular_field fm
  = implb (isNestedObject fm)
      ((typeCheck fm =? 32)%Z || (typeCheck fm =? 40)%Z) &&
    distinct (keys (nestedFields fm)) &&
    forallb (fun kf => negb (array_key (fst kf)) && regular_field (snd kf))
      (nestedFields fm).
Proof. destruct fm; reflexivity. Qed.

Lemma regular_nested (fm : fieldMeta) :
  regular_field fm = true -> regular_filter (nestedFields fm) = true.
Proof.
  rewrite regular_field_unfold. intros H.
  apply andb_prop in H. destruct H as [H Hall].
  apply andb_prop in H. destruct H as [_ Hdistinct].
  unfold regular_filter. rewrite Hdistinct. simpl.
  rewrite forallb_forall in *. intros kf Hin.
  specialize (Hall kf Hin). apply andb_prop in Hall. apply Hall.
Qed.

Lemma regular_filter_field (filter : dtoFilter) (key : string) (fm : fieldMeta) :
  regular_filter filter = true -> In (key, fm) filter -> regular_field fm = true.
Proof.
  unfold regular_filter. intros H Hin.
  apply andb_prop in H. destruct H as [_ Hall].
  rewrite forallb_forall in Hall. exact (Hall (key, fm) Hin).
Qed.

Lemma depth_item (items : list jsval) (x : jsval) :
  In x items -> depth x < depth (VArr items).
Proof.
  simpl. induction items as [|y rest IH]; simpl; intros Hin; [destruct Hin|].
  destruct Hin as [->|Hin]; [lia|].
  specialize (IH Hin). lia.
Qed.

Lemma depth_field (snapshot : option jsval) (fields : props) (k : string)
    (x : jsval) :
  lookup k fields = Some x -> depth x < depth (VObj snapshot fields).
Proof.
  simpl.
  assert (H : lookup k fields = Some x ->
              depth x <= (fix go (l : props) : nat :=
                            match l with
                            | [] => 0
                            | (_, y) :: r => Nat.max (depth y) (go r)
                            end) fields).
  { induction fields as [|[k0 y] rest IH]; simpl; [discriminate|].
    destruct (k0 =? k)%string.
    - intros Heq. inversion Heq. subst y. lia.
    - intros Hl. specialize (IH Hl). lia. }
  intros Hl. specialize (H Hl). lia.
Qed.

Lemma validatePrimitiveType_defined (v : jsval) (t : option string) :
  validatePrimitiveType v t = true -> is_nullish v = false.
Proof.
  destruct t as [t|]; simpl; [|discriminate].
  repeat case_if; destruct v; simpl; try discriminate; reflexivity.
Qed.

Lemma transformPrimitive_idempotent :
  forall (host : JSHost) (v out : jsval) (fm : fieldMeta) (p p' : string),
    transformPrimitive host v fm p = Ok out ->
    transformPrimitive host out fm p' = Ok out.
Proof.
  intros host v out fm p p'. unfold transformPrimitive.
  destruct (noCheck fm); [intros H; reflexivity|].
  destruct (validatePrimitiveType v (expectedType fm)) eqn:Hv; simpl.
  - intros H. inversion H. subst out. rewrite Hv. reflexivity.
  - destruct (coerceToPrimitiveType host v (expectedType fm)) as [c|];
      [|discriminate].
    destruct (validatePrimitiveType c (expectedType fm)) eqn:Hc; simpl;
      [|discriminate].
    intros H. inversion H. subst out. rewrite Hc. reflexivity.
Qed.

Lemma transformPrimitive_defined :
  forall (host : JSHost) (v out : jsval) (fm : fieldMeta) (p : string),
    transformPrimitive host v fm p = Ok out ->
    (is_undefined v = false -> is_undefined out = false) /\
    (is_nullish v = false -> is_nullish out = false).
Proof.
  intros host v out fm p. unfold transformPrimitive.
  destruct (noCheck fm).
  - intros H. inversion H. subst out. split; intros Hd; exact Hd.
  - destruct (validatePrimitiveType v (expectedType fm)) eqn:Hv; simpl.
    + intros H. inversion H. subst out. split; intros Hd; exact Hd.
    + destruct (coerceToPrimitiveType host v (expectedType fm)) as [c|];
        [|discriminate].
      destruct (validatePrimitiveType c (expectedType fm)) eqn:Hc; simpl;
        [|discriminate].
      intros H. inversion H. subst out.
      apply validatePrimitiveType_defined in Hc.
      split; intros _; [|exact Hc].
      destruct c; simpl in *; try discriminate; reflexivity.
Qed.

Lemma lookup_set_prop_same {A : Type} (l : list (string * A)) (k : string) (x : A) :
  lookup k (set_prop k x l) = Some x.
Proof.
  induction l as [|[k0 y] l IH]; simpl.
  - rewrite String.eqb_refl. reflexivity.
  - destruct (k0 =? k)%string eqn:Hk; simpl; rewrite Hk; [reflexivity|exact IH].
Qed.

Lemma lookup_set_prop_other {A : Type} (l : list (string * A)) (k k' : string)
    (x : A) :
  k <> k' -> lookup k' (set_prop k x l) = lookup k' l.
Proof.
  intros Hne. induction l as [|[k0 y] l IH]; simpl.
  - destruct (String.eqb_spec k k'); [contradiction|reflexivity].
  - destruct (String.eqb_spec k0 k) as [->|Hk0]; simpl.
    + destruct (String.eqb_spec k k'); [contradiction|reflexivity].
    + destruct (k0 =? k')%string; [reflexivity|exact IH].
Qed.

Section LoopTrace.

Context (host : JSHost) (classes : string -> option dtoClass).
Context (rec : jsval -> dtoFilter -> string -> outcome jsval).

(** What the loop leaves under a key it does not visit. *)
Lemma transform_fields_lookup_other :
  forall (obj : jsval) (filter : dtoFilter) (dtoName : string)
         (entries : dtoFilter) (acc r : props) (k : string),
    transform_fields host classes rec obj filter dtoName entries acc = Ok r ->
    ~ In k (keys entries) ->
    lookup k r = lookup k acc.
Proof.
  intros obj filter dtoName entries.
  induction entries as [|[key fm] rest IH]; intros acc r k; simpl.
  - intros H _. inversion H. reflexivity.
  - intros H Hout.
    assert (Hne : key <> k) by (intros ->; apply Hout; left; reflexivity).
    assert (Hrest : ~ In k (keys rest))
      by (intros Hin; apply Hout; right; exact Hin).
    repeat case_if; try discriminate;
      try (rewrite (IH _ _ _ H Hrest); try reflexivity;
           apply lookup_set_prop_other; exact Hne).
    case_bind; [|discriminate].
    rewrite (IH _ _ _ H Hrest). apply lookup_set_prop_other. exact Hne.
Qed.

(** What the loop did on each entry it visited, read off an accepted
    result. *)
Lemma transform_fields_lookup :
  forall (obj : jsval) (filter : dtoFilter) (dtoName : string)
         (entries : dtoFilter) (acc r : props) (key : string) (fm : fieldMeta),
    transform_fields host classes rec obj filter dtoName entries acc = Ok r ->
    NoDup (keys entries) ->
    (forall k, In k (keys entries) -> ~ In k (keys acc)) ->
    In (key, fm) entries ->
    if hasOwnProperty obj key then
      if is_undefined (get_prop obj key) then lookup key r = None
      else if is_null (get_prop obj key) then
        lookup key r = Some VNull /\ noCheck fm || nullable fm = true
      else
        exists x,
          lookup key r = Some x /\
          transformField host classes rec (get_prop obj key) fm
            (dtoName ++ "." ++ key) = Ok x
    else
      lookup key r = None /\
      negb (noCheck fm) && (required fm || isNestedObject fm) = false.
Proof.
  intros obj filter dtoName entries.
  induction entries as [|[key0 fm0] rest IH]; intros acc r key fm Hloop Hnd Hacc Hin;
    [destruct Hin|].
  simpl in Hnd. inversion Hnd as [|? ? Hfresh Hnd']. subst.
  destruct Hin as [Heq|Hin].
  - inversion Heq. subst key0 fm0. clear Heq.
    assert (Hnone : lookup key acc = None).
    { apply lookup_None_not_In. apply Hacc. left. reflexivity. }
    simpl in Hloop.
    destruct (is_nullish obj); [discriminate|].
    destruct (hasOwnProperty_callable obj); [|discriminate].
    destruct (hasOwnProperty obj key); simpl in Hloop.
    + destruct (is_undefined (get_prop obj key)).
      * case_if; [discriminate|].
        rewrite (transform_fields_lookup_other _ _ _ _ _ _ _ Hloop Hfresh).
        exact Hnone.
      * destruct (is_null (get_prop obj key)).
        -- case_if; [|discriminate].
           rewrite (transform_fields_lookup_other _ _ _ _ _ _ _ Hloop Hfresh).
           split; [apply lookup_set_prop_same|reflexivity].
        -- case_bind; [|discriminate].
           match goal with
           | Hx : transformField _ _ _ _ _ _ = Ok ?a |- _ =>
               exists a; split; [|exact Hx]
           end.
           rewrite (transform_fields_lookup_other _ _ _ _ _ _ _ Hloop Hfresh).
           apply lookup_set_prop_same.
    + case_if; [discriminate|].
      rewrite (transform_fields_lookup_other _ _ _ _ _ _ _ Hloop Hfresh).
      split; [exact Hnone|reflexivity].
  - assert (Hne : key0 <> key).
    { intros ->. apply Hfresh. change key with (fst (key, fm)).
      apply in_map. exact Hin. }
    assert (Hacc' : forall x k, In k (keys rest) ->
                                ~ In k (keys (set_prop key0 x acc))).
    { intros x k Hk Hk'. apply keys_set_prop_In in Hk'.
      destruct Hk' as [->|Hk'].
      - exact (Hfresh Hk).
      - apply (Hacc k); [right; exact Hk|exact Hk']. }
    assert (Hacc0 : forall k, In k (keys rest) -> ~ In k (keys acc)).
    { intros k Hk. apply Hacc. right. exact Hk. }
    simpl in Hloop.
    destruct (is_nullish obj); [discriminate|].
    destruct (hasOwnProperty_callable obj); [|discriminate].
    destruct (hasOwnProperty obj key0); cbn [negb] in Hloop.
    + destruct (is_undefined (get_prop obj key0)).
      * case_if_in Hloop; [discriminate|].
        exact (IH _ _ _ _ Hloop Hnd' Hacc0 Hin).
      * destruct (is_null (get_prop obj key0)).
        -- case_if_in Hloop; [|discriminate].
           exact (IH _ _ _ _ Hloop Hnd' (Hacc' _) Hin).
        -- case_bind_in Hloop; [|discriminate].
           exact (IH _ _ _ _ Hloop Hnd' (Hacc' _) Hin).
    + case_if_in Hloop; [discriminate|].
      exact (IH _ _ _ _ Hloop Hnd' Hacc0 Hin).
Qed.

(** The loop asks the input for [hasOwnProperty] at every entry: an
    accepted run over some entry found it callable. *)
Lemma transform_fields_callable :
  forall (obj : jsval) (filter : dtoFilter) (dtoName : string)
         (entries : dtoFilter) (acc r : props),
    transform_fields host classes rec obj filter dtoName entries acc = Ok r ->
    entries <> [] ->
    is_nullish obj = false /\ hasOwnProperty_callable obj = true.
Proof.
  intros obj filter dtoName [|[key fm] rest] acc r Hloop Hne;
    [contradiction Hne; reflexivity|].
  cbn [transform_fields] in Hloop.
  destruct (is_nullish obj); [discriminate Hloop|].
  destruct (hasOwnProperty_callable obj); [|discriminate Hloop].
  split; reflexivity.
Qed.

(** A key the input holds as [undefined] is passed over only where the
    field is unchecked or not required. *)
Lemma transform_fields_undefined_quiet :
  forall (obj : jsval) (filter : dtoFilter) (dtoName : string)
         (entries : dtoFilter) (acc r : props) (key : string) (fm : fieldMeta),
    transform_fields host classes rec obj filter dtoName entries acc = Ok r ->
    In (key, fm) entries ->
    hasOwnProperty obj key = true ->
    is_undefined (get_prop obj key) = true ->
    negb (noCheck fm) && required fm = false.
Proof.
  intros obj filter dtoName entries.
  induction entries as [|[key0 fm0] rest IH];
    intros acc r key fm Hloop Hin Hown Hundef; [destruct Hin|].
  cbn [transform_fields] in Hloop.
  destruct (is_nullish obj); [discriminate Hloop|].
  destruct (hasOwnProperty_callable obj); [|discriminate Hloop].
  cbn [negb] in Hloop.
  destruct Hin as [Heq|Hin].
  - inversion Heq. subst key0 fm0. rewrite Hown, Hundef in Hloop.
    cbn [negb] in Hloop.
    destruct (negb (noCheck fm) && required fm); [discriminate Hloop|].
    reflexivity.
  - destruct (hasOwnProperty obj key0); cbn [negb] in Hloop.
    + destruct (is_undefined (get_prop obj key0)).
      * case_if_in Hloop; [discriminate Hloop|].
        exact (IH _ _ _ _ Hloop Hin Hown Hundef).
      * destruct (is_null (get_prop obj key0)).
        -- case_if_in Hloop; [|discriminate Hloop].
           exact (IH _ _ _ _ Hloop Hin Hown Hundef).
        -- case_bind_in Hloop; [|discriminate Hloop].
           exact (IH _ _ _ _ Hloop Hin Hown Hundef).
    + case_if_in Hloop; [discriminate Hloop|].
      exact (IH _ _ _ _ Hloop Hin Hown Hundef).
Qed.

(** An accepted result has no own property named [hasOwnProperty], when
    the object the loop started from has none. *)
Lemma transform_fields_result_callable :
  forall (obj : jsval) (filter : dtoFilter) (dtoName : string)
         (entries : dtoFilter) (acc r : props),
    transform_fields host classes rec obj filter dtoName entries acc = Ok r ->
    hasOwnProperty_callable (record acc) = true ->
    hasOwnProperty_callable (record r) = true.
Proof.
  intros obj filter dtoName entries acc r Hloop Hacc.
  unfold hasOwnProperty_callable, record in *. cbn [own_prop] in *.
  destruct (lookup "hasOwnProperty" r) as [x|] eqn:Hr; [|reflexivity].
  exfalso.
  destruct (transform_fields_present host classes rec _ _ _ _ _ _
              "hasOwnProperty" Hloop (lookup_Some_In _ _ _ Hr))
    as [Hin|[Hin Hpresent]].
  - destruct (lookup "hasOwnProperty" acc) eqn:Hl; [discriminate Hacc|].
    apply lookup_None_not_In in Hl. exact (Hl Hin).
  - assert (Hne : entries <> []) by (intros ->; destruct Hin).
    destruct (transform_fields_callable _ _ _ _ _ _ Hloop Hne) as [_ Hcall].
    unfold present, hasOwnProperty in Hpresent.
    unfold hasOwnProperty_callable in Hcall.
    destruct (own_prop obj "hasOwnProperty"); [discriminate Hcall|].
    discriminate Hpresent.
Qed.

End LoopTrace.

Lemma lookup_app {A : Type} (a b : list (string * A)) (k : string) :
  lookup k (a ++ b)%list
  = match lookup k a with Some x => Some x | None => lookup k b end.
Proof.
  induction a as [|[k0 y] a IH]; simpl; [reflexivity|].
  destruct (k0 =? k)%string; [reflexivity|exact IH].
Qed.

Lemma set_prop_fresh {A : Type} (l : list (string * A)) (k : string) (x : A) :
  ~ In k (keys l) -> set_prop k x l = (l ++ [(k, x)])%list.
Proof.
  induction l as [|[k0 y] l IH]; simpl; intros Hout; [reflexivity|].
  destruct (String.eqb_spec k0 k) as [->|Hne].
  - exfalso. apply Hout. left. reflexivity.
  - f_equal. apply IH. intros Hin. apply Hout. right. exact Hin.
Qed.

Lemma put_back_self :
  forall (entries : dtoFilter) (acc R' : props),
    NoDup (keys acc ++ keys entries) ->
    keys R'
    = List.filter
        (fun k => match lookup k (acc ++ R')%list with
                  | Some _ => true
                  | None => false
                  end)
        (keys entries) ->
    put_back (acc ++ R')%list entries acc = (acc ++ R')%list.
Proof.
  induction entries as [|[key fm] rest IH]; intros acc R' Hnd Hkeys.
  - simpl in Hkeys. destruct R'; [|discriminate Hkeys].
    simpl. rewrite app_nil_r. reflexivity.
  - simpl in Hnd, Hkeys.
    assert (Hfresh : ~ In key (keys acc)).
    { apply NoDup_remove_2 in Hnd. intros Hin. apply Hnd.
      apply in_or_app. left. exact Hin. }
    unfold put_back. simpl. fold (put_back (acc ++ R')%list rest).
    destruct (lookup key (acc ++ R')%list) as [x|] eqn:Hl.
    + destruct R' as [|[k' x'] R'']; [discriminate Hkeys|].
      simpl in Hkeys. inversion Hkeys as [[Hk Hrest]]. subst k'.
      assert (Hx : x = x').
      { rewrite lookup_app in Hl.
        apply lookup_None_not_In in Hfresh. rewrite Hfresh in Hl.
        simpl in Hl. rewrite String.eqb_refl in Hl. inversion Hl. reflexivity. }
      subst x'.
      rewrite set_prop_fresh by exact Hfresh.
      assert (Heq : (acc ++ (key, x) :: R'' = (acc ++ [(key, x)]) ++ R'')%list)
        by (rewrite <- app_assoc; reflexivity).
      rewrite Heq. apply IH.
      * unfold keys. rewrite map_app. simpl. rewrite <- app_assoc. exact Hnd.
      * rewrite <- Heq. exact Hrest.
    + apply IH; [|exact Hkeys].
      apply NoDup_remove_1 in Hnd. exact Hnd.
Qed.

Section SecondLoop.

Context (host : JSHost) (classes : string -> option dtoClass).
Context (rec : jsval -> dtoFilter -> string -> outcome jsval).

(** The loop over a plain record [R] in which every visited key is either
    absent without being demanded, or [null] where that is allowed, or a
    value its field returns unchanged. *)
Lemma transform_fields_put_back :
  forall (R : props) (filter : dtoFilter) (dtoName : string)
         (entries : dtoFilter) (acc : props),
    hasOwnProperty_callable (record R) = true ->
    (forall key fm, In (key, fm) entries ->
       match lookup key R with
       | None => negb (noCheck fm) && (required fm || isNestedObject fm) = false
       | Some x =>
           is_undefined x = false /\
           if is_null x then noCheck fm || nullable fm = true
           else transformField host classes rec x fm (dtoName ++ "." ++ key)
                = Ok x
       end) ->
    transform_fields host classes rec (record R) filter dtoName entries acc
    = Ok (put_back R entries acc).
Proof.
  intros R filter dtoName entries.
  induction entries as [|[key fm] rest IH]; intros acc Hcall Hok; [reflexivity|].
  assert (Hhead := Hok key fm (or_introl eq_refl)).
  assert (Hrest : forall acc',
             transform_fields host classes rec (record R) filter dtoName rest acc'
             = Ok (put_back R rest acc')).
  { intros acc'. apply IH; [exact Hcall|].
    intros k f Hin. apply Hok. right. exact Hin. }
  unfold put_back. cbn [fold_left fst]. fold (put_back R rest).
  cbn [transform_fields]. rewrite Hcall.
  cbn [is_nullish record negb]. fold (record R).
  rewrite hasOwnProperty_record, get_prop_record.
  destruct (lookup key R) as [x|]; cbn [negb].
  - destruct Hhead as [Hdef Hx]. rewrite Hdef.
    destruct (is_null x) eqn:Hnull.
    + rewrite Hx. apply is_null_true in Hnull. subst x. apply Hrest.
    + rewrite Hx. cbn [bind]. apply Hrest.
  - rewrite Hhead. apply Hrest.
Qed.

End SecondLoop.

Lemma regular_nested_typeCheck (fm : fieldMeta) :
  regular_field fm = true -> isNestedObject fm = true ->
  typeCheck fm = 32%Z \/ typeCheck fm = 40%Z.
Proof.
  rewrite regular_field_unfold. intros H Hnested.
  apply andb_prop in H. destruct H as [H _].
  apply andb_prop in H. destruct H as [H _].
  rewrite Hnested in H. simpl in H.
  apply orb_prop in H. destruct H as [H|H]; apply Z.eqb_eq in H; auto.
Qed.

Lemma regular_nested_keys (fm : fieldMeta) (nk : string) (nfm : fieldMeta) :
  regular_field fm = true -> In (nk, nfm) (nestedFields fm) ->
  array_key nk = false /\ regular_field nfm = true.
Proof.
  rewrite regular_field_unfold. intros H Hin.
  apply andb_prop in H. destruct H as [_ Hall].
  rewrite forallb_forall in Hall. specialize (Hall (nk, nfm) Hin).
  apply andb_prop in Hall. destruct Hall as [Hk Hf].
  split; [|exact Hf]. apply negb_true_iff in Hk. exact Hk.
Qed.

Lemma object_like_facts (v : jsval) :
  object_like v = true ->
  is_nullish v = false /\ is_undefined v = false /\ is_null v = false /\
  (typeof v =? "object") = true /\ has_get_function v = false.
Proof.
  destruct v as [| | | | | | | | |[p|] fields]; simpl; intros H;
    try discriminate H; repeat split; reflexivity.
Qed.

Lemma plain_defined_own (v : jsval) (k : string) (x : jsval) :
  plain_defined v = true -> isArray v = false -> own_prop v k = Some x ->
  is_undefined x = false /\ plain_defined x = true.
Proof.
  destruct v as [| | | | s | | | | items |[p|] fields]; simpl;
    intros HP Harr Hown; try discriminate.
  - unfold indexed_prop in Hown.
    destruct (k =? "length").
    + inversion Hown. split; reflexivity.
    + destruct (index_of_key k) as [i|]; [|discriminate].
      apply nth_error_In in Hown. apply in_map_iff in Hown.
      destruct Hown as [c [<- _]]. split; reflexivity.
  - rewrite forallb_forall in HP.
    induction fields as [|[k0 y] rest IH]; simpl in Hown; [discriminate|].
    destruct (k0 =? k).
    + inversion Hown. subst y.
      specialize (HP (k0, x) (or_introl eq_refl)). simpl in HP.
      apply andb_prop in HP. destruct HP as [Hd Hp].
      apply negb_true_iff in Hd. split; assumption.
    + apply IH; [|exact Hown]. intros kv Hin. apply HP. right. exact Hin.
Qed.

Lemma plain_defined_item (items : list jsval) (x : jsval) :
  plain_defined (VArr items) = true -> In x items -> plain_defined x = true.
Proof.
  simpl. rewrite forallb_forall. intros H Hin. exact (H x Hin).
Qed.

Lemma plain_defined_no_get (v : jsval) :
  plain_defined v = true -> has_get_function v = false.
Proof.
  destruct v as [| | | | | | | | |[p|] fields]; simpl; intros H;
    try discriminate H; reflexivity.
Qed.

Lemma array_key_not_own (items : list jsval) (k : string) :
  array_key k = false -> hasOwnProperty (VArr items) k = false.
Proof.
  unfold array_key, hasOwnProperty, own_prop, indexed_prop. intros H.
  apply orb_false_elim in H. destruct H as [Hlen Hidx].
  rewrite Hlen. destruct (index_of_key k); [discriminate Hidx|reflexivity].
Qed.

(** [map] twice: when the second function returns what the first produced. *)
Lemma map_from_idempotent {A : Type} (f1 : A -> nat -> outcome jsval)
    (f2 : jsval -> nat -> outcome jsval) :
  forall (items : list A) (index : nat) (outs : list jsval),
    map_from f1 index items = Ok outs ->
    (forall item i o, In item items -> In o outs -> f1 item i = Ok o ->
                      f2 o i = Ok o) ->
    map_from f2 index outs = Ok outs.
Proof.
  induction items as [|item rest IH]; intros index outs; simpl.
  - intros H _. inversion H. reflexivity.
  - destruct (f1 item index) as [o|] eqn:Ho; cbn [bind]; [|discriminate].
    destruct (map_from f1 (S index) rest) as [os|] eqn:Hos; cbn [bind];
      [|discriminate].
    intros H Hall. inversion H. subst outs. simpl.
    rewrite (Hall item index o (or_introl eq_refl) (or_introl eq_refl) Ho).
    cbn [bind].
    rewrite (IH (S index) os Hos); [reflexivity|].
    intros it i o' Hit Ho' Hf. apply (Hall it i o'); [right; exact Hit| |exact Hf].
    right. exact Ho'.
Qed.

Lemma validateNestedFields_Ok :
  forall (v : jsval) (fm : fieldMeta) (p : string) (entries : dtoFilter),
    validateNestedFields v fm p entries = Ok tt <->
    (entries <> [] -> hasOwnProperty_callable v = true) /\
    (forall nk nfm, In (nk, nfm) entries ->
       if hasOwnProperty v nk
       then fst (validateFieldType (get_prop v nk) nfm (p ++ "." ++ nk)) = true
       else isFieldRequired nfm = false).
Proof.
  intros v fm p entries. induction entries as [|[nk nfm] rest IH].
  - simpl. split; [intros _|reflexivity].
    split; [intros H; contradiction H; reflexivity|intros ? ? []].
  - cbn [validateNestedFields]. split.
    + intros H.
      destruct (hasOwnProperty_callable v) eqn:Hcall; cbn [negb] in H;
        [|discriminate H].
      split; [reflexivity|].
      intros nk' nfm' [Heq|Hin].
      * inversion Heq. subst nk' nfm'.
        destruct (hasOwnProperty v nk).
        -- destruct (fst (validateFieldType (get_prop v nk) nfm (p ++ "." ++ nk)));
             [reflexivity|discriminate H].
        -- destruct (isFieldRequired nfm); [discriminate H|reflexivity].
      * apply IH; [|exact Hin].
        destruct (hasOwnProperty v nk).
        -- destruct (fst (validateFieldType (get_prop v nk) nfm (p ++ "." ++ nk)));
             [exact H|discriminate H].
        -- destruct (isFieldRequired nfm); [discriminate H|exact H].
    + intros [Hcall H].
      rewrite Hcall by discriminate. cbn [negb].
      assert (Hhead := H nk nfm (or_introl eq_refl)).
      assert (Hrest : validateNestedFields v fm p rest = Ok tt).
      { apply IH. split.
        - intros _. apply Hcall. discriminate.
        - intros nk' nfm' Hin. apply H. right. exact Hin. }
      destruct (hasOwnProperty v nk); rewrite Hhead; exact Hrest.
Qed.

Section Idempotence.

Context (host : JSHost) (classes : string -> option dtoClass).
Hypothesis Hclasses : regular_classes classes.

(** [transform] returns [null] for a root that is [null] or [undefined], and
    an array or a plain record otherwise. *)
Lemma transform_fuel_shape :
  forall (n : nat) (v : jsval) (filter : dtoFilter) (d : string) (out : jsval),
    transform_fuel host classes n v filter d = Ok out ->
    if is_nullish v then out = VNull else object_like out = true.
Proof.
  intros [|n] v filter d out; simpl; [discriminate|].
  unfold transform_body. destruct (is_nullish v).
  - intros H. inversion H. reflexivity.
  - destruct (if has_get_function v then call_get v else v);
      intros H; case_bind_in H; try discriminate H; inversion H; reflexivity.
Qed.

(** No result of [transform] has an own property named [hasOwnProperty]. *)
Lemma transform_fuel_callable :
  forall (n : nat) (v : jsval) (filter : dtoFilter) (d : string) (out : jsval),
    transform_fuel host classes n v filter d = Ok out ->
    hasOwnProperty_callable out = true.
Proof.
  intros [|n] v filter d out; simpl; [discriminate|].
  unfold transform_body. destruct (is_nullish v).
  - intros H. inversion H. reflexivity.
  - destruct (if has_get_function v then call_get v else v);
      intros H; case_bind_in H; try discriminate H; inversion H;
      try reflexivity;
      match goal with
      | Hl : transform_fields _ _ _ _ _ _ _ _ = Ok _ |- _ =>
          exact (transform_fields_result_callable host classes _ _ _ _ _ _ _ Hl
                   eq_refl)
      end.
Qed.

Lemma transformDtoFilter_regular (t : tyRef) (filter : dtoFilter) :
  transformDtoFilter classes t = Ok filter -> regular_filter filter = true.
Proof.
  destruct t; simpl; try discriminate.
  destruct (classes name) as [c|] eqn:Hc; [|discriminate].
  intros H. inversion H. subst filter. exact (Hclasses name c Hc).
Qed.

(** A received value that passes [validateFieldType] still passes it after
    [transformField]. *)
Lemma validateFieldType_after_transformField :
  forall (n : nat) (v out : jsval) (fm : fieldMeta) (p p' q : string),
    regular_field fm = true ->
    is_nullish v = false ->
    fst (validateFieldType v fm p) = true ->
    transformField host classes (transform_fuel host classes n) v fm q = Ok out ->
    fst (validateFieldType out fm p') = true.
Proof.
  intros n v out fm p p' q Hreg Hv Hvalid Hout.
  destruct (is_nullish_false v Hv) as [Hundef Hnull].
  unfold validateFieldType in *.
  destruct (noCheck fm) eqn:Hcheck; [reflexivity|].
  unfold transformField in Hout. rewrite Hundef, Hnull in Hout.
  cbn [andb orb] in Hout.
  destruct (isNestedObject fm) eqn:Hnested.
  - destruct (regular_nested_typeCheck fm Hreg Hnested) as [Htc|Htc];
      rewrite Htc in *; cbn [Z.eqb Pos.eqb orb fst] in *; [|discriminate Hvalid].
    case_if_in Hout; [discriminate Hout|].
    case_bind_in Hout; [|discriminate Hout].
    case_bind_in Hout; [|discriminate Hout]. inversion Hout. subst out.
    match goal with
    | Hr : transform_fuel _ _ _ _ _ _ = Ok _ |- _ =>
        apply transform_fuel_shape in Hr; rewrite Hv in Hr;
        destruct (object_like_facts _ Hr) as [_ [_ [Hn [Ht _]]]]
    end.
    rewrite Ht, Hn. reflexivity.
  - unfold transformField_switch in Hout.
    destruct (typeCheck fm =? 1)%Z.
    + cbn [fst] in *. unfold transformPrimitive in Hout. rewrite Hcheck in Hout.
      destruct (expectedType fm) as [t|]; [|discriminate Hvalid].
      destruct (t =? "") eqn:Ht; [discriminate Hvalid|].
      rewrite Hvalid in Hout. cbn [negb] in Hout. inversion Hout. subst out.
      exact Hvalid.
    + destruct ((typeCheck fm =? 2)%Z || (typeCheck fm =? 32)%Z).
      * cbn [fst] in *. apply andb_prop in Hvalid. destruct Hvalid as [Hobj _].
        rewrite Hobj, Hnull in Hout. cbn [negb orb] in Hout.
        case_bind_in Hout; [|discriminate Hout].
        apply transform_fuel_shape in Hout. rewrite Hv in Hout.
        destruct (object_like_facts _ Hout) as [_ [_ [Hn [Ht _]]]].
        rewrite Ht, Hn. reflexivity.
      * destruct ((typeCheck fm =? 4)%Z || (typeCheck fm =? 16)%Z).
        -- cbn [fst] in *. destruct v; try discriminate Hvalid.
           case_bind_in Hout; [|discriminate Hout]. inversion Hout. reflexivity.
        -- destruct (typeCheck fm =? 8)%Z; [|discriminate Hvalid].
           cbn [fst] in *. destruct (enum fm) as [allowed|]; [|discriminate Hvalid].
           rewrite Hvalid in Hout. cbn [negb] in Hout. inversion Hout. subst out.
           exact Hvalid.
Qed.

Lemma In_keys_entry {A : Type} (l : list (string * A)) (k : string) :
  In k (keys l) -> exists x, In (k, x) l.
Proof.
  unfold keys. intros H. apply in_map_iff in H.
  destruct H as [[k' x] [Heq Hin]]. simpl in Heq. subst k'.
  exists x. exact Hin.
Qed.

(** The loop run again on its own accepted result, when each field returns
    unchanged what it produced the first time. *)
Lemma transform_fields_idempotent :
  forall (rec1 rec2 : jsval -> dtoFilter -> string -> outcome jsval)
         (obj : jsval) (filter filter' : dtoFilter) (d d' : string) (r : props),
    transform_fields host classes rec1 obj filter d filter [] = Ok r ->
    NoDup (keys filter) ->
    (forall key fm,
        In (key, fm) filter ->
        hasOwnProperty obj key = true ->
        is_undefined (get_prop obj key) = true ->
        negb (noCheck fm) && isNestedObject fm = false) ->
    (forall key fm x,
        In (key, fm) filter ->
        hasOwnProperty obj key = true ->
        is_undefined (get_prop obj key) = false ->
        is_null (get_prop obj key) = false ->
        transformField host classes rec1 (get_prop obj key) fm (d ++ "." ++ key)
          = Ok x ->
        lookup key r = Some x ->
        is_nullish x = false /\
        transformField host classes rec2 x fm (d' ++ "." ++ key) = Ok x) ->
    transform_fields host classes rec2 (record r) filter' d' filter [] = Ok r.
Proof.
  intros rec1 rec2 obj filter filter' d d' r Hloop Hnd Hundefined Hfield.
  assert (Htrace := fun key fm =>
            transform_fields_lookup host classes rec1 obj filter d filter [] r
              key fm Hloop Hnd (fun k _ Hin => Hin)).
  rewrite transform_fields_put_back.
  - f_equal. apply (put_back_self filter [] r); [exact Hnd|].
    rewrite (transform_fields_keys host classes rec1 obj filter d filter [] r
               Hnd Hloop). simpl.
    apply filter_ext_in. intros k Hk.
    destruct (In_keys_entry _ _ Hk) as [fm Hin].
    specialize (Htrace k fm Hin). unfold present.
    destruct (hasOwnProperty obj k) eqn:Hown; simpl.
    + destruct (is_undefined (get_prop obj k)); simpl.
      * rewrite Htrace. reflexivity.
      * destruct (is_null (get_prop obj k)).
        -- destruct Htrace as [-> _]. reflexivity.
        -- destruct Htrace as [x [-> _]]. reflexivity.
    + destruct Htrace as [-> _]. reflexivity.
  - exact (transform_fields_result_callable host classes rec1 _ _ _ _ _ _ Hloop
             eq_refl).
  - intros key fm Hin. specialize (Htrace key fm Hin).
    destruct (hasOwnProperty obj key) eqn:Hown.
    + destruct (is_undefined (get_prop obj key)) eqn:Hundef.
      { rewrite Htrace.
        pose proof (transform_fields_undefined_quiet host classes rec1 _ _ _ _ _
                      _ key fm Hloop Hin Hown Hundef) as Hquiet.
        pose proof (Hundefined key fm Hin Hown Hundef) as Hnot.
        destruct (noCheck fm), (required fm), (isNestedObject fm);
          first [reflexivity|discriminate Hquiet|discriminate Hnot]. }
      destruct (is_null (get_prop obj key)) eqn:Hnull.
      * destruct Htrace as [-> Hallowed]. simpl. split; [reflexivity|exact Hallowed].
      * destruct Htrace as [x [Hl Hx]]. rewrite Hl.
        destruct (Hfield key fm x Hin Hown Hundef Hnull Hx Hl) as [Hnn Hsame].
        destruct (is_nullish_false x Hnn) as [Hu Hn].
        rewrite Hn. split; [exact Hu|exact Hsame].
    + destruct Htrace as [-> Hquiet]. exact Hquiet.
Qed.

(** The second pass of an inline nested object, run on the output of the
    first [transform] of a value it accepted. *)
Lemma validateNestedFields_after_transform :
  forall (n : nat) (v out : jsval) (fm : fieldMeta) (q q' : string),
    plain_defined v = true ->
    regular_field fm = true ->
    is_nullish v = false ->
    (typeof v =? "object") = true ->
    transform_fuel host classes n v (nestedFields fm) q = Ok out ->
    validateNestedFields v fm q (nestedFields fm) = Ok tt ->
    validateNestedFields out fm q' (nestedFields fm) = Ok tt.
Proof.
  intros n v out fm q q' HP Hreg Hv Hobj Hout Hfirst.
  rewrite validateNestedFields_Ok in Hfirst |- *.
  destruct Hfirst as [_ Hfirst].
  split; [intros _; exact (transform_fuel_callable _ _ _ _ _ Hout)|].
  intros nk nfm Hin. specialize (Hfirst nk nfm Hin).
  destruct (regular_nested_keys fm nk nfm Hreg Hin) as [Hkey Hnfm].
  assert (Hnd : NoDup (keys (nestedFields fm))).
  { apply distinct_NoDup. pose proof (regular_nested fm Hreg) as Hr.
    unfold regular_filter in Hr. apply andb_prop in Hr. apply Hr. }
  destruct n as [|n]; [discriminate Hout|].
  cbn [transform_fuel] in Hout. unfold transform_body in Hout.
  rewrite Hv, (plain_defined_no_get v HP) in Hout.
  destruct v as [| | | | | | | | items |snapshot fields];
    try discriminate Hobj; try discriminate Hv.
  - (* a date owns nothing *)
    case_bind_in Hout; [|discriminate Hout]. inversion Hout. subst out.
    match goal with
    | Hr : transform_fields _ _ _ _ _ _ _ _ = Ok ?r |- _ =>
        pose proof (transform_fields_lookup _ _ _ _ _ _ _ _ _ nk nfm Hr Hnd
                      (fun k _ Hk => Hk) Hin) as Htrace
    end.
    cbn in Htrace. destruct Htrace as [Hnone _].
    rewrite hasOwnProperty_record, Hnone. exact Hfirst.
  - (* an array owns none of the nested names *)
    case_bind_in Hout; [|discriminate Hout]. inversion Hout. subst out.
    rewrite array_key_not_own by exact Hkey.
    rewrite array_key_not_own in Hfirst by exact Hkey. exact Hfirst.
  - (* a plain record *)
    case_bind_in Hout; [|discriminate Hout]. inversion Hout. subst out.
    match goal with
    | Hr : transform_fields _ _ _ _ _ _ _ _ = Ok ?r |- _ =>
        pose proof (transform_fields_lookup _ _ _ _ _ _ _ _ _ nk nfm Hr Hnd
                      (fun k _ Hk => Hk) Hin) as Htrace
    end.
    rewrite hasOwnProperty_record, get_prop_record.
    destruct (hasOwnProperty (VObj snapshot fields) nk) eqn:Hown.
    + assert (Hd : is_undefined (get_prop (VObj snapshot fields) nk) = false).
      { unfold hasOwnProperty in Hown. unfold get_prop.
        destruct (own_prop (VObj snapshot fields) nk) as [x|] eqn:Hx;
          [|discriminate Hown].
        apply (plain_defined_own _ _ _ HP eq_refl Hx). }
      rewrite Hd in Htrace.
      destruct (is_null (get_prop (VObj snapshot fields) nk)) eqn:Hnull.
      * destruct Htrace as [-> _].
        apply is_null_true in Hnull. rewrite Hnull in Hfirst. exact Hfirst.
      * destruct Htrace as [x [-> Hx]].
        apply (validateFieldType_after_transformField n
                 (get_prop (VObj snapshot fields) nk) x nfm
                 (q ++ "." ++ nk) (q' ++ "." ++ nk) (q ++ "." ++ nk) Hnfm);
          [|exact Hfirst|exact Hx].
        destruct (get_prop (VObj snapshot fields) nk); simpl in *;
          try discriminate; reflexivity.
    + destruct Htrace as [-> _]. exact Hfirst.
Qed.

Lemma transformField_idempotent :
  forall (n : nat),
    idempotent_at host classes n ->
    forall (v : jsval) (fm : fieldMeta) (q : string) (out : jsval),
      plain_defined v = true ->
      regular_field fm = true ->
      is_nullish v = false ->
      transformField host classes (transform_fuel host classes n) v fm q = Ok out ->
      is_nullish out = false /\
      forall (m : nat) (q' : string),
        depth out < m ->
        transformField host classes (transform_fuel host classes m) out fm q'
        = Ok out.
Proof.
  intros n IH v fm q out HP Hreg Hv Hout.
  destruct (is_nullish_false v Hv) as [Hundef Hnull].
  unfold transformField, transformField_switch in Hout.
  rewrite Hundef, Hnull in Hout. cbn [andb orb] in Hout.
  assert (Hagain : forall m q',
             is_nullish out = false ->
             (if isNestedObject fm then
                if negb (typeof out =? "object") || is_null out then
                  Throw (err "Field should be an object" q' "" out (Some "object")
                           None out (OfField fm))
                else
                  transformedNested <-
                    transform_fuel host classes m out (nestedFields fm) q' ;;
                  _ <- validateNestedFields out fm q' (nestedFields fm) ;;
                  Ok transformedNested
              else transformField_switch host classes
                     (transform_fuel host classes m) out fm q') = Ok out ->
             transformField host classes (transform_fuel host classes m) out fm q'
             = Ok out).
  { intros m q' Hnn H. destruct (is_nullish_false out Hnn) as [Hu Hn].
    unfold transformField. rewrite Hu. rewrite Hn in H |- *. exact H. }
  destruct (isNestedObject fm) eqn:Hnested.
  - (* inline nested object *)
    destruct (typeof v =? "object") eqn:Hobj; [|discriminate Hout].
    cbn [negb orb] in Hout.
    destruct (transform_fuel host classes n v (nestedFields fm) q)
      as [nested|] eqn:Hrec; cbn [bind] in Hout; [|discriminate Hout].
    destruct (validateNestedFields v fm q (nestedFields fm)) as [[]|] eqn:Hsecond;
      cbn [bind] in Hout; [|discriminate Hout].
    inversion Hout. subst out.
    pose proof (transform_fuel_shape _ _ _ _ _ Hrec) as Hshape.
    rewrite Hv in Hshape.
    destruct (object_like_facts _ Hshape) as [Hnn [_ [Hn [Ht _]]]].
    split; [exact Hnn|]. intros m q' Hm. apply Hagain; [exact Hnn|].
    rewrite Ht, Hn. cbn [negb orb].
    rewrite (IH v (nestedFields fm) q nested HP (regular_nested fm Hreg) Hrec
               m q' Hm).
    cbn [bind].
    rewrite (validateNestedFields_after_transform n v nested fm q q' HP Hreg Hv
               Hobj Hrec Hsecond).
    reflexivity.
  - unfold transformField_switch in Hagain. rewrite Hnested in Hagain.
    destruct (typeCheck fm =? 1)%Z eqn:Htc1.
    { (* scalar *)
      destruct (transformPrimitive_defined host v out fm q Hout) as [_ Hnn].
      split; [exact (Hnn Hv)|]. intros m q' _. apply Hagain; [exact (Hnn Hv)|].
      exact (transformPrimitive_idempotent host v out fm q q' Hout). }
    destruct ((typeCheck fm =? 2)%Z || (typeCheck fm =? 32)%Z) eqn:Htc2.
    { (* record of a class *)
      destruct (typeof v =? "object") eqn:Hobj; [|discriminate Hout].
      cbn [negb orb] in Hout.
      destruct (transformDtoFilter classes (type fm)) as [itemFilter|] eqn:Hfilter;
        cbn [bind] in Hout; [|discriminate Hout].
      pose proof (transform_fuel_shape _ _ _ _ _ Hout) as Hshape.
      rewrite Hv in Hshape.
      destruct (object_like_facts _ Hshape) as [Hnn [_ [Hn [Ht _]]]].
      split; [exact Hnn|]. intros m q' Hm. apply Hagain; [exact Hnn|].
      rewrite Ht, Hn. cbn [negb orb bind].
      exact (IH v itemFilter q out HP
               (transformDtoFilter_regular _ _ Hfilter) Hout m q' Hm). }
    destruct ((typeCheck fm =? 4)%Z || (typeCheck fm =? 16)%Z) eqn:Htc4.
    { (* arrays *)
      destruct v as [| | | | | | | | items |]; try discriminate Hout.
      destruct (map_indexed
                  (fun item index =>
                     if is_undefined item then
                       Throw (err "Invalid value in array"
                                (q ++ "[" ++ string_of_nat index ++ "]") "" item
                                (Some "non-undefined") None (VArr items)
                                (OfField fm))
                     else if is_null item && nullable fm then Ok VNull
                     else if (typeCheck fm =? 4)%Z then
                       itemFilter <- transformDtoFilter classes (elem0 (type fm)) ;;
                       transform_fuel host classes n item itemFilter
                         (q ++ "[" ++ string_of_nat index ++ "]")
                     else transformPrimitive host item fm
                            (q ++ "[" ++ string_of_nat index ++ "]"))
                  items) as [outs|] eqn:Hmap; cbn [bind] in Hout;
        [|discriminate Hout].
      inversion Hout. subst out. split; [reflexivity|].
      intros m q' Hm. apply Hagain; [reflexivity|].
      unfold map_indexed in Hmap |- *.
      match goal with
      | |- context [map_from ?f2 0 outs] =>
          rewrite (map_from_idempotent _ f2 items 0 outs Hmap)
      end; [reflexivity|].
      intros item i o Hitem Ho Hf. cbv beta in Hf |- *.
      destruct (is_undefined item) eqn:Hiu; [discriminate Hf|].
      destruct (is_null item && nullable fm) eqn:Hnn.
      - inversion Hf. subst o. apply andb_prop in Hnn.
        destruct Hnn as [_ ->]. reflexivity.
      - assert (Hdepth : depth o < m).
        { pose proof (depth_item outs o Ho). lia. }
        destruct (typeCheck fm =? 4)%Z.
        + destruct (transformDtoFilter classes (elem0 (type fm)))
            as [itemFilter|] eqn:Hfilter; cbn [bind] in Hf |- *;
            [|discriminate Hf].
          pose proof (transform_fuel_shape _ _ _ _ _ Hf) as Hshape.
          assert (Hrun := IH item itemFilter _ o
                            (plain_defined_item items item HP Hitem)
                            (transformDtoFilter_regular _ _ Hfilter) Hf m
                            (q' ++ "[" ++ string_of_nat i ++ "]") Hdepth).
          destruct (is_nullish item) eqn:Hin.
          * subst o. destruct item; try discriminate Hin; try discriminate Hiu.
            simpl in Hnn. rewrite Hnn. simpl. exact Hrun.
          * destruct (object_like_facts _ Hshape) as [_ [Hu [Hn _]]].
            rewrite Hu, Hn. exact Hrun.
        + destruct (transformPrimitive_defined host item o fm _ Hf) as [Hu _].
          rewrite (Hu Hiu).
          destruct (is_null o && nullable fm) eqn:Hon.
          * apply andb_prop in Hon. destruct Hon as [Hon _].
            apply is_null_true in Hon. subst o. reflexivity.
          * exact (transformPrimitive_idempotent host item o fm _ _ Hf). }
    destruct (typeCheck fm =? 8)%Z eqn:Htc8; [|discriminate Hout].
    (* enum *)
    destruct (enum fm) as [allowed|]; [|discriminate Hout].
    destruct (includes allowed v) eqn:Hinc; [|discriminate Hout].
    cbn [negb] in Hout. inversion Hout. subst out.
    split; [exact Hv|]. intros m q' _. apply Hagain; [exact Hv|].
    rewrite Hinc. reflexivity.
Qed.

Lemma transform_body_fields :
  forall (rec : jsval -> dtoFilter -> string -> outcome jsval)
         (obj : jsval) (filter : dtoFilter) (d : string),
    is_nullish obj = false ->
    has_get_function obj = false ->
    isArray obj = false ->
    transform_body host classes rec obj filter d
    = (result <- transform_fields host classes rec obj filter d filter [] ;;
       Ok (record result)).
Proof.
  intros rec obj filter d Hnull Hget Harr. unfold transform_body.
  rewrite Hnull, Hget. destruct obj; try discriminate Harr; reflexivity.
Qed.

Lemma transform_idempotent_at_every_bound :
  forall n, idempotent_at host classes n.
Proof.
  induction n as [|n IH]; intros v filter d out HP Hreg Hout m d' Hm;
    [discriminate Hout|].
  cbn [transform_fuel] in Hout.
  destruct (is_nullish v) eqn:Hv.
  - unfold transform_body in Hout. rewrite Hv in Hout. inversion Hout. subst out.
    destruct m as [|m]; [inversion Hm|]. reflexivity.
  - destruct (isArray v) eqn:Harr.
    + destruct v; try discriminate Harr.
      unfold transform_body in Hout. cbn [is_nullish has_get_function] in Hout.
      case_bind_in Hout; [|discriminate Hout]. inversion Hout. subst out.
      destruct m as [|m]; [inversion Hm|].
      cbn [transform_fuel]. unfold transform_body.
      cbn [is_nullish has_get_function]. unfold map_indexed in *.
      match goal with
      | Hmap : map_from _ 0 items = Ok ?outs |- context [map_from ?f2 0 ?outs] =>
          rewrite (map_from_idempotent _ f2 items 0 outs Hmap); [reflexivity|];
          intros item i o Hitem Ho Hf; cbv beta in Hf |- *;
          apply (IH item filter d o (plain_defined_item items item HP Hitem)
                   Hreg Hf m d');
          pose proof (depth_item outs o Ho); lia
      end.
    + rewrite (transform_body_fields _ v filter d Hv
                 (plain_defined_no_get v HP) Harr) in Hout.
      case_bind_in Hout; [|discriminate Hout]. inversion Hout. subst out.
      destruct m as [|m]; [inversion Hm|].
      cbn [transform_fuel].
      rewrite (transform_body_fields _ (record _) filter d' eq_refl eq_refl eq_refl).
      match goal with
      | Hloop : transform_fields _ _ _ v filter d filter [] = Ok ?r |- _ =>
          rewrite (transform_fields_idempotent
                     (transform_fuel host classes n)
                     (transform_fuel host classes m)
                     v filter filter d d' r Hloop);
          [reflexivity| | |]
      end.
      * apply distinct_NoDup. unfold regular_filter in Hreg.
        apply andb_prop in Hreg. apply Hreg.
      * intros key fm _ Hown Hundef. exfalso.
        unfold hasOwnProperty in Hown. unfold get_prop in Hundef.
        destruct (own_prop v key) as [x|] eqn:Hx; [|discriminate Hown].
        destruct (plain_defined_own v key x HP Harr Hx) as [Hd _].
        rewrite Hd in Hundef. discriminate Hundef.
      * intros key fm x Hin Hown _ Hnull Hx Hlookup.
        assert (Hprop : is_undefined (get_prop v key) = false /\
                        plain_defined (get_prop v key) = true).
        { unfold hasOwnProperty in Hown. unfold get_prop.
          destruct (own_prop v key) as [y|] eqn:Hy; [|discriminate Hown].
          apply (plain_defined_own v key y HP Harr Hy). }
        destruct Hprop as [Hdef Hplain].
        assert (Hnn : is_nullish (get_prop v key) = false).
        { destruct (get_prop v key); simpl in *; try discriminate; reflexivity. }
        destruct (transformField_idempotent n IH (get_prop v key) fm _ x Hplain
                    (regular_filter_field filter key fm Hreg Hin) Hnn Hx)
          as [Hxn Hagain].
        split; [exact Hxn|]. apply Hagain.
        pose proof (depth_field None _ key x Hlookup) as Hd.
        unfold record in Hm. lia.
Qed.

(** One field run again on its own accepted result, where the value it
    received is settled. *)
Lemma transformField_idempotent_settled :
  forall (n : nat),
    (forall v filter d out,
        settled_fuel classes n v filter = true ->
        regular_filter filter = true ->
        transform_fuel host classes n v filter d = Ok out ->
        forall m d',
          depth out < m ->
          transform_fuel host classes m out filter d' = Ok out) ->
    forall (v : jsval) (fm : fieldMeta) (q : string) (out : jsval),
      settled_field classes (settled_fuel classes n) v fm = true ->
      regular_field fm = true ->
      is_nullish v = false ->
      transformField host classes (transform_fuel host classes n) v fm q = Ok out ->
      is_nullish out = false /\
      forall (m : nat) (q' : string),
        depth out < m ->
        transformField host classes (transform_fuel host classes m) out fm q'
        = Ok out.
Proof.
  intros n IH v fm q out Hs Hreg Hv Hout.
  destruct (is_nullish_false v Hv) as [Hundef Hnull].
  unfold settled_field in Hs. rewrite Hundef, Hnull in Hs.
  destruct (isNestedObject fm) eqn:Hnested.
  { exact (transformField_idempotent n (transform_idempotent_at_every_bound n)
             v fm q out Hs Hreg Hv Hout). }
  unfold transformField in Hout.
  rewrite Hundef, Hnull, Hnested in Hout. cbn [andb orb] in Hout.
  assert (Hagain : forall m q',
             is_nullish out = false ->
             transformField_switch host classes (transform_fuel host classes m)
               out fm q' = Ok out ->
             transformField host classes (transform_fuel host classes m) out fm q'
             = Ok out).
  { intros m q' Hnn H. destruct (is_nullish_false out Hnn) as [Hu Hn].
    unfold transformField. rewrite Hu, Hn, Hnested. exact H. }
  unfold transformField_switch in Hout, Hagain. rewrite Hnested in Hout, Hagain.
  destruct (typeCheck fm =? 1)%Z eqn:Htc1.
  { destruct (transformPrimitive_defined host v out fm q Hout) as [_ Hnn].
    split; [exact (Hnn Hv)|]. intros m q' _. apply Hagain; [exact (Hnn Hv)|].
    exact (transformPrimitive_idempotent host v out fm q q' Hout). }
  destruct ((typeCheck fm =? 2)%Z || (typeCheck fm =? 32)%Z) eqn:Htc2.
  { destruct (typeof v =? "object") eqn:Hobj; [|discriminate Hout].
    cbn [negb orb] in Hout. rewrite Hnull in Hout.
    destruct (transformDtoFilter classes (type fm)) as [itemFilter|] eqn:Hfilter;
      cbn [bind] in Hout; [|discriminate Hout].
    pose proof (transform_fuel_shape _ _ _ _ _ Hout) as Hshape.
    rewrite Hv in Hshape.
    destruct (object_like_facts _ Hshape) as [Hnn [_ [Hn [Ht _]]]].
    split; [exact Hnn|]. intros m q' Hm. apply Hagain; [exact Hnn|].
    rewrite Ht, Hn. cbn [negb orb bind].
    exact (IH v itemFilter q out Hs
             (transformDtoFilter_regular _ _ Hfilter) Hout m q' Hm). }
  destruct ((typeCheck fm =? 4)%Z || (typeCheck fm =? 16)%Z) eqn:Htc4.
  { destruct v as [| | | | | | | | items |]; try discriminate Hout.
    destruct (map_indexed
                (fun item index =>
                   if is_undefined item then
                     Throw (err "Invalid value in array"
                              (q ++ "[" ++ string_of_nat index ++ "]") "" item
                              (Some "non-undefined") None (VArr items)
                              (OfField fm))
                   else if is_null item && nullable fm then Ok VNull
                   else if (typeCheck fm =? 4)%Z then
                     itemFilter <- transformDtoFilter classes (elem0 (type fm)) ;;
                     transform_fuel host classes n item itemFilter
                       (q ++ "[" ++ string_of_nat index ++ "]")
                   else transformPrimitive host item fm
                          (q ++ "[" ++ string_of_nat index ++ "]"))
                items) as [outs|] eqn:Hmap; cbn [bind] in Hout;
      [|discriminate Hout].
    inversion Hout. subst out. split; [reflexivity|].
    intros m q' Hm. apply Hagain; [reflexivity|].
    unfold map_indexed in Hmap |- *.
    match goal with
    | |- context [map_from ?f2 0 outs] =>
        rewrite (map_from_idempotent _ f2 items 0 outs Hmap)
    end; [reflexivity|].
    intros item i o Hitem Ho Hf. cbv beta in Hf |- *.
    destruct (is_undefined item) eqn:Hiu; [discriminate Hf|].
    destruct (is_null item && nullable fm) eqn:Hnn.
    - inversion Hf. subst o. apply andb_prop in Hnn.
      destruct Hnn as [_ ->]. reflexivity.
    - assert (Hdepth : depth o < m).
      { pose proof (depth_item outs o Ho). lia. }
      destruct (typeCheck fm =? 4)%Z.
      + destruct (transformDtoFilter classes (elem0 (type fm)))
          as [itemFilter|] eqn:Hfilter; cbn [bind] in Hf |- *;
          [|discriminate Hf].
        pose proof (transform_fuel_shape _ _ _ _ _ Hf) as Hshape.
        assert (Hsettled : settled_fuel classes n item itemFilter = true).
        { rewrite forallb_forall in Hs. exact (Hs item Hitem). }
        assert (Hrun := IH item itemFilter _ o Hsettled
                          (transformDtoFilter_regular _ _ Hfilter) Hf m
                          (q' ++ "[" ++ string_of_nat i ++ "]") Hdepth).
        destruct (is_nullish item) eqn:Hin.
        * subst o. destruct item; try discriminate Hin; try discriminate Hiu.
          simpl in Hnn. rewrite Hnn. simpl. exact Hrun.
        * destruct (object_like_facts _ Hshape) as [_ [Hu [Hn _]]].
          rewrite Hu, Hn. exact Hrun.
      + destruct (transformPrimitive_defined host item o fm _ Hf) as [Hu _].
        rewrite (Hu Hiu).
        destruct (is_null o && nullable fm) eqn:Hon.
        * apply andb_prop in Hon. destruct Hon as [Hon _].
          apply is_null_true in Hon. subst o. reflexivity.
        * exact (transformPrimitive_idempotent host item o fm _ _ Hf). }
  destruct (typeCheck fm =? 8)%Z eqn:Htc8; [|discriminate Hout].
  destruct (enum fm) as [allowed|] eqn:Henum; [|discriminate Hout].
  destruct (includes allowed v) eqn:Hinc; [|discriminate Hout].
  cbn [negb] in Hout. inversion Hout. subst out.
  split; [exact Hv|]. intros m q' _. apply Hagain; [exact Hv|].
  rewrite Hinc. reflexivity.
Qed.

(** [transform] returns its own accepted output unchanged, wherever the
    input is settled. *)
Lemma transform_idempotent_settled_at_every_bound :
  forall (n : nat) (v : jsval) (filter : dtoFilter) (d : string) (out : jsval),
    settled_fuel classes n v filter = true ->
    regular_filter filter = true ->
    transform_fuel host classes n v filter d = Ok out ->
    forall (m : nat) (d' : string),
      depth out < m ->
      transform_fuel host classes m out filter d' = Ok out.
Proof.
  induction n as [|n IH]; intros v filter d out Hs Hreg Hout m d' Hm;
    [discriminate Hout|].
  cbn [transform_fuel] in Hout. cbn [settled_fuel] in Hs.
  unfold transform_body in Hout.
  destruct (is_nullish v) eqn:Hv.
  { inversion Hout. subst out. destruct m as [|m]; [inversion Hm|]. reflexivity. }
  cbv zeta in Hout, Hs.
  remember (if has_get_function v then call_get v else v) as v' eqn:Hv'.
  destruct (isArray v') eqn:Harr.
  - destruct v' as [| | | | | | | |items|]; try discriminate Harr.
    case_bind_in Hout; [|discriminate Hout]. inversion Hout. subst out.
    destruct m as [|m]; [inversion Hm|].
    cbn [transform_fuel]. unfold transform_body.
    cbn [is_nullish has_get_function]. unfold map_indexed in *.
    rewrite forallb_forall in Hs.
    match goal with
    | Hmap : map_from _ 0 items = Ok ?outs |- context [map_from ?f2 0 ?outs] =>
        rewrite (map_from_idempotent _ f2 items 0 outs Hmap); [reflexivity|];
        intros item i o Hitem Ho Hf; cbv beta in Hf |- *;
        apply (IH item filter d o (Hs item Hitem) Hreg Hf m d');
        pose proof (depth_item outs o Ho); lia
    end.
  - assert (Hloop : (result <- transform_fields host classes
                                 (transform_fuel host classes n) v' filter d
                                 filter [] ;;
                     Ok (record result)) = Ok out)
      by (destruct v'; first [discriminate Harr|exact Hout]).
    assert (Hfields :
              forallb
                (fun kf =>
                   match own_prop v' (fst kf) with
                   | Some x =>
                       settled_field classes (settled_fuel classes n) x (snd kf)
                   | None => true
                   end) filter = true)
      by (destruct v'; first [discriminate Harr|exact Hs]).
    clear Hout Hs. rewrite forallb_forall in Hfields.
    destruct (transform_fields host classes (transform_fuel host classes n) v'
                filter d filter []) as [r|] eqn:Hr; cbn [bind] in Hloop;
      [|discriminate Hloop].
    inversion Hloop. subst out.
    destruct m as [|m]; [inversion Hm|].
    cbn [transform_fuel].
    rewrite (transform_body_fields _ (record r) filter d' eq_refl eq_refl eq_refl).
    rewrite (transform_fields_idempotent
               (transform_fuel host classes n) (transform_fuel host classes m)
               v' filter filter d d' r Hr); [reflexivity| | |].
    + apply distinct_NoDup. unfold regular_filter in Hreg.
      apply andb_prop in Hreg. apply Hreg.
    + intros key fm Hin Hown Hundef.
      specialize (Hfields (key, fm) Hin). cbn [fst snd] in Hfields.
      unfold hasOwnProperty in Hown. unfold get_prop in Hundef.
      destruct (own_prop v' key) as [x|]; [|discriminate Hown].
      unfold settled_field in Hfields. rewrite Hundef in Hfields.
      apply negb_true_iff in Hfields. exact Hfields.
    + intros key fm x Hin Hown Hundef Hnull Hx Hlookup.
      specialize (Hfields (key, fm) Hin). cbn [fst snd] in Hfields.
      unfold hasOwnProperty in Hown. unfold get_prop in Hundef, Hnull, Hx.
      destruct (own_prop v' key) as [y|]; [|discriminate Hown].
      assert (Hnn : is_nullish y = false)
        by (destruct y; first [reflexivity|discriminate]).
      destruct (transformField_idempotent_settled n IH y fm _ x Hfields
                  (regular_filter_field filter key fm Hreg Hin) Hnn Hx)
        as [Hxn Hagain].
      split; [exact Hxn|]. apply Hagain.
      pose proof (depth_field None _ key x Hlookup) as Hd.
      unfold record in Hm. lia.
Qed.

End Idempotence.

(* ================================================================== *)
(** ** Already conformant input *)
(* ================================================================== *)

Lemma number_eqb_refl (n : number) : number_eqb n n = true.
Proof. destruct n as [|[|]|z]; simpl; try reflexivity. apply Z.eqb_refl. Qed.

(** A scalar of the expected type is equal to itself. *)
Lemma deep_equal_valid (y : jsval) (e : option string) :
  validatePrimitiveType y e = true -> deep_equal y y = true.
Proof.
  intros H.
  destruct y as [| |b|n|s|z|dsc i|[t|]|items|snap fields];
    try (cbn [deep_equal same_value_zero];
         first [reflexivity|apply Bool.eqb_reflx|apply number_eqb_refl
               |apply String.eqb_refl|apply Z.eqb_refl|apply Nat.eqb_refl]);
    exfalso; (destruct e as [t|]; [|discriminate H]); cbn in H;
    repeat (case_if_in H; try discriminate H); discriminate H.
Qed.

(** So is a member of an enum. *)
Lemma deep_equal_member (allowed : list jsval) (y : jsval) :
  includes allowed y = true -> deep_equal y y = true.
Proof.
  unfold includes. intros H. apply existsb_exists in H.
  destruct H as [a [_ Ha]].
  destruct a, y; try discriminate Ha; cbn [deep_equal same_value_zero];
    first [reflexivity|apply Bool.eqb_reflx|apply number_eqb_refl
          |apply String.eqb_refl|apply Z.eqb_refl|apply Nat.eqb_refl].
Qed.

Lemma deep_equal_record (r fields : props) :
  length r = length fields ->
  distinct (keys r) = true ->
  (forall k x, In (k, x) r ->
               exists y, lookup k fields = Some y /\ deep_equal x y = true) ->
  deep_equal (record r) (VObj None fields) = true.
Proof.
  intros Hlen Hd Hall. unfold record. cbn [deep_equal].
  rewrite Hlen, Nat.eqb_refl, Hd. cbn [andb]. clear Hlen Hd.
  induction r as [|[k x] rest IH]; [reflexivity|].
  destruct (Hall k x (or_introl eq_refl)) as [y [Hy Heq]].
  rewrite Hy, Heq. cbn [andb]. apply IH.
  intros k' x' Hin. apply Hall. right. exact Hin.
Qed.

Lemma deep_equal_array (outs items : list jsval) :
  Forall2 (fun o item => deep_equal o item = true) outs items ->
  deep_equal (VArr outs) (VArr items) = true.
Proof.
  intros H. cbn [deep_equal].
  induction H as [|o item outs items Ho _ IH]; [reflexivity|].
  rewrite Ho. cbn [andb]. exact IH.
Qed.

Lemma map_from_Forall2 {A B : Type} (f : A -> nat -> outcome B)
    (R : B -> A -> Prop) :
  forall (l : list A) (index : nat),
    (forall x i, In x l -> exists y, f x i = Ok y /\ R y x) ->
    exists ys, map_from f index l = Ok ys /\ Forall2 R ys l.
Proof.
  induction l as [|x rest IH]; intros index Hall.
  - exists []. split; [reflexivity|constructor].
  - destruct (Hall x index (or_introl eq_refl)) as [y [Hy HR]].
    destruct (IH (S index) (fun x' i Hin => Hall x' i (or_intror Hin)))
      as [ys [Hys HRs]].
    exists (y :: ys). cbn [map_from]. rewrite Hy. cbn [bind].
    rewrite Hys. cbn [bind]. split; [reflexivity|constructor; assumption].
Qed.

Lemma In_lookup {A : Type} (l : list (string * A)) (k : string) (x : A) :
  NoDup (keys l) -> In (k, x) l -> lookup k l = Some x.
Proof.
  induction l as [|[k0 y] rest IH]; intros Hnd Hin; [destruct Hin|].
  simpl in Hnd. inversion Hnd as [|? ? Hfresh Hnd']. subst.
  cbn [lookup]. destruct Hin as [Heq|Hin].
  - inversion Heq. subst. rewrite String.eqb_refl. reflexivity.
  - destruct (String.eqb_spec k0 k) as [->|_]; [|exact (IH Hnd' Hin)].
    contradiction Hfresh. change k with (fst (k, x)). apply in_map. exact Hin.
Qed.

Lemma filter_all {A : Type} (p : A -> bool) (l : list A) :
  (forall x, In x l -> p x = true) -> List.filter p l = l.
Proof.
  induction l as [|x rest IH]; intros H; [reflexivity|].
  cbn [List.filter]. rewrite (H x (or_introl eq_refl)). f_equal.
  apply IH. intros y Hy. apply H. right. exact Hy.
Qed.

Section Conformance.

Context (host : JSHost) (classes : string -> option dtoClass).
Hypothesis Hclasses : regular_classes classes.

(** The loop accepts an input that holds every visited field with a value
    the field accepts. *)
Lemma transform_fields_accepts
    (rec : jsval -> dtoFilter -> string -> outcome jsval)
    (obj : jsval) (filter : dtoFilter) (d : string) :
  is_nullish obj = false ->
  hasOwnProperty_callable obj = true ->
  forall (entries : dtoFilter) (acc : props),
    (forall key fm,
        In (key, fm) entries ->
        hasOwnProperty obj key = true /\
        is_undefined (get_prop obj key) = false /\
        if is_null (get_prop obj key) then noCheck fm || nullable fm = true
        else exists x,
            transformField host classes rec (get_prop obj key) fm
              (d ++ "." ++ key) = Ok x) ->
    exists r,
      transform_fields host classes rec obj filter d entries acc = Ok r.
Proof.
  intros Hnn Hcall. induction entries as [|[key fm] rest IH]; intros acc Hall.
  - exists acc. reflexivity.
  - cbn [transform_fields]. rewrite Hnn, Hcall. cbn [negb].
    destruct (Hall key fm (or_introl eq_refl)) as [Hown [Hu Hrest]].
    rewrite Hown, Hu. cbn [negb].
    assert (Hlater : forall key' fm',
               In (key', fm') rest ->
               hasOwnProperty obj key' = true /\
               is_undefined (get_prop obj key') = false /\
               if is_null (get_prop obj key')
               then noCheck fm' || nullable fm' = true
               else exists x,
                   transformField host classes rec (get_prop obj key') fm'
                     (d ++ "." ++ key') = Ok x)
      by (intros key' fm' Hin; apply Hall; right; exact Hin).
    destruct (is_null (get_prop obj key)).
    + rewrite Hrest. apply IH. exact Hlater.
    + destruct Hrest as [x Hx]. rewrite Hx. cbn [bind]. apply IH. exact Hlater.
Qed.

(** What [conformant_fuel] says of a value. *)
Lemma conformant_fuel_record (n : nat) (inline : bool) (v : jsval)
    (filter : dtoFilter) :
  conformant_fuel classes n inline v filter = true ->
  exists n' fields,
    n = S n' /\ v = VObj None fields /\
    lookup "hasOwnProperty" fields = None /\
    distinct (keys fields) = true /\
    length fields = length filter /\
    forall key fm,
      In (key, fm) filter ->
      exists x,
        lookup key fields = Some x /\ is_undefined x = false /\
        if is_null x then nullable fm && (negb inline || noCheck fm) = true
        else conformant_field classes (conformant_fuel classes n') x fm = true.
Proof.
  destruct n as [|n']; [intros H; discriminate H|].
  destruct v as [| | | | | | | | |[p|] fields]; try (intros H; discriminate H).
  cbn [conformant_fuel]. intros H.
  apply andb_prop in H. destruct H as [H Hall].
  apply andb_prop in H. destruct H as [H Hlen].
  apply andb_prop in H. destruct H as [Hshadow Hdistinct].
  exists n', fields.
  split; [reflexivity|]. split; [reflexivity|].
  split; [destruct (lookup "hasOwnProperty" fields);
          [discriminate Hshadow|reflexivity]|].
  split; [exact Hdistinct|].
  split; [apply Nat.eqb_eq; exact Hlen|].
  intros key fm Hin. rewrite forallb_forall in Hall.
  specialize (Hall (key, fm) Hin). cbn [fst snd] in Hall.
  destruct (lookup key fields) as [x|]; [|discriminate Hall].
  exists x. split; [reflexivity|].
  destruct (is_undefined x); [discriminate Hall|].
  split; [reflexivity|]. destruct (is_null x); exact Hall.
Qed.

(** A conformant value passes the check of the second pass. *)
Lemma conformant_field_valid (n : nat) (x : jsval) (fm : fieldMeta)
    (p : string) :
  conformant_field classes (conformant_fuel classes n) x fm = true ->
  fst (validateFieldType x fm p) = true.
Proof.
  unfold conformant_field, validateFieldType. intros H.
  destruct (noCheck fm); [reflexivity|].
  destruct (isNestedObject fm).
  - apply andb_prop in H. destruct H as [Htc Hrec].
    apply Z.eqb_eq in Htc. rewrite Htc. cbn [Z.eqb Pos.eqb orb fst].
    destruct (conformant_fuel_record _ _ _ _ Hrec)
      as [n' [fields [_ [-> _]]]].
    reflexivity.
  - destruct (typeCheck fm =? 1)%Z.
    { cbn [fst]. destruct (expectedType fm) as [t|]; [|discriminate H].
      destruct (String.eqb_spec t "") as [->|_]; [discriminate H|exact H]. }
    destruct (typeCheck fm =? 2)%Z.
    { cbn [orb fst].
      destruct (transformDtoFilter classes (type fm)); [|discriminate H].
      destruct (conformant_fuel_record _ _ _ _ H) as [n' [fields [_ [-> _]]]].
      reflexivity. }
    cbn [orb].
    destruct (typeCheck fm =? 32)%Z eqn:H32.
    { apply Z.eqb_eq in H32. rewrite H32 in H. discriminate H. }
    destruct (typeCheck fm =? 4)%Z.
    { cbn [orb fst]. destruct x; try discriminate H. reflexivity. }
    destruct (typeCheck fm =? 16)%Z.
    { cbn [orb fst]. destruct x; try discriminate H. reflexivity. }
    cbn [orb].
    destruct (typeCheck fm =? 8)%Z; [|discriminate H].
    cbn [fst]. exact H.
Qed.

(** One field on a conformant value. *)
Lemma transformField_conformant (n : nat) :
  (forall inline v filter d,
      conformant_fuel classes n inline v filter = true ->
      regular_filter filter = true ->
      exists out,
        transform_fuel host classes n v filter d = Ok out /\
        deep_equal out v = true) ->
  forall (x : jsval) (fm : fieldMeta) (q : string),
    is_nullish x = false ->
    regular_field fm = true ->
    conformant_field classes (conformant_fuel classes n) x fm = true ->
    exists out,
      transformField host classes (transform_fuel host classes n) x fm q
      = Ok out /\
      deep_equal out x = true.
Proof.
  intros IH x fm q Hnn Hreg H.
  destruct (is_nullish_false x Hnn) as [Hu Hn].
  unfold transformField. rewrite Hu, Hn. cbn [andb].
  unfold conformant_field in H.
  destruct (isNestedObject fm) eqn:Hnested.
  - apply andb_prop in H. destruct H as [Htc Hrec].
    destruct (conformant_fuel_record _ _ _ _ Hrec)
      as [n' [fields [Hn' [Hx [Hshadow [Hdist [Hlen Hall]]]]]]].
    subst x.
    change (typeof (VObj None fields) =? "object") with true.
    cbn [negb orb is_null].
    destruct (IH true (VObj None fields) (nestedFields fm) q Hrec
                (regular_nested fm Hreg)) as [out [Hout Heq]].
    rewrite Hout. cbn [bind].
    assert (Hsecond : validateNestedFields (VObj None fields) fm q
                        (nestedFields fm) = Ok tt).
    { apply validateNestedFields_Ok. split.
      - intros _. unfold hasOwnProperty_callable. cbn [own_prop].
        rewrite Hshadow. reflexivity.
      - intros nk nfm Hin. destruct (Hall nk nfm Hin) as [z [Hz [Hzu Hzc]]].
        unfold hasOwnProperty, get_prop. cbn [own_prop]. rewrite Hz.
        destruct (is_null z) eqn:Hzn.
        + apply andb_prop in Hzc. destruct Hzc as [_ Hnc].
          cbn [negb orb] in Hnc.
          unfold validateFieldType. rewrite Hnc. reflexivity.
        + exact (conformant_field_valid n' z nfm _ Hzc). }
    rewrite Hsecond. cbn [bind]. exists out. split; [reflexivity|exact Heq].
  - unfold transformField_switch. rewrite Hnested.
    destruct (typeCheck fm =? 1)%Z eqn:Htc1.
    { exists x. split; [|exact (deep_equal_valid _ _ H)].
      unfold transformPrimitive. destruct (noCheck fm); [reflexivity|].
      rewrite H. reflexivity. }
    destruct (typeCheck fm =? 2)%Z eqn:Htc2.
    { cbn [orb].
      destruct (transformDtoFilter classes (type fm)) as [f|] eqn:Hf;
        [|discriminate H].
      destruct (conformant_fuel_record _ _ _ _ H)
        as [n' [fields [_ [Hx _]]]].
      subst x.
      change (typeof (VObj None fields) =? "object") with true.
      cbn [negb orb is_null bind].
      exact (IH false (VObj None fields) f q H
               (transformDtoFilter_regular classes Hclasses _ _ Hf)). }
    cbn [orb].
    destruct (typeCheck fm =? 32)%Z eqn:Htc32.
    { apply Z.eqb_eq in Htc32. rewrite Htc32 in H. discriminate H. }
    destruct (typeCheck fm =? 4)%Z eqn:Htc4.
    { cbn [orb].
      destruct x as [| | | | | | | |items|]; try discriminate H.
      destruct (transformDtoFilter classes (elem0 (type fm))) as [f|] eqn:Hf;
        [|discriminate H].
      rewrite forallb_forall in H. unfold map_indexed.
      match goal with
      | |- context [map_from ?g 0 items] =>
          destruct (map_from_Forall2 g
                      (fun o item => deep_equal o item = true) items 0)
            as [outs [Houts Hall]]
      end.
      { intros item i Hin. specialize (H item Hin). cbv beta.
        destruct (is_null item) eqn:Hnull.
        - apply is_null_true in Hnull. subst item. cbn [is_undefined is_null].
          rewrite H. exists VNull. split; reflexivity.
        - destruct (conformant_fuel_record _ _ _ _ H)
            as [n' [fields [_ [Hitem _]]]].
          subst item. cbn [is_undefined is_null andb bind].
          exact (IH false (VObj None fields) f _ H
                   (transformDtoFilter_regular classes Hclasses _ _ Hf)). }
      rewrite Houts. cbn [bind]. exists (VArr outs).
      split; [reflexivity|exact (deep_equal_array _ _ Hall)]. }
    destruct (typeCheck fm =? 16)%Z eqn:Htc16.
    { cbn [orb].
      destruct x as [| | | | | | | |items|]; try discriminate H.
      rewrite forallb_forall in H. unfold map_indexed.
      match goal with
      | |- context [map_from ?g 0 items] =>
          destruct (map_from_Forall2 g
                      (fun o item => deep_equal o item = true) items 0)
            as [outs [Houts Hall]]
      end.
      { intros item i Hin. specialize (H item Hin). cbv beta.
        destruct (is_null item) eqn:Hnull.
        - apply is_null_true in Hnull. subst item. cbn [is_undefined is_null].
          rewrite H. exists VNull. split; reflexivity.
        - destruct (is_nullish_false item
                      (validatePrimitiveType_defined _ _ H)) as [Hiu _].
          rewrite Hiu. cbn [andb]. exists item.
          split; [|exact (deep_equal_valid _ _ H)].
          unfold transformPrimitive. destruct (noCheck fm); [reflexivity|].
          rewrite H. reflexivity. }
      rewrite Houts. cbn [bind]. exists (VArr outs).
      split; [reflexivity|exact (deep_equal_array _ _ Hall)]. }
    cbn [orb].
    destruct (typeCheck fm =? 8)%Z eqn:Htc8; [|discriminate H].
    destruct (enum fm) as [allowed|]; [|discriminate H].
    rewrite H. cbn [negb]. exists x.
    split; [reflexivity|exact (deep_equal_member allowed x H)].
Qed.

(** [transform] on a conformant input. *)
Lemma transform_conformant_at_every_bound :
  forall (n : nat) (inline : bool) (v : jsval) (filter : dtoFilter) (d : string),
    conformant_fuel classes n inline v filter = true ->
    regular_filter filter = true ->
    exists out,
      transform_fuel host classes n v filter d = Ok out /\
      deep_equal out v = true.
Proof.
  induction n as [|n IH]; intros inline v filter d H Hreg; [discriminate H|].
  destruct (conformant_fuel_record _ _ _ _ H)
    as [n' [fields [Hn' [Hv [Hshadow [Hdist [Hlen Hall]]]]]]].
  inversion Hn'. subst n' v. clear Hn'.
  cbn [transform_fuel].
  rewrite (transform_body_fields host classes _ (VObj None fields) filter d
             eq_refl eq_refl eq_refl).
  assert (Hnd : NoDup (keys filter)).
  { apply distinct_NoDup. unfold regular_filter in Hreg.
    apply andb_prop in Hreg. apply Hreg. }
  assert (Hcall : hasOwnProperty_callable (VObj None fields) = true).
  { unfold hasOwnProperty_callable. cbn [own_prop]. rewrite Hshadow.
    reflexivity. }
  assert (Hfield : forall key fm,
             In (key, fm) filter ->
             exists x,
               lookup key fields = Some x /\ is_undefined x = false /\
               if is_null x then nullable fm = true
               else exists o,
                   transformField host classes (transform_fuel host classes n)
                     x fm (d ++ "." ++ key) = Ok o /\
                   deep_equal o x = true).
  { intros key fm Hin. destruct (Hall key fm Hin) as [x [Hx [Hxu Hxc]]].
    exists x. split; [exact Hx|]. split; [exact Hxu|].
    destruct (is_null x) eqn:Hxn.
    - apply andb_prop in Hxc. apply Hxc.
    - assert (Hxnn : is_nullish x = false)
        by (destruct x; first [reflexivity|discriminate]).
      exact (transformField_conformant n IH x fm (d ++ "." ++ key) Hxnn
               (regular_filter_field filter key fm Hreg Hin) Hxc). }
  destruct (transform_fields_accepts (transform_fuel host classes n)
              (VObj None fields) filter d eq_refl Hcall filter []) as [r Hr].
  { intros key fm Hin. destruct (Hfield key fm Hin) as [x [Hx [Hxu Hxc]]].
    unfold hasOwnProperty, get_prop. cbn [own_prop]. rewrite Hx.
    split; [reflexivity|]. split; [exact Hxu|].
    destruct (is_null x).
    - rewrite Hxc. apply orb_true_r.
    - destruct Hxc as [o [Ho _]]. exists o. exact Ho. }
  rewrite Hr. cbn [bind]. exists (record r). split; [reflexivity|].
  pose proof (transform_fields_keys host classes _ _ _ _ _ [] r Hnd Hr)
    as Hkeys.
  cbn [keys map app] in Hkeys. fold (keys r) in Hkeys. fold (keys filter) in Hkeys.
  rewrite filter_all in Hkeys.
  2:{ intros key Hkey. destruct (In_keys_entry _ _ Hkey) as [fm Hin].
      destruct (Hfield key fm Hin) as [x [Hx [Hxu _]]].
      unfold present, hasOwnProperty, get_prop. cbn [own_prop].
      rewrite Hx, Hxu. reflexivity. }
  assert (Hndr : NoDup (keys r)) by (rewrite Hkeys; exact Hnd).
  apply deep_equal_record.
  - rewrite <- (length_map fst r). fold (keys r). rewrite Hkeys.
    unfold keys. rewrite length_map. symmetry. exact Hlen.
  - rewrite Hkeys. unfold regular_filter in Hreg.
    apply andb_prop in Hreg. apply Hreg.
  - intros k x' Hin.
    pose proof (In_lookup r k x' Hndr Hin) as Hlookup.
    assert (Hk : In k (keys filter)).
    { rewrite <- Hkeys. change k with (fst (k, x')). apply in_map. exact Hin. }
    destruct (In_keys_entry _ _ Hk) as [fm Hfm].
    destruct (Hfield k fm Hfm) as [x [Hx [Hxu Hxc]]].
    exists x. split; [exact Hx|].
    pose proof (transform_fields_lookup host classes _ _ _ _ _ _ _ k fm Hr Hnd
                  (fun k0 _ Hk0 => Hk0) Hfm) as Htrace.
    unfold hasOwnProperty, get_prop in Htrace. cbn [own_prop] in Htrace.
    rewrite Hx, Hxu in Htrace.
    destruct (is_null x) eqn:Hxn.
    + destruct Htrace as [Hnull _]. rewrite Hnull in Hlookup.
      inversion Hlookup. apply is_null_true in Hxn. subst. reflexivity.
    + destruct Htrace as [x0 [Hl0 Hx0]]. destruct Hxc as [o [Ho Heq]].
      rewrite Hx0 in Ho. inversion Ho. subst o.
      rewrite Hl0 in Hlookup. inversion Hlookup. subst. exact Heq.
Qed.

End Conformance.


(** Idempotence over regular schemas. *)
Lemma transform_twice_regular :
  forall (host : JSHost) (classes : string -> option dtoClass)
         (obj : jsval) (filter : dtoFilter) (dtoName : string) (out : jsval),
    regular_classes classes ->
    regular_filter filter = true ->
    plain_defined obj = true ->
    transform host classes obj filter dtoName = Ok out ->
    transform host classes out filter dtoName = Ok out.
Proof.
  intros host classes obj filter dtoName out Hclasses Hreg HP Hout.
  unfold transform in *.
  apply (transform_idempotent_at_every_bound host classes Hclasses
           (S (depth obj)) obj filter dtoName out HP Hreg Hout).
  apply Nat.lt_succ_diag_r.
Qed.

(* ================================================================== *)
(** ** Resolved schemas are regular *)
(* ================================================================== *)

Lemma rawField_inline_ind (P : rawField -> Prop) :
  (forall ty e rq nl,
      (forall fields, ty = TyInline fields ->
                      Forall (fun kv => P (snd kv)) fields) ->
      P (RawField ty e rq nl)) ->
  forall r, P r.
Proof.
  intros H. fix IH 1. intros [ty e rq nl]. apply H.
  destruct ty as [| | | | | | | | |fields0|];
    intros fields Heq; try discriminate Heq.
  assert (Hall : Forall (fun kv : string * rawField => P (snd kv)) fields0).
  { clear Heq. revert fields0. fix IHl 1. intros [|[k v] rest].
    - constructor.
    - constructor; [exact (IH v)|exact (IHl rest)]. }
  inversion Heq. subst fields. exact Hall.
Qed.

Lemma NoDup_keys_set_prop {A : Type} (l : list (string * A)) (k : string) (x : A) :
  NoDup (keys l) -> NoDup (keys (set_prop k x l)).
Proof.
  induction l as [|[k0 y] l IH]; simpl; intros Hnd.
  - constructor; [intros []|constructor].
  - inversion Hnd as [|? ? Hfresh Hrest]. subst.
    destruct (String.eqb_spec k0 k) as [->|Hne]; simpl.
    + constructor; assumption.
    + constructor; [|exact (IH Hrest)].
      intros Hin. apply keys_set_prop_In in Hin. destruct Hin as [Heq|Hin].
      * exact (Hne Heq).
      * exact (Hfresh Hin).
Qed.

Lemma NoDup_distinct (l : list string) : NoDup l -> distinct l = true.
Proof.
  induction 1 as [|k rest Hfresh _ IH]; simpl; [reflexivity|].
  rewrite IH, andb_true_r. apply negb_true_iff.
  destruct (existsb (String.eqb k) rest) eqn:Hex; [|reflexivity].
  apply existsb_exists in Hex. destruct Hex as [k' [Hin Heq]].
  apply String.eqb_eq in Heq. subst k'. contradiction.
Qed.

Lemma forallb_set_prop {A : Type} (f : string * A -> bool)
    (l : list (string * A)) (k : string) (x : A) :
  forallb f l = true -> f (k, x) = true -> forallb f (set_prop k x l) = true.
Proof.
  induction l as [|[k0 y] l IH]; simpl; intros Hl Hx.
  - rewrite Hx. reflexivity.
  - apply andb_prop in Hl. destruct Hl as [Hy Hl].
    destruct (String.eqb_spec k0 k) as [->|Hne]; simpl.
    + rewrite Hx, Hl. reflexivity.
    + rewrite Hy. exact (IH Hl Hx).
Qed.

Lemma regular_prepareField :
  forall (r : rawField) (noCheck0 noCheckPrimitives : bool),
    ordinary_raw r = true ->
    regular_field (prepareField r noCheck0 noCheckPrimitives) = true.
Proof.
  intros r. induction r as [ty e rq nl IH] using rawField_inline_ind.
  intros nc ncp Hord.
  destruct ty as [| | | | | | | | |fields|];
    try (destruct e; reflexivity);
    try (simpl; destruct (isClassFn (elem0 (TyArray elems))), e; reflexivity).
  specialize (IH fields eq_refl).
  simpl in Hord. rewrite regular_field_unfold.
  cbn [prepareField rtype_of isInlineTy isNestedObject typeCheck nestedFields
       renum_of bit].
  assert (Hfold : forall acc,
             NoDup (keys acc) ->
             forallb (fun kf => negb (array_key (fst kf)) && regular_field (snd kf))
               acc = true ->
             let nested :=
               (fix prepareInline (l : list (string * rawField)) (acc : dtoFilter)
                  : dtoFilter :=
                  match l with
                  | [] => acc
                  | (key, v) :: rest =>
                      prepareInline rest (set_prop key (prepareField v nc ncp) acc)
                  end) fields acc in
             NoDup (keys nested) /\
             forallb (fun kf => negb (array_key (fst kf)) && regular_field (snd kf))
               nested = true).
  { induction fields as [|[key v] rest IHrest]; intros acc Hnd Hacc; simpl.
    - split; assumption.
    - simpl in Hord. apply andb_prop in Hord. destruct Hord as [Hhead Hord].
      apply andb_prop in Hhead. destruct Hhead as [Hkey Hv].
      inversion IH as [|? ? IHv IHtail]. subst.
      apply (IHrest IHtail Hord).
      + apply NoDup_keys_set_prop. exact Hnd.
      + apply forallb_set_prop; [exact Hacc|].
        simpl. rewrite Hkey. simpl. apply IHv. exact Hv. }
  destruct (Hfold [] (NoDup_nil _) eq_refl) as [Hnd Hall].
  rewrite Hall, (NoDup_distinct _ Hnd).
  destruct e; reflexivity.
Qed.

Lemma regular_prepareMetadata_from :
  forall (metadata : list (string * rawField)) (acc : dtoFilter)
         (propertyNoCheck propertyNoOut : string -> bool)
         (classNoCheck classNoCheckPrimitives : bool),
    forallb (fun kv => ordinary_raw (snd kv)) metadata = true ->
    NoDup (keys acc) ->
    forallb (fun kf => regular_field (snd kf)) acc = true ->
    let filter :=
      prepareMetadata_from acc metadata propertyNoCheck propertyNoOut
        classNoCheck classNoCheckPrimitives in
    NoDup (keys filter) /\
    forallb (fun kf => regular_field (snd kf)) filter = true.
Proof.
  induction metadata as [|[key value] rest IH];
    intros acc pNoCheck pNoOut cNoCheck cPrim Hord Hnd Hacc; simpl.
  - split; assumption.
  - simpl in Hord. apply andb_prop in Hord. destruct Hord as [Hvalue Hord].
    destruct (pNoOut key).
    + apply IH; assumption.
    + apply IH; [exact Hord| |].
      * apply NoDup_keys_set_prop. exact Hnd.
      * apply forallb_set_prop; [exact Hacc|].
        simpl. apply regular_prepareField. exact Hvalue.
Qed.

(** The resolved schema of a class with ordinary inline field names is
    regular. *)
Lemma regular_filter_of_class (c : dtoClass) :
  ordinary_class c = true -> regular_filter (filter_of_class c) = true.
Proof.
  intros Hord. unfold regular_filter, filter_of_class, prepareMetadata.
  destruct (regular_prepareMetadata_from (openapi_metadata c) []
              (propertyNoCheck c) (propertyNoOut c) (classNoCheck c)
              (classNoCheckPrimitives c) Hord (NoDup_nil _) eq_refl)
    as [Hnd Hall].
  rewrite Hall, (NoDup_distinct _ Hnd). reflexivity.
Qed.

(* ================================================================== *)
(** ** Idempotence *)
(* ================================================================== *)

(** Plain data in which no property holds [undefined] is settled, whatever
    the schema. *)
Lemma plain_defined_settled (classes : string -> option dtoClass) :
  forall (n : nat) (v : jsval) (filter : dtoFilter),
    plain_defined v = true -> settled_fuel classes n v filter = true.
Proof.
  induction n as [|n IH]; intros v filter HP; [reflexivity|].
  cbn [settled_fuel]. destruct (is_nullish v) eqn:Hv; [reflexivity|].
  rewrite (plain_defined_no_get v HP).
  destruct (isArray v) eqn:Harr.
  - destruct v as [| | | | | | | |items|]; try discriminate Harr.
    apply forallb_forall. intros item Hin.
    exact (IH item filter (plain_defined_item items item HP Hin)).
  - assert (Hfields :
              forallb
                (fun kf =>
                   match own_prop v (fst kf) with
                   | Some x =>
                       settled_field classes (settled_fuel classes n) x (snd kf)
                   | None => true
                   end) filter = true).
    { apply forallb_forall. intros [key fm] _. cbn [fst snd].
      destruct (own_prop v key) as [x|] eqn:Hown; [|reflexivity].
      destruct (plain_defined_own v key x HP Harr Hown) as [Hu Hplain].
      unfold settled_field. rewrite Hu.
      destruct (is_null x); [reflexivity|].
      destruct (isNestedObject fm); [exact Hplain|].
      destruct (typeCheck fm =? 1)%Z; [reflexivity|].
      destruct ((typeCheck fm =? 2)%Z || (typeCheck fm =? 32)%Z).
      { destruct (transformDtoFilter classes (type fm)); [|reflexivity].
        exact (IH x _ Hplain). }
      destruct (typeCheck fm =? 4)%Z; [|reflexivity].
      destruct x as [| | | | | | | |items|]; try reflexivity.
      destruct (transformDtoFilter classes (elem0 (type fm))); [|reflexivity].
      apply forallb_forall. intros item Hin.
      exact (IH item _ (plain_defined_item items item Hplain Hin)). }
    destruct v; first [discriminate Harr|exact Hfields].
Qed.

(** Every input is settled when no schema in reach has an inline nested
    object. *)
Lemma inline_free_settled (classes : string -> option dtoClass) :
  inline_free_classes classes ->
  forall (n : nat) (v : jsval) (filter : dtoFilter),
    inline_free_filter filter = true -> settled_fuel classes n v filter = true.
Proof.
  intros Hclasses.
  induction n as [|n IH]; intros v filter Hfree; [reflexivity|].
  cbn [settled_fuel]. destruct (is_nullish v); [reflexivity|].
  cbv zeta.
  remember (if has_get_function v then call_get v else v) as v' eqn:Hv'.
  clear Hv'.
  assert (Hfields :
            forallb
              (fun kf =>
                 match own_prop v' (fst kf) with
                 | Some x =>
                     settled_field classes (settled_fuel classes n) x (snd kf)
                 | None => true
                 end) filter = true).
  { apply forallb_forall. intros [key fm] Hin. cbn [fst snd].
    destruct (own_prop v' key) as [x|]; [|reflexivity].
    unfold inline_free_filter in Hfree. rewrite forallb_forall in Hfree.
    specialize (Hfree (key, fm) Hin). cbn [snd] in Hfree.
    apply negb_true_iff in Hfree.
    unfold settled_field. rewrite Hfree, andb_false_r. cbn [negb].
    destruct (is_undefined x); [reflexivity|].
    destruct (is_null x); [reflexivity|].
    destruct (typeCheck fm =? 1)%Z; [reflexivity|].
    assert (Hclass : forall t f,
               transformDtoFilter classes t = Ok f ->
               inline_free_filter f = true).
    { intros t f Hf. unfold transformDtoFilter in Hf.
      destruct t; try discriminate Hf.
      destruct (classes name) as [c|] eqn:Hc; [|discriminate Hf].
      inversion Hf. exact (Hclasses name c Hc). }
    destruct ((typeCheck fm =? 2)%Z || (typeCheck fm =? 32)%Z).
    { destruct (transformDtoFilter classes (type fm)) as [f|] eqn:Hf;
        [|reflexivity].
      exact (IH x f (Hclass _ _ Hf)). }
    destruct (typeCheck fm =? 4)%Z; [|reflexivity].
    destruct x as [| | | | | | | |items|]; try reflexivity.
    destruct (transformDtoFilter classes (elem0 (type fm))) as [f|] eqn:Hf;
      [|reflexivity].
    apply forallb_forall. intros item _.
    exact (IH item f (Hclass _ _ Hf)). }
  destruct v' as [| | | | | | | |items|]; try exact Hfields.
  apply forallb_forall. intros item _. exact (IH item filter Hfree).
Qed.

(** C8, as the code has it.  For the resolved schema of a class, in an
    application whose classes give no inline nested field the name of an
    array index or [length].  When [transform] accepts an input, [transform]
    of the result accepts too and returns the result unchanged, provided
    every inline nested object field met on the way through the input
    receives plain data in which no property holds [undefined], and is not
    itself held as [undefined] unless it is unchecked ([settled]).  That
    holds of every input when no schema in reach has an inline nested
    object, and of all plain data in which no property holds [undefined].
    And an already conformant input (a plain record with exactly the
    schema's fields, each of the declared type; [null] in a nullable field,
    though directly inside an inline nested object only in an unchecked one)
    is accepted, with a result deep-equal to it. *)
Theorem transform_idempotent_where_settled :
  forall (host : JSHost) (classes : string -> option dtoClass) (c : dtoClass)
         (obj : jsval) (dtoName : string),
    (forall name c', classes name = Some c' -> ordinary_class c' = true) ->
    ordinary_class c = true ->
    (forall out,
        settled classes obj (filter_of_class c) = true ->
        transform host classes obj (filter_of_class c) dtoName = Ok out ->
        transform host classes out (filter_of_class c) dtoName = Ok out) /\
    (inline_free_classes classes ->
     inline_free_filter (filter_of_class c) = true ->
     settled classes obj (filter_of_class c) = true) /\
    (plain_defined obj = true ->
     settled classes obj (filter_of_class c) = true) /\
    (conformant classes obj (filter_of_class c) = true ->
     exists out,
       transform host classes obj (filter_of_class c) dtoName = Ok out /\
       deep_equal out obj = true).
Proof.
  intros host classes c obj dtoName Hclasses Hc.
  assert (Hregular : regular_classes classes).
  { intros name c' Hname. apply regular_filter_of_class.
    exact (Hclasses name c' Hname). }
  pose proof (regular_filter_of_class c Hc) as Hreg.
  split; [|split; [|split]].
  - intros out Hsettled Hout. unfold transform in *.
    apply (transform_idempotent_settled_at_every_bound host classes Hregular
             (S (depth obj)) obj (filter_of_class c) dtoName out Hsettled Hreg
             Hout).
    apply Nat.lt_succ_diag_r.
  - intros Hfree Hfilter. apply inline_free_settled; assumption.
  - intros HP. apply plain_defined_settled. exact HP.
  - intros Hconformant.
    exact (transform_conformant_at_every_bound host classes Hregular
             (S (depth obj)) false obj (filter_of_class c) dtoName Hconformant
             Hreg).
Qed.

Lemma ordinary_order_classes :
  forall name c', order_classes name = Some c' -> ordinary_class c' = true.
Proof.
  intros name c' H. unfold order_classes in H.
  destruct (name =? "ItemDto"); [inversion H; reflexivity|].
  destruct (name =? "OrderDto"); [inversion H; reflexivity|discriminate H].
Qed.

Lemma transform_idempotent_where_settled_witness :
  let order :=
    VObj
      (Some
         (record
            [("items", VArr [record [("id", VStr "7"); ("extra", VUndefined)]]);
             ("quantities", VArr [VStr "3"]); ("note", VUndefined)]))
      [] in
  let out :=
    record [("items", VArr [record [("id", VNum (Fin 7))]]);
            ("quantities", VArr [VNum (Fin 3)])] in
  let reordered :=
    record [("quantities", VArr [VNum (Fin 3)]);
            ("items", VArr [record [("id", VNum (Fin 7))]])] in
  transform sample_host order_classes order (filter_of_class OrderDto) "OrderDto"
  = Ok out /\
  transform sample_host order_classes out (filter_of_class OrderDto) "OrderDto"
  = Ok out /\
  exists out',
    transform sample_host order_classes reordered (filter_of_class OrderDto)
      "OrderDto" = Ok out' /\
    deep_equal out' reordered = true.
Proof.
  intros order out reordered. split; [reflexivity|]. split.
  - destruct (transform_idempotent_where_settled sample_host order_classes
                OrderDto order "OrderDto" ordinary_order_classes eq_refl)
      as [Hagain _].
    exact (Hagain out eq_refl eq_refl).
  - destruct (transform_idempotent_where_settled sample_host order_classes
                OrderDto reordered "OrderDto" ordinary_order_classes eq_refl)
      as [_ [_ [_ Hconformant]]].
    exact (Hconformant eq_refl).
Defined.

(** The second half of C8 fails as well: a nullable text field directly
    inside an inline nested object holds [null], every field is present and
    there are no extras, and [transform] raises. *)
Lemma transform_of_conformant_input_raises :
  exists fm nick e,
    lookup "profile" profile_schema = Some fm /\
    lookup "nick" (nestedFields fm) = Some nick /\
    nullable nick = true /\
    transform sample_host no_classes
      (record [("profile", record [("nick", VNull)])]) profile_schema "UserDto"
    = Throw (TransformErr e) /\
    err_message e = "Invalid type for nested field 'nick'".
Proof. do 3 eexists. repeat split; reflexivity. Qed.

(** Outside plain data idempotence fails too.  The second pass reads the
    ORM instance's own properties, the first its snapshot: the [null] that
    the snapshot holds is first seen by the second pass when [transform]
    runs on the result. *)
Lemma transform_twice_raises_after_snapshot :
  exists e,
    transform sample_host no_classes
      (record [("profile", VObj (Some (record [("nick", VNull)])) [])])
      profile_schema "UserDto"
    = Ok (record [("profile", record [("nick", VNull)])]) /\
    transform sample_host no_classes
      (record [("profile", record [("nick", VNull)])]) profile_schema "UserDto"
    = Throw (TransformErr e) /\
    err_message e = "Invalid type for nested field 'nick'".
Proof. eexists. repeat split; reflexivity. Qed.

(** And with such a field name: an array received for the inline object is
    mapped element by element, and the second pass then reads the mapped
    element under the name ['0']. *)
Lemma transform_twice_raises_on_array_key :
  exists e,
    transform sample_host no_classes (record [("pair", VArr [VStr "a"])])
      pair_schema "UserDto"
    = Ok (record [("pair", VArr [record [("0", VStr "a")]])]) /\
    transform sample_host no_classes
      (record [("pair", VArr [record [("0", VStr "a")]])]) pair_schema "UserDto"
    = Throw (TransformErr e) /\
    err_message e = "Invalid type for nested field '0'".
Proof. eexists. repeat split; reflexivity. Qed.

(* ================================================================== *)
(** ** The recursion bound is never hit *)
(* ================================================================== *)

Section Adequacy.

Context (host : JSHost) (classes : string -> option dtoClass).

Lemma map_from_not_exhausted {A B : Type} (f : A -> nat -> outcome B) :
  forall (l : list A) (index : nat),
    (forall x i, In x l -> f x i <> Throw FuelExhausted) ->
    map_from f index l <> Throw FuelExhausted.
Proof.
  induction l as [|x rest IH]; intros index Hf; simpl; [discriminate|].
  destruct (f x index) as [y|e] eqn:Hy; cbn [bind].
  - destruct (map_from f (S index) rest) as [ys|e] eqn:Hys; cbn [bind];
      [discriminate|].
    rewrite <- Hys. apply IH. intros x' i Hin. apply Hf. right. exact Hin.
  - intros Heq. inversion Heq. subst e. revert Hy. apply Hf. left. reflexivity.
Qed.

Lemma transformPrimitive_not_exhausted (v : jsval) (fm : fieldMeta) (p : string) :
  transformPrimitive host v fm p <> Throw FuelExhausted.
Proof.
  unfold transformPrimitive, wrong_scalar_type.
  repeat case_if; try discriminate.
  destruct (coerceToPrimitiveType host v (expectedType fm)); [|discriminate].
  case_if; discriminate.
Qed.

Lemma validateNestedFields_not_exhausted (v : jsval) (fm : fieldMeta)
    (p : string) (entries : dtoFilter) :
  validateNestedFields v fm p entries <> Throw FuelExhausted.
Proof.
  induction entries as [|[nk nfm] rest IH]; cbn [validateNestedFields];
    [discriminate|].
  unfold err. repeat case_if; try discriminate; exact IH.
Qed.

Lemma transformDtoFilter_not_exhausted (t : tyRef) :
  transformDtoFilter classes t <> Throw FuelExhausted.
Proof.
  unfold transformDtoFilter. destruct t; try discriminate.
  destruct (classes name); discriminate.
Qed.

Variable rec : jsval -> dtoFilter -> string -> outcome jsval.

(** [transformField] calls [transform] on the value itself when it is an
    object, and on the items of an array. *)
Lemma transformField_not_exhausted (v : jsval) (fm : fieldMeta) (p : string) :
  (forall y filter d,
      y = v \/ (exists items, v = VArr items /\ In y items) ->
      (typeof v =? "object") = true ->
      rec y filter d <> Throw FuelExhausted) ->
  transformField host classes rec v fm p <> Throw FuelExhausted.
Proof.
  intros Hrec. unfold transformField, transformField_switch, err.
  destruct (is_undefined v); [destruct (required fm); discriminate|].
  destruct (is_null v && nullable fm); [discriminate|].
  assert (Hself : negb (typeof v =? "object") || is_null v = false ->
                  forall f d, rec v f d <> Throw FuelExhausted).
  { intros Hc f d. apply orb_false_elim in Hc. destruct Hc as [Hc _].
    apply negb_false_iff in Hc. apply Hrec; [left; reflexivity|exact Hc]. }
  destruct (isNestedObject fm).
  - destruct (negb (typeof v =? "object") || is_null v) eqn:Hc; [discriminate|].
    destruct (rec v (nestedFields fm) p) as [t|e] eqn:Ht; cbn [bind].
    + destruct (validateNestedFields v fm p (nestedFields fm)) as [u|e] eqn:Hu;
        cbn [bind]; [discriminate|].
      intros Heq. inversion Heq. subst e. revert Hu.
      apply validateNestedFields_not_exhausted.
    + intros Heq. inversion Heq. subst e. exact (Hself eq_refl _ _ Ht).
  - destruct (typeCheck fm =? 1)%Z; [apply transformPrimitive_not_exhausted|].
    destruct ((typeCheck fm =? 2)%Z || (typeCheck fm =? 32)%Z).
    + destruct (negb (typeof v =? "object") || is_null v) eqn:Hc; [discriminate|].
      destruct (transformDtoFilter classes (type fm)) as [f|e] eqn:Hf; cbn [bind].
      * apply Hself. reflexivity.
      * intros Heq. inversion Heq. subst e. revert Hf.
        apply transformDtoFilter_not_exhausted.
    + destruct ((typeCheck fm =? 4)%Z || (typeCheck fm =? 16)%Z).
      * destruct v as [| | | | | | | | items |]; try discriminate.
        match goal with
        | |- context [map_indexed ?f ?l] =>
            destruct (map_indexed f l) as [ys|e] eqn:Hmap; cbn [bind];
            [discriminate|]; intros Heq; inversion Heq; subst e; revert Hmap
        end.
        apply map_from_not_exhausted. intros x i Hin.
        destruct (is_undefined x); [discriminate|].
        destruct (is_null x && nullable fm); [discriminate|].
        destruct (typeCheck fm =? 4)%Z; [|apply transformPrimitive_not_exhausted].
        destruct (transformDtoFilter classes (elem0 (type fm))) as [f|e] eqn:Hf;
          cbn [bind].
        -- apply Hrec; [right; exists items; split; [reflexivity|exact Hin]|].
           reflexivity.
        -- intros Hthrow. inversion Hthrow. subst e. revert Hf.
           apply transformDtoFilter_not_exhausted.
      * destruct (typeCheck fm =? 8)%Z; [|discriminate].
        destruct (enum fm); [|discriminate].
        destruct (negb (includes l v)); discriminate.
Qed.

Lemma transform_fields_not_exhausted :
  forall (obj : jsval) (filter : dtoFilter) (d : string) (entries : dtoFilter)
         (acc : props),
    (forall key fm p, hasOwnProperty obj key = true ->
        transformField host classes rec (get_prop obj key) fm p
        <> Throw FuelExhausted) ->
    transform_fields host classes rec obj filter d entries acc
    <> Throw FuelExhausted.
Proof.
  intros obj filter d entries. induction entries as [|[key fm] rest IH];
    intros acc Hfield; cbn [transform_fields]; [discriminate|].
  unfold err.
  destruct (is_nullish obj); [discriminate|].
  destruct (hasOwnProperty_callable obj); cbn [negb]; [|discriminate].
  destruct (hasOwnProperty obj key) eqn:Hown; cbn [negb].
  - repeat case_if; try discriminate; try (apply IH; exact Hfield).
    destruct (transformField host classes rec (get_prop obj key) fm
                (d ++ "." ++ key)) as [x|e] eqn:Hx; cbn [bind].
    + apply IH. exact Hfield.
    + intros Heq. inversion Heq. subst e. revert Hx. apply Hfield. exact Hown.
  - case_if; [discriminate|]. apply IH. exact Hfield.
Qed.

End Adequacy.

Lemma depth_own_object (v : jsval) (k : string) (x : jsval) :
  own_prop v k = Some x -> (typeof x =? "object") = true -> depth x < depth v.
Proof.
  destruct v as [| | | | s | | | | items |snapshot fields]; simpl;
    try discriminate.
  - unfold indexed_prop. destruct (k =? "length").
    + intros H. inversion H. subst x. discriminate.
    + destruct (index_of_key k) as [i|]; [|discriminate].
      intros H. apply nth_error_In in H. apply in_map_iff in H.
      destruct H as [c [<- _]]. discriminate.
  - unfold indexed_prop. destruct (k =? "length").
    + intros H. inversion H. subst x. discriminate.
    + destruct (index_of_key k) as [i|]; [|discriminate].
      intros H _. apply nth_error_In in H. exact (depth_item items x H).
  - intros H _. exact (depth_field snapshot fields k x H).
Qed.

Lemma depth_snapshot (plain : jsval) (fields : props) :
  depth plain < depth (VObj (Some plain) fields).
Proof. cbn [depth]. lia. Qed.

(** With more fuel than the value is deep, [transform_fuel] does not run out:
    [transform] returns a value or throws an error of the source. *)
Lemma transform_fuel_enough :
  forall (host : JSHost) (classes : string -> option dtoClass)
         (n : nat) (v : jsval) (filter : dtoFilter) (d : string),
    depth v < n ->
    transform_fuel host classes n v filter d <> Throw FuelExhausted.
Proof.
  intros host classes. induction n as [|n IH]; intros v filter d Hdepth;
    [inversion Hdepth|].
  cbn [transform_fuel]. unfold transform_body.
  destruct (is_nullish v); [discriminate|].
  set (obj := if has_get_function v then call_get v else v).
  assert (Hobj : depth obj <= depth v).
  { unfold obj. destruct (has_get_function v) eqn:Hget; [|apply Nat.le_refl].
    destruct v as [| | | | | | | | |[plain|] fields]; try discriminate Hget.
    cbn [call_get]. pose proof (depth_snapshot plain fields). lia. }
  assert (Hfields :
            transform_fields host classes (transform_fuel host classes n) obj
              filter d filter [] <> Throw FuelExhausted).
  { apply transform_fields_not_exhausted. intros key fm p Hown.
    apply transformField_not_exhausted. intros y f d' Hy Hty.
    unfold hasOwnProperty in Hown. unfold get_prop in *.
    destruct (own_prop obj key) as [x|] eqn:Hx; [|discriminate Hown].
    pose proof (depth_own_object obj key x Hx Hty) as Hlt.
    apply IH. destruct Hy as [->|[items [-> Hin]]].
    - lia.
    - pose proof (depth_item items y Hin). lia. }
  destruct obj as [| | | | | | | | items |] eqn:Hshape;
    try (match goal with
         | |- context [transform_fields ?h ?c ?r ?o ?f ?d0 ?es ?acc] =>
             destruct (transform_fields h c r o f d0 es acc) eqn:Hr; cbn [bind];
             [discriminate
             |intros Heq; inversion Heq; subst; exact (Hfields eq_refl)]
         end).
  destruct (map_indexed
              (fun item _ => transform_fuel host classes n item filter d) items)
    as [ys|e] eqn:Hmap; cbn [bind]; [discriminate|].
  intros Heq. inversion Heq. subst e. revert Hmap.
  apply map_from_not_exhausted. intros x i Hin.
  apply IH. pose proof (depth_item items x Hin). lia.
Qed.

(** [transform] never reports the recursion bound. *)
Lemma transform_total :
  forall (host : JSHost) (classes : string -> option dtoClass)
         (obj : jsval) (filter : dtoFilter) (dtoName : string),
    transform host classes obj filter dtoName <> Throw FuelExhausted.
Proof.
  intros host classes obj filter dtoName. unfold transform.
  apply transform_fuel_enough. apply Nat.lt_succ_diag_r.
Qed.

(* ================================================================== *)
(** ** What does hold for scalars, skip-validation and arrays *)
(* ================================================================== *)

Section FieldKinds.

Context (host : JSHost) (classes : string -> option dtoClass).
Context (rec : jsval -> dtoFilter -> string -> outcome jsval).

(** A scalar field holding a value other than [null] and [undefined] is
    handed to [transformPrimitive]. *)
Lemma transformField_scalar (v : jsval) (fm : fieldMeta) (p : string) :
  is_nullish v = false ->
  isNestedObject fm = false ->
  typeCheck fm = 1%Z ->
  transformField host classes rec v fm p = transformPrimitive host v fm p.
Proof.
  intros Hv Hnested Htc. destruct (is_nullish_false v Hv) as [Hu Hn].
  unfold transformField, transformField_switch.
  rewrite Hu, Hn, Hnested, Htc. reflexivity.
Qed.

(** A skip-validation scalar is returned as it is. *)
Lemma transformPrimitive_noCheck (v : jsval) (fm : fieldMeta) (p : string) :
  noCheck fm = true -> transformPrimitive host v fm p = Ok v.
Proof. intros H. unfold transformPrimitive. rewrite H. reflexivity. Qed.

Lemma map_from_length {A B : Type} (f : A -> nat -> outcome B) :
  forall (l : list A) (index : nat) (ys : list B),
    map_from f index l = Ok ys -> length ys = length l.
Proof.
  induction l as [|x rest IH]; intros index ys; simpl.
  - intros H. inversion H. reflexivity.
  - destruct (f x index); cbn [bind]; [|discriminate].
    destruct (map_from f (S index) rest) as [ys'|] eqn:Hrest; cbn [bind];
      [|discriminate].
    intros H. inversion H. simpl. f_equal. exact (IH _ _ Hrest).
Qed.

Lemma map_from_app {A B : Type} (f : A -> nat -> outcome B) :
  forall (l1 l2 : list A) (index : nat),
    map_from f index (l1 ++ l2)%list
    = (ys1 <- map_from f index l1 ;;
       ys2 <- map_from f (index + length l1) l2 ;;
       Ok (ys1 ++ ys2)%list).
Proof.
  induction l1 as [|x rest IH]; intros l2 index; simpl.
  - rewrite Nat.add_0_r. destruct (map_from f index l2); reflexivity.
  - destruct (f x index); cbn [bind]; [|reflexivity].
    rewrite IH. rewrite <- Nat.add_succ_comm.
    destruct (map_from f (S index) rest); cbn [bind]; [|reflexivity].
    destruct (map_from f (S index + length rest) l2); reflexivity.
Qed.

Lemma map_from_Ok_ext {A B : Type} (f g : A -> nat -> outcome B) :
  forall (l : list A) (index : nat) (ys : list B),
    (forall x i y, f x i = Ok y -> g x i = Ok y) ->
    map_from f index l = Ok ys -> map_from g index l = Ok ys.
Proof.
  induction l as [|x rest IH]; intros index ys Hfg; simpl; [intros H; exact H|].
  destruct (f x index) as [y|] eqn:Hy; cbn [bind]; [|discriminate].
  rewrite (Hfg x index y Hy). cbn [bind].
  destruct (map_from f (S index) rest) as [ys'|] eqn:Hrest; cbn [bind];
    [|discriminate].
  rewrite (IH (S index) ys' Hfg Hrest). intros H. exact H.
Qed.

Variables (fm : fieldMeta).
Hypothesis Hnested : isNestedObject fm = false.
Hypothesis Harray : typeCheck fm = 4%Z \/ typeCheck fm = 16%Z.

(** An accepted array comes back as an array of the same length. *)
Lemma transformField_array_length (items : list jsval) (p : string) (out : jsval) :
  transformField host classes rec (VArr items) fm p = Ok out ->
  exists outs, out = VArr outs /\ length outs = length items.
Proof.
  unfold transformField, transformField_switch. rewrite Hnested.
  cbn [is_undefined is_null andb].
  destruct Harray as [Htc|Htc]; rewrite Htc; cbn [Z.eqb Pos.eqb orb];
    intros H; case_bind_in H; try discriminate H; inversion H;
    eexists; (split; [reflexivity|]);
    match goal with
    | Hmap : map_indexed _ _ = Ok _ |- _ =>
        exact (map_from_length _ _ _ _ Hmap)
    end.
Qed.

(** An [undefined] element raises "Invalid value in array" at its index,
    nullable field or not, the elements before it being accepted. *)
Lemma transformField_array_undefined_element
    (before after : list jsval) (p : string) :
  (exists out, transformField host classes rec (VArr before) fm p = Ok out) ->
  transformField host classes rec (VArr (before ++ VUndefined :: after)%list) fm p
  = Throw
      (err "Invalid value in array"
         (p ++ "[" ++ string_of_nat (length before) ++ "]") "" VUndefined
         (Some "non-undefined") None (VArr (before ++ VUndefined :: after)%list)
         (OfField fm)).
Proof.
  intros [out Hbefore]. revert Hbefore.
  unfold transformField, transformField_switch. rewrite Hnested.
  cbn [is_undefined is_null andb].
  destruct Harray as [Htc|Htc]; rewrite Htc; cbn [Z.eqb Pos.eqb orb];
    unfold map_indexed; intros H; case_bind_in H; try discriminate H;
    rewrite map_from_app;
    match goal with
    | Hmap : map_from ?f 0 before = Ok ?ys |- context [map_from ?g 0 before] =>
        rewrite (map_from_Ok_ext f g before 0 ys); [|clear|exact Hmap]
    end;
    try (cbn [bind map_from is_undefined plus]; reflexivity);
    intros x i y; cbv beta; repeat case_if; try discriminate;
    intros Hx; exact Hx.
Qed.

End FieldKinds.

(* ================================================================== *)
(** ** [transform] satisfies the recursive equation of the source *)
(* ================================================================== *)

Lemma map_from_ext_in {A B : Type} (f g : A -> nat -> outcome B) :
  forall (l : list A) (index : nat),
    (forall x i, In x l -> f x i = g x i) ->
    map_from f index l = map_from g index l.
Proof.
  induction l as [|x rest IH]; intros index Hfg; simpl; [reflexivity|].
  rewrite (Hfg x index (or_introl eq_refl)).
  rewrite (IH (S index)); [reflexivity|].
  intros y i Hin. apply Hfg. right. exact Hin.
Qed.

Section Extensionality.

Context (host : JSHost) (classes : string -> option dtoClass).
Context (rec1 rec2 : jsval -> dtoFilter -> string -> outcome jsval).

(** [transformField] consults [this.transform] on the value itself and on
    the items of an array, and only when the value is an object. *)
Lemma transformField_ext (v : jsval) (fm : fieldMeta) (p : string) :
  ((typeof v =? "object") = true ->
   forall y filter d,
     y = v \/ (exists items, v = VArr items /\ In y items) ->
     rec1 y filter d = rec2 y filter d) ->
  transformField host classes rec1 v fm p
  = transformField host classes rec2 v fm p.
Proof.
  intros Hrec. unfold transformField, transformField_switch.
  destruct (is_undefined v); [reflexivity|].
  destruct (is_null v && nullable fm); [reflexivity|].
  destruct (typeof v =? "object") eqn:Hobj.
  - specialize (Hrec eq_refl).
    assert (Hself : forall filter d, rec1 v filter d = rec2 v filter d).
    { intros filter d. apply Hrec. left. reflexivity. }
    destruct (isNestedObject fm).
    + cbn [negb orb]. destruct (is_null v); [reflexivity|].
      rewrite Hself. reflexivity.
    + destruct (typeCheck fm =? 1)%Z; [reflexivity|].
      destruct ((typeCheck fm =? 2)%Z || (typeCheck fm =? 32)%Z).
      * cbn [negb orb]. destruct (is_null v); [reflexivity|].
        destruct (transformDtoFilter classes (type fm)); cbn [bind];
          [apply Hself|reflexivity].
      * destruct ((typeCheck fm =? 4)%Z || (typeCheck fm =? 16)%Z);
          [|reflexivity].
        destruct v as [| | | | | | | | items |]; try reflexivity.
        unfold map_indexed.
        match goal with
        | |- bind (map_from ?f 0 items) _ = bind (map_from ?g 0 items) _ =>
            rewrite (map_from_ext_in f g items 0); [reflexivity|]
        end.
        intros x i Hin. cbv beta.
        destruct (is_undefined x); [reflexivity|].
        destruct (is_null x && nullable fm); [reflexivity|].
        destruct (typeCheck fm =? 4)%Z; [|reflexivity].
        destruct (transformDtoFilter classes (elem0 (type fm))); cbn [bind];
          [|reflexivity].
        apply Hrec. right. exists items. split; [reflexivity|exact Hin].
  - cbn [negb orb].
    destruct (isNestedObject fm); [reflexivity|].
    destruct (typeCheck fm =? 1)%Z; [reflexivity|].
    destruct ((typeCheck fm =? 2)%Z || (typeCheck fm =? 32)%Z); [reflexivity|].
    destruct ((typeCheck fm =? 4)%Z || (typeCheck fm =? 16)%Z); [|reflexivity].
    destruct v; try reflexivity. discriminate Hobj.
Qed.

Lemma transform_fields_ext :
  forall (obj : jsval) (filter : dtoFilter) (d : string) (entries : dtoFilter)
         (acc : props),
    (forall key fm p, hasOwnProperty obj key = true ->
        transformField host classes rec1 (get_prop obj key) fm p
        = transformField host classes rec2 (get_prop obj key) fm p) ->
    transform_fields host classes rec1 obj filter d entries acc
    = transform_fields host classes rec2 obj filter d entries acc.
Proof.
  intros obj filter d entries. induction entries as [|[key fm] rest IH];
    intros acc Hfield; cbn [transform_fields]; [reflexivity|].
  destruct (is_nullish obj); [reflexivity|].
  destruct (hasOwnProperty_callable obj); cbn [negb]; [|reflexivity].
  destruct (hasOwnProperty obj key) eqn:Hown; cbn [negb].
  - destruct (is_undefined (get_prop obj key)).
    + destruct (negb (noCheck fm) && required fm); [reflexivity|].
      apply IH. exact Hfield.
    + destruct (is_null (get_prop obj key)).
      * destruct (noCheck fm || nullable fm); [|reflexivity].
        apply IH. exact Hfield.
      * rewrite (Hfield key fm _ Hown).
        destruct (transformField host classes rec2 (get_prop obj key) fm
                    (d ++ "." ++ key)); cbn [bind]; [|reflexivity].
        apply IH. exact Hfield.
  - destruct (negb (noCheck fm) && (required fm || isNestedObject fm));
      [reflexivity|].
    apply IH. exact Hfield.
Qed.

(** The body of [transform] consults [this.transform] on values strictly
    inside the one it is given. *)
Lemma transform_body_ext (v : jsval) (filter : dtoFilter) (d : string) :
  (forall y f d', depth y < depth v -> rec1 y f d' = rec2 y f d') ->
  transform_body host classes rec1 v filter d
  = transform_body host classes rec2 v filter d.
Proof.
  intros Hrec. unfold transform_body.
  destruct (is_nullish v); [reflexivity|].
  set (obj := if has_get_function v then call_get v else v).
  assert (Hobj : depth obj <= depth v).
  { unfold obj. destruct (has_get_function v) eqn:Hget; [|apply Nat.le_refl].
    destruct v as [| | | | | | | | |[plain|] fields]; try discriminate Hget.
    cbn [call_get]. pose proof (depth_snapshot plain fields). lia. }
  assert (Hfields :
            transform_fields host classes rec1 obj filter d filter []
            = transform_fields host classes rec2 obj filter d filter []).
  { apply transform_fields_ext. intros key fm p Hown.
    apply transformField_ext. intros Hty y f d' Hy.
    unfold hasOwnProperty in Hown. unfold get_prop in *.
    destruct (own_prop obj key) as [x|] eqn:Hx; [|discriminate Hown].
    pose proof (depth_own_object obj key x Hx Hty) as Hlt.
    apply Hrec. destruct Hy as [->|[items [-> Hin]]].
    - lia.
    - pose proof (depth_item items y Hin). lia. }
  destruct obj as [| | | | | | | | items |] eqn:Hshape;
    try (rewrite Hfields; reflexivity).
  unfold map_indexed.
  match goal with
  | |- bind (map_from ?f 0 items) _ = bind (map_from ?g 0 items) _ =>
      rewrite (map_from_ext_in f g items 0); [reflexivity|]
  end.
  intros x i Hin. cbv beta. apply Hrec.
  pose proof (depth_item items x Hin). lia.
Qed.

End Extensionality.

(** Any two bounds above the depth of the value give the same result. *)
Lemma transform_fuel_stable :
  forall (host : JSHost) (classes : string -> option dtoClass)
         (n m : nat) (v : jsval) (filter : dtoFilter) (d : string),
    depth v < n -> depth v < m ->
    transform_fuel host classes n v filter d
    = transform_fuel host classes m v filter d.
Proof.
  intros host classes. induction n as [|n IH]; intros m v filter d Hn Hm;
    [inversion Hn|].
  destruct m as [|m]; [inversion Hm|].
  cbn [transform_fuel]. apply transform_body_ext.
  intros y f d' Hy. apply IH; lia.
Qed.

Lemma transform_fuel_transform :
  forall (host : JSHost) (classes : string -> option dtoClass)
         (n : nat) (v : jsval) (filter : dtoFilter) (d : string),
    depth v < n ->
    transform_fuel host classes n v filter d = transform host classes v filter d.
Proof.
  intros host classes n v filter d Hn. unfold transform.
  apply transform_fuel_stable; [exact Hn|apply Nat.lt_succ_diag_r].
Qed.

(** [transform] is the function the source defines: its body, with
    [this.transform] being [transform] itself. *)
Lemma transform_unfold :
  forall (host : JSHost) (classes : string -> option dtoClass)
         (v : jsval) (filter : dtoFilter) (d : string),
    transform host classes v filter d
    = transform_body host classes (transform host classes) v filter d.
Proof.
  intros host classes v filter d. unfold transform at 1.
  cbn [transform_fuel]. apply transform_body_ext.
  intros y f d' Hy. apply transform_fuel_transform. exact Hy.
Qed.

(* ================================================================== *)
(** ** How [transform] composes over arrays, records and snapshots *)
(* ================================================================== *)

Lemma map_from_nth {A B : Type} (f : A -> nat -> outcome B) :
  forall (l : list A) (index : nat) (ys : list B),
    map_from f index l = Ok ys ->
    forall j x, nth_error l j = Some x ->
                exists y, nth_error ys j = Some y /\ f x (index + j) = Ok y.
Proof.
  induction l as [|x0 rest IH]; intros index ys Hmap j x Hj.
  - destruct j; discriminate Hj.
  - simpl in Hmap.
    destruct (f x0 index) as [y0|] eqn:Hy0; cbn [bind] in Hmap;
      [|discriminate Hmap].
    destruct (map_from f (S index) rest) as [ys'|] eqn:Hrest; cbn [bind] in Hmap;
      [|discriminate Hmap].
    inversion Hmap. subst ys. destruct j as [|j]; simpl in Hj |- *.
    + inversion Hj. subst x0. exists y0. rewrite Nat.add_0_r.
      split; [reflexivity|exact Hy0].
    + destruct (IH (S index) ys' Hrest j x Hj) as [y [Hy Hf]].
      exists y. split; [exact Hy|]. rewrite <- Nat.add_succ_comm. exact Hf.
Qed.

Section Composition.

Context (host : JSHost) (classes : string -> option dtoClass).

(** X1.  An array root is transformed element by element with the same
    schema and the same name: the outcome is that of mapping [transform] over
    the elements, so an accepted array comes back with the same length, its
    [i]-th element being the [transform] of the [i]-th element received. *)
Theorem transform_array_root :
  forall (items : list jsval) (filter : dtoFilter) (dtoName : string),
    transform host classes (VArr items) filter dtoName
    = (outs <- map_indexed
                 (fun item _ => transform host classes item filter dtoName)
                 items ;;
       Ok (VArr outs)) /\
    forall out,
      transform host classes (VArr items) filter dtoName = Ok out ->
      exists outs,
        out = VArr outs /\ length outs = length items /\
        forall i item,
          nth_error items i = Some item ->
          exists o, nth_error outs i = Some o /\
                    transform host classes item filter dtoName = Ok o.
Proof.
  intros items filter dtoName.
  assert (Heq : transform host classes (VArr items) filter dtoName
                = (outs <- map_indexed
                             (fun item _ =>
                                transform host classes item filter dtoName)
                             items ;;
                   Ok (VArr outs))).
  { rewrite transform_unfold. reflexivity. }
  split; [exact Heq|]. intros out Hout. rewrite Heq in Hout.
  destruct (map_indexed
              (fun item _ => transform host classes item filter dtoName) items)
    as [outs|] eqn:Hmap; cbn [bind] in Hout; [|discriminate Hout].
  inversion Hout. subst out. exists outs. split; [reflexivity|]. split.
  - exact (map_from_length _ _ _ _ Hmap).
  - intros i item Hi.
    destruct (map_from_nth _ _ _ _ Hmap i item Hi) as [o [Ho Hf]].
    exists o. split; [exact Ho|exact Hf].
Qed.

(** [transform] on a plain record, with [this.transform] being [transform]. *)
Lemma transform_record_unfold :
  forall (fields : props) (filter : dtoFilter) (dtoName : string),
    transform host classes (record fields) filter dtoName
    = (result <- transform_fields host classes (transform host classes)
                   (record fields) filter dtoName filter [] ;;
       Ok (record result)).
Proof.
  intros fields filter dtoName. rewrite transform_unfold. reflexivity.
Qed.

Lemma transform_record_fields :
  forall (fields : props) (filter : dtoFilter) (dtoName : string) (r : props),
    transform host classes (record fields) filter dtoName = Ok (record r) ->
    transform_fields host classes (transform host classes) (record fields)
      filter dtoName filter [] = Ok r.
Proof.
  intros fields filter dtoName r H. rewrite transform_record_unfold in H.
  case_bind_in H; [|discriminate H]. inversion H. reflexivity.
Qed.

(** What an accepted record holds under the key of a field whose value was
    neither [null] nor [undefined]. *)
Lemma transform_record_lookup :
  forall (fields : props) (filter : dtoFilter) (dtoName : string) (r : props)
         (key : string) (fm : fieldMeta) (v : jsval),
    transform host classes (record fields) filter dtoName = Ok (record r) ->
    NoDup (keys filter) ->
    In (key, fm) filter ->
    lookup key fields = Some v ->
    is_nullish v = false ->
    exists out,
      lookup key r = Some out /\
      transformField host classes (transform host classes) v fm
        (dtoName ++ "." ++ key) = Ok out.
Proof.
  intros fields filter dtoName r key fm v Hout Hnd Hin Hv Hnn.
  apply transform_record_fields in Hout.
  pose proof (transform_fields_lookup host classes _ _ _ _ _ _ _ key fm Hout Hnd
                (fun k _ Hk => Hk) Hin) as Htrace.
  rewrite hasOwnProperty_record, get_prop_record, Hv in Htrace.
  destruct (is_nullish_false v Hnn) as [Hu Hn]. rewrite Hu, Hn in Htrace.
  exact Htrace.
Qed.

(** X2.  Nested records are filtered by their own schema.  In an accepted
    record, the key of a field of class type holds the [transform] of the
    received value under that class's resolved schema, and the key of an
    inline nested object holds the [transform] of the received value under
    the field's own [nestedFields]; in both cases the name is extended by
    ['.' + key]. *)
Theorem transform_nested_record :
  forall (fields : props) (filter : dtoFilter) (dtoName : string) (r : props)
         (key : string) (fm : fieldMeta) (v : jsval),
    transform host classes (record fields) filter dtoName = Ok (record r) ->
    NoDup (keys filter) ->
    In (key, fm) filter ->
    lookup key fields = Some v ->
    is_nullish v = false ->
    (isNestedObject fm = true ->
     exists out,
       lookup key r = Some out /\
       transform host classes v (nestedFields fm) (dtoName ++ "." ++ key)
       = Ok out) /\
    (isNestedObject fm = false -> typeCheck fm = 2%Z ->
     exists name c out,
       type fm = TyClass name /\ classes name = Some c /\
       lookup key r = Some out /\
       transform host classes v (filter_of_class c) (dtoName ++ "." ++ key)
       = Ok out).
Proof.
  intros fields filter dtoName r key fm v Hout Hnd Hin Hv Hnn.
  destruct (transform_record_lookup fields filter dtoName r key fm v Hout Hnd
              Hin Hv Hnn) as [out [Hl Hf]].
  destruct (is_nullish_false v Hnn) as [Hu Hn].
  unfold transformField, transformField_switch in Hf.
  rewrite Hu, Hn in Hf. cbn [andb] in Hf.
  split.
  - intros Hnested. rewrite Hnested in Hf.
    case_if_in Hf; [discriminate Hf|].
    destruct (transform host classes v (nestedFields fm) (dtoName ++ "." ++ key))
      as [nested|] eqn:Hrec; cbn [bind] in Hf; [|discriminate Hf].
    destruct (validateNestedFields v fm (dtoName ++ "." ++ key) (nestedFields fm));
      cbn [bind] in Hf; [|discriminate Hf].
    inversion Hf. subst out. exists nested. split; [exact Hl|reflexivity].
  - intros Hnested Htc. rewrite Hnested, Htc in Hf.
    cbn [Z.eqb Pos.eqb orb] in Hf.
    case_if_in Hf; [discriminate Hf|].
    unfold transformDtoFilter in Hf.
    destruct (type fm) as [| | | | | | |name| | |]; try discriminate Hf.
    destruct (classes name) as [c|] eqn:Hc; [|discriminate Hf].
    cbn [bind] in Hf. exists name, c, out. repeat split; assumption.
Qed.

End Composition.

Section ArraysAndSnapshots.

Context (host : JSHost) (classes : string -> option dtoClass).

(** X3.  Array fields are mapped element by element, keeping length and
    order.  In an accepted plain record, under a schema with distinct keys,
    an array-of-class or array-of-scalar field ([typeCheck] 4 or 16, not an
    inline object) received as a value other than [null] and [undefined]
    was an array, and the output holds an array of the same length under
    its key: a [null] element of a nullable field
    stays [null], every other element of an array of class is its [transform]
    under the element class's schema, and every other element of an array of
    scalars is its [transformPrimitive], both named [path[i]]. *)
Theorem transform_array_field :
  forall (fields : props) (filter : dtoFilter) (dtoName : string) (r : props)
         (key : string) (fm : fieldMeta) (v : jsval),
    transform host classes (record fields) filter dtoName = Ok (record r) ->
    NoDup (keys filter) ->
    In (key, fm) filter ->
    isNestedObject fm = false ->
    typeCheck fm = 4%Z \/ typeCheck fm = 16%Z ->
    lookup key fields = Some v ->
    is_nullish v = false ->
    exists items outs,
      v = VArr items /\ lookup key r = Some (VArr outs) /\
      length outs = length items /\
      forall i item,
        nth_error items i = Some item ->
        let itemPath :=
          (dtoName ++ "." ++ key) ++ "[" ++ string_of_nat i ++ "]" in
        is_undefined item = false /\
        if is_null item && nullable fm then nth_error outs i = Some VNull
        else if (typeCheck fm =? 4)%Z then
          exists name c o,
            elem0 (type fm) = TyClass name /\ classes name = Some c /\
            nth_error outs i = Some o /\
            transform host classes item (filter_of_class c) itemPath = Ok o
        else
          exists o,
            nth_error outs i = Some o /\
            transformPrimitive host item fm itemPath = Ok o.
Proof.
  intros fields filter dtoName r key fm v Hout Hnd Hin Hnested Htc Hv Hnn.
  destruct (transform_record_lookup host classes fields filter dtoName r key fm
              v Hout Hnd Hin Hv Hnn) as [out [Hl Hf]].
  destruct (is_nullish_false v Hnn) as [Hu Hn].
  unfold transformField, transformField_switch in Hf.
  rewrite Hu, Hn, Hnested in Hf. cbn [andb] in Hf.
  assert (Hsel : ((typeCheck fm =? 1)%Z = false) /\
                 ((typeCheck fm =? 2)%Z || (typeCheck fm =? 32)%Z = false) /\
                 ((typeCheck fm =? 4)%Z || (typeCheck fm =? 16)%Z = true)).
  { destruct Htc as [Htc|Htc]; rewrite Htc; repeat split; reflexivity. }
  destruct Hsel as [H1 [H2 H4]]. rewrite H1, H2, H4 in Hf.
  destruct v as [| | | | | | | |items|]; try discriminate Hf.
  match type of Hf with
  | bind (map_indexed ?f items) _ = _ =>
      destruct (map_indexed f items) as [outs|] eqn:Hmap; cbn [bind] in Hf;
        [|discriminate Hf]
  end.
  inversion Hf. subst out. exists items, outs.
  split; [reflexivity|]. split; [exact Hl|]. split.
  - exact (map_from_length _ _ _ _ Hmap).
  - intros i item Hi itemPath.
    destruct (map_from_nth _ _ _ _ Hmap i item Hi) as [o [Ho Hitem]].
    cbn [Nat.add] in Hitem. fold itemPath in Hitem.
    destruct (is_undefined item); [discriminate Hitem|].
    split; [reflexivity|].
    destruct (is_null item && nullable fm).
    + inversion Hitem. subst o. exact Ho.
    + destruct (typeCheck fm =? 4)%Z.
      * unfold transformDtoFilter in Hitem.
        destruct (elem0 (type fm)) as [| | | | | | |name| | |];
          try discriminate Hitem.
        destruct (classes name) as [c|] eqn:Hc; [|discriminate Hitem].
        cbn [bind] in Hitem. exists name, c, o. repeat split; assumption.
      * exists o. split; assumption.
Qed.

(** The field loop reads its input only through its own properties: two
    inputs with the same own properties are accepted together, with the same
    result. *)
Lemma transform_fields_same_props :
  forall (rec : jsval -> dtoFilter -> string -> outcome jsval)
         (obj1 obj2 : jsval) (filter : dtoFilter) (dtoName : string),
    is_nullish obj1 = false -> is_nullish obj2 = false ->
    (forall k, own_prop obj1 k = own_prop obj2 k) ->
    forall entries acc r,
      transform_fields host classes rec obj1 filter dtoName entries acc = Ok r ->
      transform_fields host classes rec obj2 filter dtoName entries acc = Ok r.
Proof.
  intros rec obj1 obj2 filter dtoName Hn1 Hn2 Hsame.
  induction entries as [|[k fm] rest IH]; intros acc r H; [exact H|].
  cbn [transform_fields] in H |- *. rewrite Hn1 in H. rewrite Hn2.
  unfold hasOwnProperty_callable, hasOwnProperty, get_prop in H |- *.
  rewrite <- !Hsame.
  destruct (own_prop obj1 "hasOwnProperty"); cbn [negb] in H |- *;
    [discriminate H|].
  destruct (own_prop obj1 k) as [x|]; cbn [negb] in H |- *.
  - destruct (is_undefined x).
    + case_if_in H; [discriminate H|]. apply IH. exact H.
    + destruct (is_null x).
      * case_if_in H; [|discriminate H]. apply IH. exact H.
      * case_bind_in H; [|discriminate H]. apply IH. exact H.
  - case_if_in H; [discriminate H|]. apply IH. exact H.
Qed.

(** X4.  The materialization hook is transparent.  An object whose inherited
    [get] is callable is transformed exactly as the snapshot the hook
    returns, whatever its own properties are, when that snapshot is neither
    [null] nor [undefined] and has no callable [get] of its own.  An own
    property named [get] shadows the hook: the object is then accepted
    exactly when the plain record of its own properties is, with the same
    output. *)
Theorem transform_through_snapshot :
  forall (plain : jsval) (fields : props) (filter : dtoFilter)
         (dtoName : string),
    (lookup "get" fields = None ->
     is_nullish plain = false -> has_get_function plain = false ->
     transform host classes (VObj (Some plain) fields) filter dtoName
     = transform host classes plain filter dtoName) /\
    (lookup "get" fields <> None ->
     forall out,
       transform host classes (VObj (Some plain) fields) filter dtoName = Ok out
       <-> transform host classes (record fields) filter dtoName = Ok out).
Proof.
  intros plain fields filter dtoName. split.
  - intros Hget Hnn Hhook.
    rewrite (transform_unfold host classes (VObj (Some plain) fields)).
    rewrite (transform_unfold host classes plain).
    unfold transform_body. rewrite Hnn, Hhook.
    cbn [is_nullish has_get_function call_get]. rewrite Hget. reflexivity.
  - intros Hget out.
    rewrite (transform_unfold host classes (VObj (Some plain) fields)).
    rewrite (transform_unfold host classes (record fields)).
    unfold transform_body, record.
    cbn [is_nullish has_get_function call_get].
    destruct (lookup "get" fields) as [g|]; [|contradiction Hget; reflexivity].
    split; intros H; case_bind_in H; try discriminate H;
      match goal with
      | Hloop : transform_fields _ _ _ ?o1 _ _ _ _ = Ok _
        |- context [transform_fields _ _ _ ?o2 _ _ _ _] =>
          rewrite (transform_fields_same_props _ o1 o2 filter dtoName
                     eq_refl eq_refl (fun k => eq_refl) _ _ _ Hloop)
      end; exact H.
Qed.

(** X5.  A materialization hook that returns [null] is not caught by the
    guard at the head of [transform], which has already passed: the field
    loop then reads a property of [null] and a [TypeError] is raised, unless
    the schema is empty, in which case the result is the empty record. *)
Theorem transform_null_snapshot :
  forall (fields : props) (filter : dtoFilter) (dtoName : string),
    lookup "get" fields = None ->
    transform host classes (VObj (Some VNull) fields) filter dtoName
    = match filter with
      | [] => Ok (record [])
      | _ :: _ =>
          Throw (TypeError
                   "Cannot read properties of null (reading 'hasOwnProperty')")
      end.
Proof.
  intros fields filter dtoName Hget.
  rewrite transform_unfold. unfold transform_body.
  cbn [is_nullish has_get_function call_get]. rewrite Hget.
  destruct filter as [|[k fm] rest]; reflexivity.
Qed.

End ArraysAndSnapshots.

(* ================================================================== *)
(** ** What an accepted output holds *)
(* ================================================================== *)

Section AcceptedOutputs.

Context (host : JSHost) (classes : string -> option dtoClass).

Lemma transform_shape :
  forall (v : jsval) (filter : dtoFilter) (d : string) (out : jsval),
    transform host classes v filter d = Ok out ->
    if is_nullish v then out = VNull else object_like out = true.
Proof.
  intros v filter d out H.
  exact (transform_fuel_shape host classes _ v filter d out H).
Qed.

(** A checked scalar that [transformPrimitive] returns has the declared
    type. *)
Lemma transformPrimitive_output_valid (v out : jsval) (fm : fieldMeta)
    (p : string) :
  noCheck fm = false ->
  transformPrimitive host v fm p = Ok out ->
  validatePrimitiveType out (expectedType fm) = true.
Proof.
  intros Hnc H. unfold transformPrimitive in H. rewrite Hnc in H.
  destruct (validatePrimitiveType v (expectedType fm)) eqn:Hv; cbn [negb] in H.
  - inversion H. subst out. exact Hv.
  - destruct (coerceToPrimitiveType host v (expectedType fm)) as [c|];
      [|discriminate H].
    destruct (validatePrimitiveType c (expectedType fm)) eqn:Hc;
      cbn [negb] in H; [|discriminate H].
    inversion H. subst out. exact Hc.
Qed.

(** What [transformField] returns for a value that is neither [null] nor
    [undefined] passes the shallow check of its own field. *)
Lemma transformField_output_valid (v out : jsval) (fm : fieldMeta)
    (p q : string) :
  is_nullish v = false ->
  (isNestedObject fm = true -> typeCheck fm = 32%Z) ->
  transformField host classes (transform host classes) v fm q = Ok out ->
  fst (validateFieldType out fm p) = true /\ is_nullish out = false.
Proof.
  intros Hnn Hinline H.
  destruct (is_nullish_false v Hnn) as [Hu Hn].
  unfold transformField, transformField_switch in H.
  rewrite Hu, Hn in H. cbn [andb] in H.
  unfold validateFieldType.
  destruct (isNestedObject fm) eqn:Hnested.
  - rewrite (Hinline eq_refl). cbn [Z.eqb Pos.eqb orb].
    case_if_in H; [discriminate H|].
    destruct (transform host classes v (nestedFields fm) q) as [nested|] eqn:Hrec;
      cbn [bind] in H; [|discriminate H].
    destruct (validateNestedFields v fm q (nestedFields fm));
      cbn [bind] in H; [|discriminate H].
    inversion H. subst out.
    pose proof (transform_shape _ _ _ _ Hrec) as Hshape. rewrite Hnn in Hshape.
    destruct (object_like_facts _ Hshape) as [H1 [_ [H3 [H4 _]]]].
    rewrite H3, H4. destruct (noCheck fm); split; first [reflexivity|exact H1].
  - destruct (typeCheck fm =? 1)%Z eqn:Htc1.
    + pose proof (transformPrimitive_defined host v out fm q H) as [_ Hdef].
      split; [|exact (Hdef Hnn)].
      destruct (noCheck fm) eqn:Hnc; [reflexivity|]. cbn [fst].
      pose proof (transformPrimitive_output_valid v out fm q Hnc H) as Hvalid.
      destruct (expectedType fm) as [t|]; [|discriminate Hvalid].
      destruct (t =? "") eqn:Ht; [|exact Hvalid].
      apply String.eqb_eq in Ht. subst t. discriminate Hvalid.
    + destruct ((typeCheck fm =? 2)%Z || (typeCheck fm =? 32)%Z) eqn:Htc2.
      * case_if_in H; [discriminate H|].
        match type of H with
        | bind ?x _ = _ => destruct x as [f|]; cbn [bind] in H; [|discriminate H]
        end.
        pose proof (transform_shape _ _ _ _ H) as Hshape. rewrite Hnn in Hshape.
        destruct (object_like_facts _ Hshape) as [H1 [_ [H3 [H4 _]]]].
        rewrite H3, H4.
        destruct (noCheck fm); split; first [reflexivity|exact H1].
      * destruct ((typeCheck fm =? 4)%Z || (typeCheck fm =? 16)%Z) eqn:Htc4.
        -- destruct v as [| | | | | | | |items|]; try discriminate H.
           match type of H with
           | bind ?x _ = _ =>
               destruct x as [outs|]; cbn [bind] in H; [|discriminate H]
           end.
           inversion H. subst out.
           destruct (noCheck fm); split; reflexivity.
        -- destruct (typeCheck fm =? 8)%Z eqn:Htc8; [|discriminate H].
           destruct (enum fm) as [allowed|]; [|discriminate H].
           destruct (includes allowed v) eqn:Hinc; cbn [negb] in H;
             [|discriminate H].
           inversion H. subst out. rewrite Hinc.
           destruct (noCheck fm); split; first [reflexivity|exact Hnn].
Qed.

(** X6.  Every property of an accepted record conforms to its field.  Under
    a schema whose inline nested objects are classified as such (which
    [prepareField] ensures for fields without [enum]), the value the output
    holds under a key of the schema is either [null], in a field that is
    nullable or unchecked, or a value that is neither [null] nor [undefined]
    and passes [validateFieldType] for that field: a scalar of the declared
    type, an object, an array, or a member of the enum. *)
Theorem transform_output_conforms :
  forall (fields : props) (filter : dtoFilter) (dtoName : string) (r : props)
         (key : string) (fm : fieldMeta) (x : jsval) (p : string),
    transform host classes (record fields) filter dtoName = Ok (record r) ->
    NoDup (keys filter) ->
    In (key, fm) filter ->
    (isNestedObject fm = true -> typeCheck fm = 32%Z) ->
    lookup key r = Some x ->
    (x = VNull /\ noCheck fm || nullable fm = true) \/
    (is_nullish x = false /\ fst (validateFieldType x fm p) = true).
Proof.
  intros fields filter dtoName r key fm x p Hout Hnd Hin Hinline Hx.
  apply transform_record_fields in Hout.
  pose proof (transform_fields_lookup host classes _ _ _ _ _ _ _ key fm Hout Hnd
                (fun k _ Hk => Hk) Hin) as Htrace.
  destruct (hasOwnProperty (record fields) key).
  - destruct (is_undefined (get_prop (record fields) key)) eqn:Hu.
    + rewrite Htrace in Hx. discriminate Hx.
    + destruct (is_null (get_prop (record fields) key)) eqn:Hn.
      * destruct Htrace as [Hnull Hallowed]. rewrite Hnull in Hx.
        inversion Hx. left. split; [reflexivity|exact Hallowed].
      * destruct Htrace as [y [Hy Hfield]]. rewrite Hy in Hx.
        inversion Hx. subst y. right.
        assert (Hnn : is_nullish (get_prop (record fields) key) = false).
        { destruct (get_prop (record fields) key);
            first [reflexivity|discriminate Hu|discriminate Hn]. }
        destruct (transformField_output_valid _ _ _ p _ Hnn Hinline Hfield)
          as [Hvalid Hdef].
        split; [exact Hdef|exact Hvalid].
  - destruct Htrace as [Hnone _]. rewrite Hnone in Hx. discriminate Hx.
Qed.

End AcceptedOutputs.

(* ================================================================== *)
(** ** Null fields and inputs that own no field of the schema *)
(* ================================================================== *)

Section NullAndAbsent.

Context (host : JSHost) (classes : string -> option dtoClass).

(** X7.  On an input without an own property named [hasOwnProperty], a
    field the input holds as [null] never reaches [transformField]:
    once the fields before it are accepted, it raises
    "Field '<key>' cannot be null" unless the field is nullable or
    unchecked, and otherwise the output holds [null] under its key, whatever
    the kind of the field, required or not. *)
Theorem transform_null_field :
  forall (fields : props) (pre post : dtoFilter) (key : string) (fm : fieldMeta)
         (dtoName : string),
    lookup "hasOwnProperty" fields = None ->
    lookup key fields = Some VNull ->
    (exists out0, transform host classes (record fields) pre dtoName = Ok out0) ->
    let filter := (pre ++ (key, fm) :: post)%list in
    (noCheck fm || nullable fm = false ->
     transform host classes (record fields) filter dtoName
     = Throw
         (TransformErr
            (TransformError ("Field '" ++ key ++ "' cannot be null")
               dtoName key VNull None None (record fields)
               (OfFilter filter)))) /\
    (noCheck fm || nullable fm = true ->
     NoDup (keys filter) ->
     forall result,
       transform host classes (record fields) filter dtoName
       = Ok (record result) ->
       lookup key result = Some VNull).
Proof.
  intros fields pre post key fm dtoName Hshadow Hlookup Hpre filter. split.
  - intros Hstrict.
    assert (Hcall : hasOwnProperty_callable (record fields) = true)
      by (rewrite hasOwnProperty_callable_record, Hshadow; reflexivity).
    destruct (prefix_accepted host classes fields pre filter dtoName Hpre)
      as [acc Hacc].
    rewrite transform_record. unfold filter at 2.
    rewrite transform_fields_app, Hacc. cbn [bind transform_fields is_nullish record].
    fold (record fields).
    rewrite Hcall. cbn [negb].
    rewrite hasOwnProperty_record, get_prop_record, Hlookup.
    cbn [negb is_undefined is_null]. rewrite Hstrict. reflexivity.
  - intros _ Hnd result Hout.
    apply transform_record_fields in Hout.
    pose proof (transform_fields_lookup host classes _ _ _ _ _ _ _ key fm Hout
                  Hnd (fun k _ Hk => Hk)) as Htrace.
    rewrite hasOwnProperty_record, get_prop_record, Hlookup in Htrace.
    cbn [is_undefined is_null] in Htrace.
    apply Htrace. unfold filter. apply in_or_app. right. left. reflexivity.
Qed.

(** X8.  An input that has no own property named [hasOwnProperty] and owns
    none of the schema's keys (the empty record, a record of foreign keys, a
    number, a date) is accepted as the empty record
    exactly when no field of the schema is both checked and either required
    or an inline nested object; otherwise the first such field, in schema
    order, is reported missing. *)
Theorem transform_without_own_keys :
  forall (obj : jsval) (filter : dtoFilter) (dtoName : string),
    is_nullish obj = false ->
    has_get_function obj = false ->
    isArray obj = false ->
    hasOwnProperty_callable obj = true ->
    (forall key, In key (keys filter) -> hasOwnProperty obj key = false) ->
    transform host classes obj filter dtoName
    = match
        find (fun kf => negb (noCheck (snd kf)) &&
                        (required (snd kf) || isNestedObject (snd kf))) filter
      with
      | Some (key, _) =>
          Throw (err ("Required field '" ++ key ++ "' is missing") dtoName key
                   VUndefined None None obj (OfFilter filter))
      | None => Ok (record [])
      end.
Proof.
  intros obj filter dtoName Hnn Hhook Harr Hcall Hown.
  rewrite transform_unfold, (transform_body_fields host classes) by assumption.
  assert (Hloop : forall entries acc,
             (forall key, In key (keys entries) ->
                          hasOwnProperty obj key = false) ->
             transform_fields host classes (transform host classes) obj filter
               dtoName entries acc
             = match
                 find (fun kf => negb (noCheck (snd kf)) &&
                                 (required (snd kf) || isNestedObject (snd kf)))
                   entries
               with
               | Some (key, _) =>
                   Throw (err ("Required field '" ++ key ++ "' is missing")
                            dtoName key VUndefined None None obj
                            (OfFilter filter))
               | None => Ok acc
               end).
  { induction entries as [|[key fm] rest IH]; intros acc Hnone; [reflexivity|].
    rewrite (transform_fields_missing host classes _ obj _ _ _ _ _ _ Hnn Hcall
               (Hnone key (or_introl eq_refl))).
    cbn [find snd].
    destruct (negb (noCheck fm) && (required fm || isNestedObject fm));
      [reflexivity|].
    apply IH. intros k Hk. apply Hnone. right. exact Hk. }
  rewrite (Hloop filter [] Hown).
  destruct (find _ filter) as [[key fm]|]; reflexivity.
Qed.

End NullAndAbsent.

(* ================================================================== *)
(** ** What [prepareField] computes *)
(* ================================================================== *)

(** X9.  [prepareField] gives every field exactly one kind.  Without [enum],
    [typeCheck] is the single bit of the kind of the declared type: 32 for an
    inline object, 2 for a class, 4 for an array whose first element is a
    class, 16 for any other array, 1 for everything else; and exactly the
    flag of that kind is set.  With [enum], a scalar type gives 8, and any
    other type gives 8 plus the bit of its kind, with [isPrimitive] off. *)
Theorem prepareField_typeCheck :
  forall (value : rawField) (noCheck0 noCheckPrimitives : bool),
    let fm := prepareField value noCheck0 noCheckPrimitives in
    let k := kind_bit (rtype_of value) in
    typeCheck fm
    = match renum_of value with
      | None => k
      | Some _ => if (k =? 1)%Z then 8%Z else (8 + k)%Z
      end /\
    isPrimitive fm
    = (match renum_of value with None => true | Some _ => false end
       && (k =? 1)%Z) /\
    isClass fm = (k =? 2)%Z /\
    isArrayOfClass fm = (k =? 4)%Z /\
    isArrayOfPrimitive fm = (k =? 16)%Z /\
    isNestedObject fm = (k =? 32)%Z.
Proof.
  intros [ty e rq nl] nc ncp.
  destruct ty as [| | | | | | | |elems| |]; destruct e;
    try (cbv; repeat split; reflexivity);
    destruct elems as [|t0 rest]; try (cbv; repeat split; reflexivity);
    destruct t0; cbv; repeat split; reflexivity.
Qed.

(** X10.  Where [noCheck] ends up.  In a prepared field and in every field of
    its inline nested objects, at any depth, [noCheck] holds exactly when the
    property or class is marked [@NoCheck], or the class is marked
    [@NoCheckPrimitives] and the field is a scalar or an array of scalars:
    both decorators reach through inline nesting, and [@NoCheckPrimitives]
    never unchecks a class, array-of-class, enum or inline-object field. *)
Theorem prepareField_noCheck :
  forall (value : rawField) (noCheck0 noCheckPrimitives : bool),
    every_field
      (fun f =>
         Bool.eqb (noCheck f)
           (noCheck0 ||
            noCheckPrimitives && (isPrimitive f || isArrayOfPrimitive f)))
      (prepareField value noCheck0 noCheckPrimitives) = true.
Proof.
  intros value nc ncp.
  induction value as [ty e rq nl IH] using rawField_inline_ind.
  set (p := fun f : fieldMeta =>
              Bool.eqb (noCheck f)
                (nc || ncp && (isPrimitive f || isArrayOfPrimitive f))).
  assert (Hhead : p (prepareField (RawField ty e rq nl) nc ncp) = true).
  { unfold p.
    destruct ty as [| | | | | | | |elems| |]; destruct e, nc, ncp;
      try reflexivity;
      destruct elems as [|t0 rest]; try reflexivity; destruct t0; reflexivity. }
  assert (Hunfold : forall fm,
             every_field p fm
             = p fm && forallb (fun kf => every_field p (snd kf))
                         (nestedFields fm)).
  { intros fm. destruct fm. reflexivity. }
  rewrite Hunfold, Hhead. cbn [andb].
  destruct ty as [| | | | | | | | |fields|]; try reflexivity.
  specialize (IH fields eq_refl). clear Hhead.
  assert (Hfold : forall acc,
             forallb (fun kf => every_field p (snd kf)) acc = true ->
             forallb (fun kf => every_field p (snd kf))
               ((fix prepareInline (l : list (string * rawField))
                   (acc : dtoFilter) : dtoFilter :=
                   match l with
                   | [] => acc
                   | (key, v) :: rest =>
                       prepareInline rest
                         (set_prop key (prepareField v nc ncp) acc)
                   end) fields acc) = true).
  { induction fields as [|[key v] rest IHrest]; intros acc Hacc; [exact Hacc|].
    inversion IH as [|? ? IHv IHtail]. subst.
    apply (IHrest IHtail). apply forallb_set_prop; [exact Hacc|exact IHv]. }
  cbn [prepareField rtype_of nestedFields]. apply Hfold. reflexivity.
Qed.

Section UnhandledKinds.

Context (host : JSHost) (classes : string -> option dtoClass).
Context (rec : jsval -> dtoFilter -> string -> outcome jsval).

(** X11.  A checked scalar field whose declared type is not one of the six
    builtin constructors (for instance [Object], or no type at all) has the
    expected type "unknown", which no value satisfies and to which nothing
    is coerced: every value other than [null] and [undefined] is rejected
    with "Field should be a unknown". *)
Theorem unknown_scalar_type_rejects :
  forall (value : rawField) (v : jsval) (p : string),
    renum_of value = None ->
    kind_bit (rtype_of value) = 1%Z ->
    getExpectedTypeName (rtype_of value) = "unknown" ->
    is_nullish v = false ->
    let fm := prepareField value false false in
    transformField host classes rec v fm p
    = Throw
        (TransformErr
           (TransformError "Field should be a unknown" p "" v (Some "unknown")
              None v (OfField fm))).
Proof.
  intros [ty e rq nl] v p He Hk Hname Hnn fm. simpl in He. subst e.
  destruct (is_nullish_false v Hnn) as [Hu Hn].
  simpl in Hk, Hname.
  assert (Hty : (exists name, ty = TyFunction name) \/ ty = TyOther).
  { destruct ty as [| | | | | |name| |elems| |];
      try discriminate Hname; try discriminate Hk.
    - left. exists name. reflexivity.
    - destruct elems as [|[] ?]; discriminate Hk.
    - right. reflexivity. }
  assert (Hfm : expectedType fm = Some "unknown" /\ typeCheck fm = 1%Z /\
                isNestedObject fm = false /\ noCheck fm = false).
  { unfold fm. destruct Hty as [[name Hty]|Hty]; subst ty;
      repeat split; reflexivity. }
  destruct Hfm as [Hexp [Htc [Hnested Hnc]]].
  rewrite (transformField_scalar host classes rec v fm p Hnn Hnested Htc).
  unfold transformPrimitive, wrong_scalar_type. rewrite Hnc, Hexp. reflexivity.
Qed.

(** X12.  An [enum] on a field of class or array type leaves [typeCheck] at
    10, 12 or 24, for which the switch of [transformField] has no case:
    every value other than [null] and [undefined] is rejected with
    "Unexpected type for field", members of the enum included, and
    [@NoCheck] does not prevent it. *)
Theorem enum_on_class_or_array_rejects :
  forall (value : rawField) (noCheck0 noCheckPrimitives : bool) (v : jsval)
         (p : string),
    renum_of value <> None ->
    kind_bit (rtype_of value) = 2%Z \/ kind_bit (rtype_of value) = 4%Z \/
    kind_bit (rtype_of value) = 16%Z ->
    is_nullish v = false ->
    let fm := prepareField value noCheck0 noCheckPrimitives in
    transformField host classes rec v fm p
    = Throw (err "Unexpected type for field" p "" v None None v (OfField fm)).
Proof.
  intros value nc ncp v p He Hk Hnn fm.
  destruct (is_nullish_false v Hnn) as [Hu Hn].
  assert (Hfm : isNestedObject fm = false /\
                typeCheck fm = (8 + kind_bit (rtype_of value))%Z).
  { unfold fm. destruct value as [ty [allowed|] rq nl];
      [|contradiction He; reflexivity].
    cbn [rtype_of] in Hk |- *.
    destruct ty as [| | | | | | | |elems| |];
      try (destruct Hk as [Hk|[Hk|Hk]]; discriminate Hk);
      try (split; reflexivity).
    destruct elems as [|t0 others]; [split; reflexivity|].
    destruct t0; split; reflexivity. }
  destruct Hfm as [Hnested Htc].
  unfold transformField, transformField_switch.
  rewrite Hu, Hn, Hnested, Htc. cbn [andb].
  destruct Hk as [Hk|[Hk|Hk]]; rewrite Hk; reflexivity.
Qed.

End UnhandledKinds.

(* ================================================================== *)
(** ** Where an error says it happened *)
(* ================================================================== *)

Lemma prefix_refl (s : string) : String.prefix s s = true.
Proof.
  induction s as [|a s IH]; simpl; [reflexivity|].
  destruct (ascii_dec a a) as [_|Hne]; [exact IH|contradiction Hne; reflexivity].
Qed.

Lemma prefix_app_r (a b c : string) :
  String.prefix a b = true -> String.prefix a (b ++ c) = true.
Proof.
  revert b. induction a as [|x a IH]; intros b H;
    [destruct (b ++ c); reflexivity|].
  destruct b as [|y b]; [discriminate H|]. simpl in H |- *.
  destruct (ascii_dec x y); [apply IH; exact H|discriminate H].
Qed.

Lemma prefix_trans (a b c : string) :
  String.prefix a b = true -> String.prefix b c = true ->
  String.prefix a c = true.
Proof.
  revert b c. induction a as [|x a IH]; intros b c Hab Hbc;
    [destruct c; reflexivity|].
  destruct b as [|y b]; [discriminate Hab|].
  destruct c as [|z c]; [discriminate Hbc|]. simpl in Hab, Hbc |- *.
  destruct (ascii_dec x y) as [Hxy|]; [|discriminate Hab].
  destruct (ascii_dec y z) as [Hyz|]; [|discriminate Hbc].
  subst y z. destruct (ascii_dec x x) as [_|Hne];
    [exact (IH b c Hab Hbc)|contradiction Hne; reflexivity].
Qed.

Lemma map_from_Throw {A B : Type} (f : A -> nat -> outcome B) :
  forall (l : list A) (index : nat) (e : exn),
    map_from f index l = Throw e ->
    exists x j, In x l /\ f x j = Throw e.
Proof.
  induction l as [|x0 rest IH]; intros index e H; [discriminate H|].
  simpl in H.
  destruct (f x0 index) as [y0|e0] eqn:Hy0; cbn [bind] in H.
  - destruct (map_from f (S index) rest) as [ys|e1] eqn:Hrest; cbn [bind] in H;
      [discriminate H|].
    inversion H. subst e1.
    destruct (IH (S index) e Hrest) as [x [j [Hin Hf]]].
    exists x, j. split; [right; exact Hin|exact Hf].
  - inversion H. subst e0. exists x0, index. split; [left; reflexivity|exact Hy0].
Qed.

Section ErrorPaths.

Context (host : JSHost) (classes : string -> option dtoClass).

(** The errors of one [transformField] call are located at or below its
    path, when those of the recursive calls are. *)
Lemma transformField_error_path
    (rec : jsval -> dtoFilter -> string -> outcome jsval) :
  (forall y filter d e,
      rec y filter d = Throw (TransformErr e) ->
      String.prefix d (err_dtoName e) = true) ->
  forall (v : jsval) (fm : fieldMeta) (p : string) (e : transformError),
    transformField host classes rec v fm p = Throw (TransformErr e) ->
    String.prefix p (err_dtoName e) = true.
Proof.
  intros Hrec v fm p e H.
  assert (Hprim : forall x q e',
             transformPrimitive host x fm q = Throw (TransformErr e') ->
             err_dtoName e' = q).
  { intros x q e' Hx. unfold transformPrimitive, wrong_scalar_type in Hx.
    repeat (case_if_in Hx; try discriminate Hx);
      try (destruct (coerceToPrimitiveType host x (expectedType fm));
           repeat (case_if_in Hx; try discriminate Hx));
      inversion Hx; reflexivity. }
  assert (Hclass : forall t e0,
             transformDtoFilter classes t = Throw e0 ->
             e0 <> TransformErr e).
  { intros t e0 Hx. unfold transformDtoFilter in Hx.
    destruct t; try (inversion Hx; discriminate).
    destruct (classes name); [discriminate Hx|inversion Hx; discriminate]. }
  assert (Hsecond : forall entries,
             validateNestedFields v fm p entries = Throw (TransformErr e) ->
             String.prefix p (err_dtoName e) = true).
  { induction entries as [|[nk nfm] rest IH]; intros Hx; [discriminate Hx|].
    cbn [validateNestedFields] in Hx.
    repeat (case_if_in Hx); try (apply IH; exact Hx);
      inversion Hx; cbn [err_dtoName];
      first [apply prefix_refl|apply prefix_app_r; apply prefix_refl]. }
  unfold transformField, transformField_switch in H.
  destruct (is_undefined v).
  { destruct (required fm); [|discriminate H].
    inversion H. apply prefix_refl. }
  destruct (is_null v && nullable fm); [discriminate H|].
  destruct (isNestedObject fm).
  { case_if_in H; [inversion H; apply prefix_refl|].
    destruct (rec v (nestedFields fm) p) as [nested|e0] eqn:Hnested;
      cbn [bind] in H.
    - destruct (validateNestedFields v fm p (nestedFields fm)) as [u|e1] eqn:Hv;
        cbn [bind] in H; [discriminate H|].
      inversion H. subst e1. exact (Hsecond _ Hv).
    - inversion H. subst e0. exact (Hrec _ _ _ _ Hnested). }
  destruct (typeCheck fm =? 1)%Z.
  { rewrite (Hprim _ _ _ H). apply prefix_refl. }
  destruct ((typeCheck fm =? 2)%Z || (typeCheck fm =? 32)%Z).
  { case_if_in H; [inversion H; apply prefix_refl|].
    destruct (transformDtoFilter classes (type fm)) as [f|e0] eqn:Hf;
      cbn [bind] in H.
    - exact (Hrec _ _ _ _ H).
    - inversion H. subst e0. contradiction (Hclass _ _ Hf). reflexivity. }
  destruct ((typeCheck fm =? 4)%Z || (typeCheck fm =? 16)%Z).
  { destruct v as [| | | | | | | |items|];
      try (inversion H; apply prefix_refl).
    match type of H with
    | bind (map_indexed ?f items) _ = _ =>
        destruct (map_indexed f items) as [outs|e0] eqn:Hmap; cbn [bind] in H;
          [discriminate H|]
    end.
    inversion H. subst e0.
    destruct (map_from_Throw _ _ _ _ Hmap) as [item [j [_ Hitem]]].
    cbv beta zeta in Hitem.
    assert (Hpath : forall s, String.prefix p (p ++ s) = true)
      by (intros s; apply prefix_app_r; apply prefix_refl).
    destruct (is_undefined item); [inversion Hitem; apply Hpath|].
    destruct (is_null item && nullable fm); [discriminate Hitem|].
    destruct (typeCheck fm =? 4)%Z.
    - destruct (transformDtoFilter classes (elem0 (type fm))) as [f|e0] eqn:Hf;
        cbn [bind] in Hitem.
      + exact (prefix_trans _ _ _ (Hpath _) (Hrec _ _ _ _ Hitem)).
      + inversion Hitem. subst e0. contradiction (Hclass _ _ Hf). reflexivity.
    - rewrite (Hprim _ _ _ Hitem). apply Hpath. }
  destruct (typeCheck fm =? 8)%Z; [|inversion H; apply prefix_refl].
  destruct (enum fm) as [allowed|]; [|discriminate H].
  destruct (negb (includes allowed v)); [|discriminate H].
  inversion H. apply prefix_refl.
Qed.

(** X13.  Every [TransformError] is located at or below the root: its
    [dtoName], the path the error message reports, starts with the name the
    transformation was started with, extended by the keys and indices that
    lead to the offending value. *)
Theorem transform_error_path :
  forall (v : jsval) (filter : dtoFilter) (dtoName : string)
         (e : transformError),
    transform host classes v filter dtoName = Throw (TransformErr e) ->
    String.prefix dtoName (err_dtoName e) = true.
Proof.
  assert (Hfuel : forall n v filter d e,
             transform_fuel host classes n v filter d = Throw (TransformErr e) ->
             String.prefix d (err_dtoName e) = true).
  { induction n as [|n IH]; intros v filter d e H; [discriminate H|].
    cbn [transform_fuel] in H. unfold transform_body in H.
    destruct (is_nullish v); [discriminate H|].
    assert (Hloop : forall obj entries acc,
               transform_fields host classes (transform_fuel host classes n) obj
                 filter d entries acc = Throw (TransformErr e) ->
               String.prefix d (err_dtoName e) = true).
    { intros obj. induction entries as [|[key fm] rest IHl]; intros acc Hl;
        [discriminate Hl|].
      cbn [transform_fields] in Hl.
      destruct (is_nullish obj); [discriminate Hl|].
      destruct (negb (hasOwnProperty_callable obj)); [discriminate Hl|].
      destruct (negb (hasOwnProperty obj key)).
      { case_if_in Hl; [inversion Hl; apply prefix_refl|exact (IHl _ Hl)]. }
      destruct (is_undefined (get_prop obj key)).
      { case_if_in Hl; [inversion Hl; apply prefix_refl|exact (IHl _ Hl)]. }
      destruct (is_null (get_prop obj key)).
      { case_if_in Hl; [exact (IHl _ Hl)|inversion Hl; apply prefix_refl]. }
      destruct (transformField host classes (transform_fuel host classes n)
                  (get_prop obj key) fm (d ++ "." ++ key)) as [out|e0] eqn:Hf;
        cbn [bind] in Hl; [exact (IHl _ Hl)|].
      inversion Hl. subst e0.
      apply (prefix_trans _ (d ++ "." ++ key)).
      - apply prefix_app_r. apply prefix_refl.
      - exact (transformField_error_path _ IH _ _ _ _ Hf). }
    match type of H with
    | match ?o with _ => _ end = _ => destruct o as [| | | | | | | |items|]
    end; try (case_bind_in H; [discriminate H|];
              inversion H; subst; eapply Hloop; eassumption).
    match type of H with
    | bind (map_indexed ?f items) _ = _ =>
        destruct (map_indexed f items) as [outs|e0] eqn:Hmap; cbn [bind] in H;
          [discriminate H|]
    end.
    inversion H. subst e0.
    destruct (map_from_Throw _ _ _ _ Hmap) as [item [j [_ Hitem]]].
    exact (IH _ _ _ _ Hitem). }
  intros v filter dtoName e H. exact (Hfuel _ _ _ _ _ H).
Qed.

End ErrorPaths.

(* ================================================================== *)
(** ** Scalars: what is coerced, and where *)
(* ================================================================== *)

Section Scalars.

Context (host : JSHost) (classes : string -> option dtoClass).

(** X14.  A checked text field accepts everything that is neither an array
    nor an object with an own property named [toString]: [String(value)] is
    defined for every other value, the remaining objects included, so the
    field never raises for them and returns the string [String] gives (the
    value itself when it already is a string). *)
Theorem text_field_accepts_non_arrays :
  forall (v : jsval) (fm : fieldMeta) (p : string),
    noCheck fm = false ->
    expectedType fm = Some "string" ->
    isArray v = false ->
    own_prop v "toString" = None ->
    exists s,
      js_String host v = Some s /\
      transformPrimitive host v fm p = Ok (VStr s).
Proof.
  intros v fm p Hnc Hexp Harr Hshadow.
  assert (Hs : exists s, js_String host v = Some s).
  { destruct v as [| |[|]|n|s|z|d i|t|items|snap fields];
      try discriminate Harr; try (eexists; reflexivity).
    cbn [own_prop] in Hshadow. cbn [js_String to_string]. rewrite Hshadow.
    eexists; reflexivity. }
  destruct Hs as [s Hs]. exists s. split; [exact Hs|].
  unfold transformPrimitive. rewrite Hnc, Hexp.
  unfold validatePrimitiveType, coerceToPrimitiveType. cbn. rewrite Hs. cbn.
  destruct (typeof v =? "string") eqn:Hty; [|reflexivity].
  destruct v; try discriminate Hty. cbn in Hs. inversion Hs. reflexivity.
Qed.

(** X15.  Inside an inline nested object nothing is coerced.  When such a
    field is accepted for a value that has no materialization hook and is
    not an array, every scalar field ([typeCheck] 1, not inline) of the
    nested schema (its keys distinct) that the value owns as neither [null]
    nor [undefined] comes out identical to what was received: a value that
    would need coercion is rejected by the second pass over the raw value. *)
Theorem nested_scalars_unchanged :
  forall (v out : jsval) (fm : fieldMeta) (p : string)
         (nk : string) (nfm : fieldMeta),
    transformField host classes (transform host classes) v fm p = Ok out ->
    isNestedObject fm = true ->
    has_get_function v = false ->
    isArray v = false ->
    NoDup (keys (nestedFields fm)) ->
    In (nk, nfm) (nestedFields fm) ->
    isNestedObject nfm = false ->
    typeCheck nfm = 1%Z ->
    hasOwnProperty v nk = true ->
    is_nullish (get_prop v nk) = false ->
    exists r, out = record r /\ lookup nk r = Some (get_prop v nk).
Proof.
  intros v out fm p nk nfm H Hnested Hhook Harr Hnd Hin Hnn1 Htc Hown Hdef.
  assert (Hnn : is_nullish v = false).
  { destruct v; try reflexivity; discriminate Hown. }
  destruct (is_nullish_false v Hnn) as [Hu Hn].
  unfold transformField in H. rewrite Hu, Hn, Hnested in H. cbn [andb] in H.
  case_if_in H; [discriminate H|].
  destruct (transform host classes v (nestedFields fm) p) as [nested|] eqn:Hrec;
    cbn [bind] in H; [|discriminate H].
  destruct (validateNestedFields v fm p (nestedFields fm)) as [[]|] eqn:Hsecond;
    cbn [bind] in H; [|discriminate H].
  inversion H. subst out. clear H.
  rewrite transform_unfold, (transform_body_fields host classes) in Hrec
    by assumption.
  destruct (transform_fields host classes (transform host classes) v
              (nestedFields fm) p (nestedFields fm) []) as [r|] eqn:Hloop;
    cbn [bind] in Hrec; [|discriminate Hrec].
  inversion Hrec. subst nested. exists r. split; [reflexivity|].
  pose proof (transform_fields_lookup host classes _ _ _ _ _ _ _ nk nfm Hloop
                Hnd (fun k _ Hk => Hk) Hin) as Htrace.
  rewrite Hown in Htrace.
  destruct (is_nullish_false _ Hdef) as [Hu' Hn']. rewrite Hu', Hn' in Htrace.
  destruct Htrace as [x [Hx Hfield]]. rewrite Hx. f_equal.
  rewrite (transformField_scalar host classes _ _ nfm _ Hdef Hnn1 Htc) in Hfield.
  pose proof (proj2 (proj1 (validateNestedFields_Ok _ _ _ _) Hsecond)
                nk nfm Hin) as Hraw.
  rewrite Hown in Hraw.
  unfold transformPrimitive in Hfield. unfold validateFieldType in Hraw.
  destruct (noCheck nfm); [inversion Hfield; reflexivity|].
  rewrite Htc in Hraw. cbn [Z.eqb Pos.eqb fst] in Hraw.
  assert (Hvalid : validatePrimitiveType (get_prop v nk) (expectedType nfm)
                   = true).
  { destruct (expectedType nfm) as [t|]; [|discriminate Hraw].
    destruct (t =? "") eqn:Ht; [discriminate Hraw|exact Hraw]. }
  rewrite Hvalid in Hfield. cbn [negb] in Hfield.
  inversion Hfield. reflexivity.
Qed.

End Scalars.

(* ================================================================== *)
(** ** The results above on the example schemas *)
(* ================================================================== *)

Lemma transform_nested_record_witness :
  exists name c out,
    type (prepareField (raw (TyClass "ItemDto")) false false) = TyClass name /\
    order_classes name = Some c /\
    lookup "item" [("item", record [("id", VNum (Fin 5))])] = Some out /\
    transform sample_host order_classes
      (record [("id", VStr "5"); ("extra", VBool true)])
      (filter_of_class c) "LineDto.item" = Ok out.
Proof.
  destruct (transform_nested_record sample_host order_classes
              [("item", record [("id", VStr "5"); ("extra", VBool true)])]
              line_schema "LineDto"
              [("item", record [("id", VNum (Fin 5))])]
              "item" (prepareField (raw (TyClass "ItemDto")) false false)
              (record [("id", VStr "5"); ("extra", VBool true)])
              eq_refl (distinct_NoDup (keys line_schema) eq_refl)
              (or_introl eq_refl) eq_refl eq_refl) as [_ Hclass].
  exact (Hclass eq_refl eq_refl).
Defined.

Lemma transform_array_field_witness :
  exists items outs,
    VArr [VStr "3"; VNum (Fin 4)] = VArr items /\
    lookup "quantities"
      [("items", VArr []); ("quantities", VArr [VNum (Fin 3); VNum (Fin 4)])]
    = Some (VArr outs) /\
    length outs = length items.
Proof.
  destruct (transform_array_field sample_host order_classes
              [("items", VArr []); ("quantities", VArr [VStr "3"; VNum (Fin 4)])]
              (filter_of_class OrderDto) "OrderDto"
              [("items", VArr []); ("quantities", VArr [VNum (Fin 3); VNum (Fin 4)])]
              "quantities" (prepareField (raw (TyArray [TyNumber])) false false)
              (VArr [VStr "3"; VNum (Fin 4)])
              eq_refl (distinct_NoDup (keys (filter_of_class OrderDto)) eq_refl)
              (or_intror (or_introl eq_refl)) eq_refl (or_intror eq_refl)
              eq_refl eq_refl) as [items [outs [Hv [Hl [Hlen _]]]]].
  exists items, outs. repeat split; assumption.
Defined.

Lemma transform_through_snapshot_witness :
  transform sample_host no_classes
    (VObj (Some (record [("id", VStr "7")])) [("dataValues", VNull)])
    id_schema "UserDto"
  = transform sample_host no_classes (record [("id", VStr "7")]) id_schema
      "UserDto".
Proof.
  exact (proj1 (transform_through_snapshot sample_host no_classes
                  (record [("id", VStr "7")]) [("dataValues", VNull)]
                  id_schema "UserDto") eq_refl eq_refl eq_refl).
Defined.

Lemma transform_null_snapshot_witness :
  transform sample_host no_classes (VObj (Some VNull) []) id_schema "UserDto"
  = Throw (TypeError "Cannot read properties of null (reading 'hasOwnProperty')").
Proof.
  exact (transform_null_snapshot sample_host no_classes [] id_schema "UserDto"
           eq_refl).
Defined.

Lemma transform_output_conforms_witness :
  (VNum (Fin 7) = VNull /\
   noCheck number_field || nullable number_field = true) \/
  (is_nullish (VNum (Fin 7)) = false /\
   fst (validateFieldType (VNum (Fin 7)) number_field "UserDto.id") = true).
Proof.
  apply (transform_output_conforms sample_host no_classes
           [("id", VStr "7")] id_schema "UserDto" [("id", VNum (Fin 7))]
           "id" number_field
           (VNum (Fin 7)) "UserDto.id"
           eq_refl (distinct_NoDup (keys id_schema) eq_refl)
           (or_introl eq_refl)).
  - intros H. discriminate H.
  - reflexivity.
Defined.

Lemma transform_null_field_witness :
  transform sample_host no_classes
    (record [("id", VNum (Fin 1)); ("nick", VNull)]) member_schema "MemberDto"
  = Throw
      (TransformErr
         (TransformError "Field 'nick' cannot be null" "MemberDto" "nick" VNull
            None None (record [("id", VNum (Fin 1)); ("nick", VNull)])
            (OfFilter member_schema))) /\
  lookup "nick" [("id", VNum (Fin 1)); ("nick", VNull)] = Some VNull.
Proof.
  split.
  - destruct (transform_null_field sample_host no_classes
                [("id", VNum (Fin 1)); ("nick", VNull)] id_schema []
                "nick" optional_text_field "MemberDto" eq_refl eq_refl
                (ex_intro _ (record [("id", VNum (Fin 1))]) eq_refl))
      as [Hstrict _].
    exact (Hstrict eq_refl).
  - destruct (transform_null_field sample_host no_classes
                [("id", VNum (Fin 1)); ("nick", VNull)] id_schema []
                "nick" nullable_text_field "MemberDto" eq_refl eq_refl
                (ex_intro _ (record [("id", VNum (Fin 1))]) eq_refl))
      as [_ Hkept].
    exact (Hkept eq_refl
             (distinct_NoDup ["id"; "nick"] eq_refl)
             [("id", VNum (Fin 1)); ("nick", VNull)] eq_refl).
Defined.

Lemma transform_without_own_keys_witness :
  transform sample_host no_classes (VNum (Fin 42)) member_schema "MemberDto"
  = Throw (err "Required field 'id' is missing" "MemberDto" "id" VUndefined
             None None (VNum (Fin 42)) (OfFilter member_schema)) /\
  transform sample_host no_classes (record [("other", VNull)])
    [("nick", optional_text_field)] "MemberDto"
  = Ok (record []).
Proof.
  split.
  - exact (transform_without_own_keys sample_host no_classes (VNum (Fin 42))
             member_schema "MemberDto" eq_refl eq_refl eq_refl eq_refl
             (fun key _ => eq_refl)).
  - apply (transform_without_own_keys sample_host no_classes
             (record [("other", VNull)]) [("nick", optional_text_field)]
             "MemberDto" eq_refl eq_refl eq_refl eq_refl).
    intros key [Hkey|[]]. subst key. reflexivity.
Defined.

Lemma unknown_scalar_type_rejects_witness :
  transformField sample_host no_classes (transform sample_host no_classes)
    (record [("any", VNum (Fin 1))]) (prepareField object_typed false false)
    "EventDto.payload"
  = Throw
      (TransformErr
         (TransformError "Field should be a unknown" "EventDto.payload" ""
            (record [("any", VNum (Fin 1))]) (Some "unknown") None
            (record [("any", VNum (Fin 1))])
            (OfField (prepareField object_typed false false)))).
Proof.
  exact (unknown_scalar_type_rejects sample_host no_classes
           (transform sample_host no_classes) object_typed
           (record [("any", VNum (Fin 1))]) "EventDto.payload"
           eq_refl eq_refl eq_refl eq_refl).
Defined.

Lemma enum_on_class_or_array_rejects_witness :
  transformField sample_host no_classes (transform sample_host no_classes)
    (VArr [VStr "a"]) (prepareField enum_array true false) "PostDto.tags"
  = Throw (err "Unexpected type for field" "PostDto.tags" "" (VArr [VStr "a"])
             None None (VArr [VStr "a"])
             (OfField (prepareField enum_array true false))).
Proof.
  apply (enum_on_class_or_array_rejects sample_host no_classes
           (transform sample_host no_classes) enum_array true false
           (VArr [VStr "a"]) "PostDto.tags").
  - intros H. discriminate H.
  - right. right. reflexivity.
  - reflexivity.
Defined.

Lemma transform_error_path_witness :
  exists e,
    transform sample_host order_classes bad_order (filter_of_class OrderDto)
      "OrderDto" = Throw (TransformErr e) /\
    err_dtoName e = "OrderDto.items[0].id" /\
    String.prefix "OrderDto" (err_dtoName e) = true.
Proof.
  eexists. split; [reflexivity|]. split; [reflexivity|].
  apply (transform_error_path sample_host order_classes bad_order
           (filter_of_class OrderDto) "OrderDto").
  reflexivity.
Defined.

Lemma text_field_accepts_non_arrays_witness :
  exists s,
    js_String sample_host (record [("id", VNum (Fin 1))]) = Some s /\
    transformPrimitive sample_host (record [("id", VNum (Fin 1))]) text_field
      "UserDto.name" = Ok (VStr s).
Proof.
  exact (text_field_accepts_non_arrays sample_host
           (record [("id", VNum (Fin 1))]) text_field "UserDto.name"
           eq_refl eq_refl eq_refl eq_refl).
Defined.

Lemma nested_scalars_unchanged_witness :
  exists r,
    record [("city", VStr "Oslo"); ("zipCode", VNum (Fin 150))] = record r /\
    lookup "zipCode" r = Some (VNum (Fin 150)).
Proof.
  apply (nested_scalars_unchanged sample_host no_classes
           (record [("zipCode", VNum (Fin 150)); ("city", VStr "Oslo");
                    ("country", VStr "NO")])
           (record [("city", VStr "Oslo"); ("zipCode", VNum (Fin 150))])
           address_field "UserDto.address" "zipCode" number_optional);
    try reflexivity.
  - exact (distinct_NoDup ["city"; "zipCode"] eq_refl).
  - right. left. reflexivity.
Defined.

(* ================================================================== *)
(** ** The schema cache *)
(* ================================================================== *)

(** X16.  The cache is keyed by class name alone.  Once a constructor has
    been resolved, every constructor of the same name (another class, or a
    function without metadata factory) is given the schema prepared for the
    first one, and the cache is left as it is; only after [clearCache] is
    the second constructor resolved from its own declaration. *)
Theorem transformDtoFilter_cached_by_name :
  forall (dtoCache cache1 : dtoCacheMap) (A B : constructorRef)
         (prepared : dtoFilter),
    ctor_name A = ctor_name B ->
    transformDtoFilter_cached dtoCache A = Ok (prepared, cache1) ->
    transformDtoFilter_cached cache1 B = Ok (prepared, cache1) /\
    transformDtoFilter_cached (clearCache cache1) B
    = match ctor_dto B with
      | Some c =>
          Ok (filter_of_class c, [(ctor_name B, filter_of_class c)])
      | None => Throw (TypeError "DtoClass._OPENAPI_METADATA_FACTORY is not a function")
      end.
Proof.
  intros dtoCache cache1 A B prepared Hname HA. split.
  - unfold transformDtoFilter_cached in *. rewrite <- Hname.
    destruct (lookup (ctor_name A) dtoCache) as [cached|] eqn:Hhit.
    + inversion HA. subst cached cache1. rewrite Hhit. reflexivity.
    + destruct (ctor_dto A) as [c|]; [|discriminate HA].
      inversion HA. subst prepared cache1.
      rewrite lookup_set_prop_same. reflexivity.
  - unfold transformDtoFilter_cached, clearCache. cbn [lookup].
    destruct (ctor_dto B); reflexivity.
Qed.

(** X17.  When every class name denotes one class, the cache cannot be
    observed: on a cache whose entries are the prepared metadata of the
    classes of the table, resolving a constructor of the table gives what
    preparing its metadata afresh gives (or fails as that does), and the
    cache stays coherent. *)
Theorem transformDtoFilter_cached_coherent :
  forall (classes : string -> option dtoClass) (dtoCache : dtoCacheMap)
         (name : string),
    cache_coherent classes dtoCache ->
    match transformDtoFilter_cached dtoCache (constructor_of classes name) with
    | Ok (prepared, cache1) =>
        transformDtoFilter classes (TyClass name) = Ok prepared /\
        cache_coherent classes cache1
    | Throw e => transformDtoFilter classes (TyClass name) = Throw e
    end.
Proof.
  intros classes dtoCache name Hcoherent.
  unfold transformDtoFilter_cached, constructor_of, transformDtoFilter.
  cbn [ctor_name ctor_dto].
  destruct (lookup name dtoCache) as [cached|] eqn:Hhit.
  - destruct (Hcoherent name cached Hhit) as [c [Hc Hcached]].
    rewrite Hc, Hcached. split; [reflexivity|exact Hcoherent].
  - destruct (classes name) as [c|] eqn:Hc; [|reflexivity].
    split; [reflexivity|].
    intros name' cached' Hlookup.
    destruct (String.eqb name name') eqn:Hsame.
    + apply String.eqb_eq in Hsame. subst name'.
      rewrite lookup_set_prop_same in Hlookup. inversion Hlookup.
      exists c. split; [exact Hc|reflexivity].
    + apply String.eqb_neq in Hsame.
      rewrite lookup_set_prop_other in Hlookup by congruence.
      exact (Hcoherent name' cached' Hlookup).
Qed.

(* ================================================================== *)
(** ** The interceptor around the engine *)
(* ================================================================== *)

Lemma lookup_insert_index_same (index : nat) (key : string) (x : jsval) :
  forall l : props,
    lookup key l = None -> lookup key (insert_index index key x l) = Some x.
Proof.
  induction l as [|[k y] rest IH]; intros Hnone; cbn [insert_index].
  - cbn [lookup]. rewrite String.eqb_refl. reflexivity.
  - cbn [lookup] in Hnone.
    destruct (String.eqb k key) eqn:Hk; [discriminate Hnone|].
    destruct (index_of_key k) as [i|];
      [destruct (Nat.ltb index i)|]; cbn [lookup];
      rewrite ?String.eqb_refl, ?Hk; try reflexivity.
    exact (IH Hnone).
Qed.

Lemma lookup_insert_index_other (index : nat) (key k' : string) (x : jsval) :
  key <> k' ->
  forall l : props, lookup k' (insert_index index key x l) = lookup k' l.
Proof.
  intros Hne. apply String.eqb_neq in Hne.
  induction l as [|[k y] rest IH]; cbn [insert_index].
  - cbn [lookup]. rewrite Hne. reflexivity.
  - destruct (index_of_key k) as [i|];
      [destruct (Nat.ltb index i)|]; cbn [lookup]; rewrite ?Hne;
      try reflexivity.
    rewrite IH. reflexivity.
Qed.

Lemma lookup_assign_prop_same (key : string) (x : jsval) (l : props) :
  lookup key (assign_prop key x l) = Some x.
Proof.
  unfold assign_prop. destruct (lookup key l) eqn:Hl.
  - apply lookup_set_prop_same.
  - destruct (index_of_key key);
      [apply lookup_insert_index_same; exact Hl|apply lookup_set_prop_same].
Qed.

Lemma lookup_assign_prop_other (key k' : string) (x : jsval) (l : props) :
  key <> k' -> lookup k' (assign_prop key x l) = lookup k' l.
Proof.
  intros Hne. unfold assign_prop. destruct (lookup key l).
  - apply lookup_set_prop_other. exact Hne.
  - destruct (index_of_key key);
      [apply lookup_insert_index_other|apply lookup_set_prop_other]; exact Hne.
Qed.

(** X18.  The envelope.  A falsy [response] template means no envelope: the
    data is returned as it is.  Otherwise the result is a copy of the
    template in which [responseKey] holds the data, so that reading it back
    with [getDataObject] under the same key (a non-empty one, other than
    ['__proto__']) returns the data, and every other key holds what the
    template holds. *)
Theorem dataToResponse_round_trip :
  forall (data response : jsval) (responseKey : string),
    (js_Boolean response = false ->
     dataToResponse data response responseKey = data) /\
    (js_Boolean response = true ->
     (responseKey <> "" -> responseKey <> "__proto__" ->
      getDataObject (dataToResponse data response responseKey)
        (Some responseKey) = Ok data) /\
     forall key,
       key <> responseKey ->
       own_prop (dataToResponse data response responseKey) key
       = lookup key (spread response)).
Proof.
  intros data response responseKey. unfold dataToResponse. split.
  - intros Hfalsy. rewrite Hfalsy. reflexivity.
  - intros Htruthy. rewrite Htruthy. cbn [negb]. split.
    + intros Hkey _. unfold getDataObject.
      apply String.eqb_neq in Hkey. rewrite Hkey.
      unfold get_prop, record. cbn [is_nullish own_prop].
      rewrite lookup_assign_prop_same. reflexivity.
    + intros key Hkey. unfold record. cbn [own_prop].
      apply lookup_assign_prop_other. congruence.
Qed.

Lemma handleError_bad_request (error : thrown) :
  exists response, handleError error = BadRequestException response.
Proof. destruct error; eexists; reflexivity. Qed.

Lemma handleError_again (error : thrown) :
  handleError (handleError error) = handleError error.
Proof. destruct error; reflexivity. Qed.

Section InterceptorFacts.

Context (host : JSHost) (classes : string -> option dtoClass).
Context (this : interceptor).

(** X19.  How an error leaves a route that transforms.  When the response
    class cannot be resolved to a schema, [intercept] itself throws, before
    any stream exists: the [TypeError] of [transformDtoFilter], as it is and
    not as a [BadRequestException].  Otherwise [intercept] returns the
    stream, and nothing but a [BadRequestException] is an error on it: one
    thrown by the handler passes unchanged, and whatever else the handler or
    the engine throws (a [TransformError], a [TypeError], any value) is
    replaced by one whose response is [{ message, debug: null }]. *)
Theorem intercept_errors_are_bad_requests :
  forall (metadata : responseTypeMetadata) (responseType : tyRef)
         (upstream : notification),
    md_noTransform metadata = false ->
    md_type metadata = Some responseType ->
    let dtoType :=
      if isArrayTy responseType then elem0 responseType else responseType in
    (forall e,
        transformDtoFilter classes dtoType = Throw e ->
        intercept host classes this (Some metadata) upstream = Throw e /\
        exists what, e = TypeError what) /\
    (forall dtoFilter0,
        transformDtoFilter classes dtoType = Ok dtoFilter0 ->
        exists n,
          intercept host classes this (Some metadata) upstream = Ok n /\
          forall error,
            n = Error error ->
            (forall response,
                upstream = Error (BadRequestException response) ->
                error = BadRequestException response) /\
            ((exists response,
                 upstream = Error (BadRequestException response)) \/
             exists message,
               error = BadRequestException (error_response message))).
Proof.
  intros metadata responseType upstream Hnt Hty dtoType.
  unfold intercept. rewrite Hnt, Hty. cbv zeta. fold dtoType. split.
  - intros e He. rewrite He. cbn [bind]. split; [reflexivity|].
    unfold transformDtoFilter in He.
    destruct dtoType; try (inversion He; eexists; reflexivity).
    destruct (classes name); [discriminate He|].
    inversion He. eexists. reflexivity.
  - intros dtoFilter0 Hf. rewrite Hf. cbn [bind].
    eexists. split; [reflexivity|].
    intros error Herr.
    destruct upstream as [data|e]; cbn [catch_error] in Herr.
    + split; [intros response Hup; discriminate Hup|]. right.
      unfold map_callback in Herr.
      match type of Herr with
      | context [match ?x with Ok _ => _ | Throw _ => _ end] =>
          destruct x as [v|e]
      end; cbn [catch_error] in Herr; [discriminate Herr|].
      inversion Herr. rewrite handleError_again.
      destruct e as [te|what|]; eexists; reflexivity.
    + inversion Herr. split.
      * intros response Hup. inversion Hup. reflexivity.
      * destruct e as [response|te|name message|v];
          first [left; eexists; reflexivity|right; eexists; reflexivity].
Qed.

(** X20.  A route typed by one class is the engine between two adapters.
    With [dataKey] explicitly [null] and an explicit [response] template, so
    that no default of the interceptor applies, the value the handler
    returns is transformed under the class's schema and its name; an
    accepted result is put in the envelope, a [TransformError] becomes a [BadRequestException] whose
    message is "Validation error: " followed by the error's message, and a
    [TypeError] one whose message is "Unexpected error: " followed by its
    message.  None of the error's other fields reaches the response. *)
Theorem intercept_class_route :
  forall (name : string) (c : dtoClass) (response : jsval)
         (responseKey : string) (data : jsval),
    classes name = Some c ->
    is_undefined response = false ->
    intercept host classes this
      (Some {| md_type := Some (TyClass name);
               md_noTransform := false;
               md_response := response;
               md_responseKey := Some responseKey;
               md_dataKey := DataKeyNull |})
      (Next data)
    = Ok
        match transform host classes data (filter_of_class c) name with
        | Ok out => Next (dataToResponse out response responseKey)
        | Throw e => Error (handleError (thrown_of e))
        end /\
    match transform host classes data (filter_of_class c) name with
    | Ok out => True
    | Throw e =>
        (exists te,
            e = TransformErr te /\
            handleError (thrown_of e)
            = BadRequestException
                (error_response ("Validation error: " ++ err_message te))) \/
        (exists what,
            e = TypeError what /\
            handleError (thrown_of e)
            = BadRequestException
                (error_response ("Unexpected error: " ++ what)))
    end.
Proof.
  intros name c response responseKey data Hc Hresp. split.
  - unfold intercept. cbn [md_type md_noTransform md_response md_responseKey
                           md_dataKey isArrayTy].
    unfold transformDtoFilter. rewrite Hc, Hresp. cbn [bind type_name].
    unfold map_callback, transform_data. cbn [getDataObject bind andb].
    destruct (transform host classes data (filter_of_class c) name)
      as [out|e]; cbn [bind catch_error]; [reflexivity|].
    rewrite handleError_again. reflexivity.
  - pose proof (transform_total host classes data (filter_of_class c) name)
      as Htotal.
    destruct (transform host classes data (filter_of_class c) name)
      as [out|[te|what|]]; [exact I| | |].
    + left. exists te. split; reflexivity.
    + right. exists what. split; reflexivity.
    + contradiction Htotal. reflexivity.
Qed.

End InterceptorFacts.

Section Routes.

Context (host : JSHost) (classes : string -> option dtoClass).

(** X21.  A route typed by an array of a class demands an array.  With
    [dataKey] explicitly [null], data that is not an array (an object, a
    string, [null], [undefined]) never reaches the engine: the response is a
    [BadRequestException] whose message is "Validation error: Expected an
    array, but received " followed by [typeof data]. *)
Theorem intercept_array_route_rejects_non_arrays :
  forall (this : interceptor) (name : string) (c : dtoClass)
         (others : list tyRef) (response : jsval) (responseKey : string)
         (data : jsval),
    classes name = Some c ->
    isArray data = false ->
    intercept host classes this
      (Some {| md_type := Some (TyArray (TyClass name :: others));
               md_noTransform := false;
               md_response := response;
               md_responseKey := Some responseKey;
               md_dataKey := DataKeyNull |})
      (Next data)
    = Ok (Error
            (BadRequestException
               (error_response
                  ("Validation error: Expected an array, but received " ++
                   typeof data)))).
Proof.
  intros this name c others response responseKey data Hc Harr.
  unfold intercept. cbn [md_type md_noTransform md_response md_responseKey
                         md_dataKey isArrayTy elem0].
  unfold transformDtoFilter. rewrite Hc. cbn [bind type_name].
  unfold map_callback, transform_data. cbn [getDataObject bind].
  rewrite Harr. reflexivity.
Qed.

(** X22.  On a route typed by one class, with [dataKey] explicitly [null]
    and an explicit [response] template, a handler that returns [null] or
    [undefined] gets [null] in the envelope (or [null] itself when the
    template is falsy), whatever the class requires. *)
Theorem intercept_class_route_nullish_data :
  forall (this : interceptor) (name : string) (c : dtoClass)
         (response : jsval) (responseKey : string) (data : jsval),
    classes name = Some c ->
    is_undefined response = false ->
    is_nullish data = true ->
    intercept host classes this
      (Some {| md_type := Some (TyClass name);
               md_noTransform := false;
               md_response := response;
               md_responseKey := Some responseKey;
               md_dataKey := DataKeyNull |})
      (Next data)
    = Ok (Next (dataToResponse VNull response responseKey)).
Proof.
  intros this name c response responseKey data Hc Hresp Hnull.
  unfold intercept. cbn [md_type md_noTransform md_response md_responseKey
                         md_dataKey isArrayTy].
  unfold transformDtoFilter. rewrite Hc, Hresp. cbn [bind type_name].
  unfold map_callback, transform_data. cbn [getDataObject bind andb].
  rewrite transform_unfold. unfold transform_body. rewrite Hnull. reflexivity.
Qed.

(** X23.  On a route decorated with [@ResponseType], the interceptor's
    [defaultResponseKey] is never used: the decorator stores a
    [responseKey] of its own, 'data' when none is given, so two interceptors
    that differ only in [defaultResponseKey] answer alike. *)
Theorem ResponseType_overrides_defaultResponseKey :
  forall (this1 this2 : interceptor) (options : responseTypeOptions)
         (upstream : notification),
    defaultResponse this1 = defaultResponse this2 ->
    defaultDataKey this1 = defaultDataKey this2 ->
    intercept host classes this1 (Some (ResponseType options)) upstream
    = intercept host classes this2 (Some (ResponseType options)) upstream.
Proof.
  intros this1 this2 options upstream Hresponse HdataKey.
  unfold intercept, ResponseType.
  cbn [md_type md_noTransform md_response md_responseKey md_dataKey].
  rewrite Hresponse, HdataKey. reflexivity.
Qed.

End Routes.

(* ================================================================== *)
(** ** The earlier revision of the engine *)
(* ================================================================== *)

Lemma map_from_identity {A : Type} (f : A -> nat -> outcome A) :
  forall (l : list A) (index : nat),
    (forall x i, In x l -> f x i = Ok x) -> map_from f index l = Ok l.
Proof.
  induction l as [|x rest IH]; intros index Hf; [reflexivity|].
  simpl. rewrite (Hf x index (or_introl eq_refl)). cbn [bind].
  rewrite (IH (S index)); [reflexivity|].
  intros y i Hy. apply Hf. right. exact Hy.
Qed.

Lemma map_from_Ok_ext_in {A B : Type} (f g : A -> nat -> outcome B) :
  forall (l : list A) (index : nat) (ys : list B),
    (forall x i y, In x l -> f x i = Ok y -> g x i = Ok y) ->
    map_from f index l = Ok ys -> map_from g index l = Ok ys.
Proof.
  induction l as [|x rest IH]; intros index ys Hfg H; [exact H|].
  simpl in H |- *.
  destruct (f x index) as [y|] eqn:Hy; cbn [bind] in H; [|discriminate H].
  rewrite (Hfg x index y (or_introl eq_refl) Hy). cbn [bind].
  destruct (map_from f (S index) rest) as [ys'|] eqn:Hrest; cbn [bind] in H;
    [|discriminate H].
  rewrite (IH (S index) ys'); [exact H| |exact Hrest].
  intros x' i y' Hin. apply Hfg. right. exact Hin.
Qed.

Section EarlierRevision.

Context (host : JSHost) (classes : string -> option dtoClass).

(** X24.  In the earlier revision [@NoCheck] is honoured by every kind that
    does not recurse: an unchecked scalar, enum, array of scalars or field of
    unrecognised kind is returned exactly as received, whatever the value,
    [undefined] included. *)
Theorem rev1_noCheck_returns_value :
  forall (rec : jsval -> dtoFilter -> string -> outcome jsval)
         (v : jsval) (fm : fieldMeta) (p : string),
    noCheck fm = true ->
    (typeCheck fm =? 2)%Z || (typeCheck fm =? 4)%Z || (typeCheck fm =? 32)%Z
    = false ->
    Rev1.transformField host classes rec v fm p = Ok v.
Proof.
  intros rec v fm p Hnc Hkind.
  apply orb_false_elim in Hkind. destruct Hkind as [Hkind H32].
  apply orb_false_elim in Hkind. destruct Hkind as [H2 H4].
  unfold Rev1.transformField. rewrite H2, H4, H32, Hnc.
  destruct (typeCheck fm =? 1)%Z;
    [exact (transformPrimitive_noCheck host v fm p Hnc)|].
  destruct (typeCheck fm =? 8)%Z;
    [unfold Rev1.transformEnum; rewrite Hnc; reflexivity|].
  destruct (typeCheck fm =? 16)%Z; [|reflexivity].
  unfold Rev1.transformArrayOfPrimitive. rewrite Hnc. cbn [negb andb].
  destruct v as [| | | | | | | |items|]; try reflexivity.
  unfold map_indexed. rewrite map_from_identity; [reflexivity|].
  intros x i _. exact (transformPrimitive_noCheck host x fm _ Hnc).
Qed.

(** X25.  In the earlier revision a field the input does not own raises
    only when it is checked, required and not nullable; an absent inline
    nested object is accepted.  So an input that has no own property named
    [hasOwnProperty] and owns none of the schema's keys is accepted as the
    empty record unless the schema has such a field, and the first one, in
    schema order, is reported missing. *)
Theorem rev1_transform_without_own_keys :
  forall (fuel : nat) (obj : jsval) (filter : dtoFilter) (dtoName : string),
    is_nullish obj = false ->
    has_get_function obj = false ->
    isArray obj = false ->
    hasOwnProperty_callable obj = true ->
    (forall key, In key (keys filter) -> hasOwnProperty obj key = false) ->
    Rev1.transform_fuel host classes (S fuel) obj filter dtoName
    = match
        find (fun kf => negb (noCheck (snd kf)) && required (snd kf) &&
                        negb (nullable (snd kf))) filter
      with
      | Some (key, _) =>
          Throw (err ("Required field '" ++ key ++ "' is missing") dtoName key
                   VUndefined None None obj (OfFilter filter))
      | None => Ok (record [])
      end.
Proof.
  intros fuel obj filter dtoName Hnn Hhook Harr Hcall Hown.
  cbn [Rev1.transform_fuel]. unfold Rev1.transform_body.
  rewrite Hnn, Hhook.
  assert (Hloop : forall entries acc,
             (forall key, In key (keys entries) ->
                          hasOwnProperty obj key = false) ->
             Rev1.transform_fields host classes
               (Rev1.transform_fuel host classes fuel) obj filter dtoName
               entries acc
             = match
                 find (fun kf => negb (noCheck (snd kf)) && required (snd kf) &&
                                 negb (nullable (snd kf))) entries
               with
               | Some (key, _) =>
                   Throw (err ("Required field '" ++ key ++ "' is missing")
                            dtoName key VUndefined None None obj
                            (OfFilter filter))
               | None => Ok acc
               end).
  { induction entries as [|[key fm] rest IH]; intros acc Hnone; [reflexivity|].
    cbn [Rev1.transform_fields find snd].
    rewrite Hnn, Hcall, (Hnone key (or_introl eq_refl)). cbn [negb].
    destruct (negb (noCheck fm) && required fm && negb (nullable fm));
      [reflexivity|].
    apply IH. intros k Hk. apply Hnone. right. exact Hk. }
  destruct obj as [| | | | | | | |items|]; try discriminate Harr;
    rewrite (Hloop filter [] Hown);
    destruct (find _ filter) as [[key fm]|]; reflexivity.
Qed.

End EarlierRevision.

Section Strengthening.

Context (host : JSHost) (classes : string -> option dtoClass).
Hypothesis Hclasses : comparable_classes classes.

Lemma comparable_field_unfold (fm : fieldMeta) :
  comparable_field classes fm
  = Bool.eqb (isNestedObject fm) (typeCheck fm =? 32)%Z &&
    implb ((typeCheck fm =? 16)%Z && nullable fm) (noCheck fm) &&
    implb (typeCheck fm =? 4)%Z
      match elem0 (type fm) with
      | TyClass name =>
          match classes name with Some _ => true | None => false end
      | _ => false
      end &&
    forallb (fun kf => comparable_field classes (snd kf)) (nestedFields fm).
Proof. destruct fm. reflexivity. Qed.

Lemma transformDtoFilter_comparable (t : tyRef) (filter : dtoFilter) :
  transformDtoFilter classes t = Ok filter ->
  comparable_filter classes filter = true.
Proof.
  unfold transformDtoFilter. intros H.
  destruct t; try discriminate H.
  destruct (classes name) as [c|] eqn:Hc; [|discriminate H].
  inversion H. exact (Hclasses name c Hc).
Qed.

(** One field: what the later revision accepts, the earlier one accepts
    with the same result, when its recursive calls do. *)
Lemma rev1_transformField_accepts
    (rec2 rec1 : jsval -> dtoFilter -> string -> outcome jsval)
    (x : jsval) (fm : fieldMeta) (p : string) (out : jsval) :
  ((typeof x =? "object") = true ->
   forall y filter d o,
     y = x \/ (exists items, x = VArr items /\ In y items) ->
     comparable_filter classes filter = true ->
     rec2 y filter d = Ok o -> rec1 y filter d = Ok o) ->
  ((typeof x =? "object") = true ->
   forall filter d, rec1 VNull filter d = Ok VNull) ->
  is_nullish x = false ->
  comparable_field classes fm = true ->
  transformField host classes rec2 x fm p = Ok out ->
  Rev1.transformField host classes rec1 x fm p = Ok out.
Proof.
  intros Hrec Hnull Hnn Hfm H.
  destruct (is_nullish_false x Hnn) as [Hu Hn].
  rewrite comparable_field_unfold in Hfm.
  apply andb_prop in Hfm. destruct Hfm as [Hfm Hnested].
  apply andb_prop in Hfm. destruct Hfm as [Hfm Helem].
  apply andb_prop in Hfm. destruct Hfm as [Hkind Hnullable].
  apply Bool.eqb_prop in Hkind.
  unfold transformField, transformField_switch in H.
  rewrite Hu, Hn in H. cbn [andb] in H.
  unfold Rev1.transformField.
  destruct (isNestedObject fm) eqn:Hinline.
  - symmetry in Hkind. apply Z.eqb_eq in Hkind. rewrite Hkind.
    cbn [Z.eqb Pos.eqb].
    destruct (typeof x =? "object") eqn:Hobj; cbn [negb orb] in H;
      [|discriminate H].
    destruct (rec2 x (nestedFields fm) p) as [nested|] eqn:Hcall;
      cbn [bind] in H; [|discriminate H].
    destruct (validateNestedFields x fm p (nestedFields fm));
      cbn [bind] in H; [|discriminate H].
    inversion H. subst out.
    exact (Hrec eq_refl x _ _ _ (or_introl eq_refl) Hnested Hcall).
  - symmetry in Hkind. rewrite Hkind in H |- *. rewrite orb_false_r in H.
    destruct (typeCheck fm =? 1)%Z; [exact H|].
    destruct (typeCheck fm =? 2)%Z.
    { destruct (typeof x =? "object") eqn:Hobj; cbn [negb orb] in H;
        [|discriminate H].
      destruct (transformDtoFilter classes (type fm)) as [f|] eqn:Hf;
        cbn [bind] in H |- *; [|discriminate H].
      exact (Hrec eq_refl x _ _ _ (or_introl eq_refl)
               (transformDtoFilter_comparable _ _ Hf) H). }
    destruct (typeCheck fm =? 4)%Z eqn:Htc4.
    { cbn [orb] in H. cbn [implb] in Helem.
      destruct x as [| | | | | | | |items|]; try discriminate H.
      unfold Rev1.transformArrayOfClass. cbn [isArray negb andb].
      rewrite andb_false_r.
      destruct (elem0 (type fm)) as [| | | | | | |name| | |] eqn:Helem0;
        try discriminate Helem.
      unfold transformDtoFilter in H |- *.
      destruct (classes name) as [c|] eqn:Hc; [|discriminate Helem].
      cbn [bind] in H |- *.
      match type of H with
      | bind (map_indexed ?f items) _ = _ =>
          destruct (map_indexed f items) as [outs|] eqn:Hmap; cbn [bind] in H;
            [|discriminate H]
      end.
      inversion H. subst out. unfold map_indexed in *.
      erewrite map_from_Ok_ext_in; [reflexivity| |exact Hmap].
      intros item i o Hin Hitem. cbv beta in Hitem.
      destruct (is_undefined item); [discriminate Hitem|].
      destruct (is_null item && nullable fm) eqn:Hnl.
      - inversion Hitem. subst o.
        apply andb_prop in Hnl. destruct Hnl as [Hitemnull _].
        destruct item; try discriminate Hitemnull.
        apply (Hnull eq_refl).
      - apply (Hrec eq_refl item _ _ _
                 (or_intror (ex_intro _ items (conj eq_refl Hin)))
                 (Hclasses name c Hc) Hitem). }
    destruct (typeCheck fm =? 16)%Z eqn:Htc16.
    { cbn [orb] in H.
      apply Z.eqb_eq in Htc16. rewrite Htc16. cbn [Z.eqb Pos.eqb].
      destruct x as [| | | | | | | |items|]; try discriminate H.
      unfold Rev1.transformArrayOfPrimitive. cbn [isArray negb andb].
      rewrite andb_false_r.
      match type of H with
      | bind (map_indexed ?f items) _ = _ =>
          destruct (map_indexed f items) as [outs|] eqn:Hmap; cbn [bind] in H;
            [|discriminate H]
      end.
      inversion H. subst out. unfold map_indexed in *.
      erewrite map_from_Ok_ext_in; [reflexivity| |exact Hmap].
      intros item i o Hin Hitem. cbv beta in Hitem.
      destruct (is_undefined item); [discriminate Hitem|].
      destruct (is_null item && nullable fm) eqn:Hnl; [|exact Hitem].
      inversion Hitem. subst o.
      apply andb_prop in Hnl. destruct Hnl as [Hitemnull Hnullable'].
      rewrite Hnullable' in Hnullable. cbn [andb implb] in Hnullable.
      destruct item; try discriminate Hitemnull.
      exact (transformPrimitive_noCheck host VNull fm _ Hnullable). }
    cbn [orb] in H.
    destruct (typeCheck fm =? 8)%Z; [|discriminate H].
    unfold Rev1.transformEnum.
    destruct (noCheck fm); [|exact H].
    destruct (enum fm) as [allowed|]; [|discriminate H].
    destruct (includes allowed x); cbn [negb] in H; [|discriminate H].
    exact H.
Qed.

Lemma comparable_filter_field (filter : dtoFilter) (key : string)
    (fm : fieldMeta) :
  comparable_filter classes filter = true -> In (key, fm) filter ->
  comparable_field classes fm = true.
Proof.
  unfold comparable_filter. rewrite forallb_forall. intros Hall Hin.
  exact (Hall (key, fm) Hin).
Qed.

Lemma rev1_transform_fuel_accepts :
  forall (n : nat) (v : jsval) (filter : dtoFilter) (d : string) (out : jsval),
    depth v < n ->
    plain_defined v = true ->
    comparable_filter classes filter = true ->
    transform_fuel host classes n v filter d = Ok out ->
    Rev1.transform_fuel host classes n v filter d = Ok out.
Proof.
  induction n as [|n IH]; intros v filter d out Hdepth Hplain Hfilter H;
    [discriminate H|].
  cbn [transform_fuel Rev1.transform_fuel] in H |- *.
  unfold transform_body in H. unfold Rev1.transform_body.
  destruct (is_nullish v) eqn:Hnn; [exact H|].
  rewrite (plain_defined_no_get v Hplain) in H |- *.
  destruct (isArray v) eqn:Harr.
  - destruct v as [| | | | | | | |items|]; try discriminate Harr.
    match type of H with
    | bind (map_indexed ?f items) _ = _ =>
        destruct (map_indexed f items) as [outs|] eqn:Hmap; cbn [bind] in H;
          [|discriminate H]
    end.
    unfold map_indexed in *.
    erewrite map_from_Ok_ext_in; [exact H| |exact Hmap].
    intros item i o Hin Hitem. cbv beta in Hitem |- *.
    apply IH; try assumption.
    + pose proof (depth_item items item Hin). lia.
    + exact (plain_defined_item items item Hplain Hin).
  - assert (Hloop : forall entries acc r,
               (forall key fm, In (key, fm) entries ->
                               comparable_field classes fm = true) ->
               transform_fields host classes (transform_fuel host classes n) v
                 filter d entries acc = Ok r ->
               Rev1.transform_fields host classes
                 (Rev1.transform_fuel host classes n) v filter d entries acc
               = Ok r).
    { induction entries as [|[key fm] rest IHl]; intros acc r Hall Hl;
        [exact Hl|].
      cbn [transform_fields Rev1.transform_fields] in Hl |- *.
      rewrite Hnn in Hl |- *.
      destruct (hasOwnProperty_callable v); cbn [negb] in Hl |- *;
        [|discriminate Hl].
      assert (Hrest : forall key' fm', In (key', fm') rest ->
                                       comparable_field classes fm' = true)
        by (intros key' fm' Hin; apply (Hall key' fm'); right; exact Hin).
      unfold hasOwnProperty, get_prop in Hl |- *.
      destruct (own_prop v key) as [x|] eqn:Hown; cbn [negb] in Hl |- *.
      - destruct (plain_defined_own v key x Hplain Harr Hown) as [Hxu Hxplain].
        rewrite Hxu in Hl.
        destruct (is_null x) eqn:Hxn.
        + destruct (noCheck fm || nullable fm); [|discriminate Hl].
          exact (IHl _ _ Hrest Hl).
        + destruct (transformField host classes (transform_fuel host classes n)
                      x fm (d ++ "." ++ key)) as [o|] eqn:Hfield;
            cbn [bind] in Hl; [|discriminate Hl].
          assert (Hxnn : is_nullish x = false)
            by (destruct x; first [reflexivity|discriminate]).
          rewrite (rev1_transformField_accepts
                     (transform_fuel host classes n)
                     (Rev1.transform_fuel host classes n) x fm _ o); cbn [bind].
          * exact (IHl _ _ Hrest Hl).
          * intros Hobj y f d' o' Hy Hf Hcall.
            pose proof (depth_own_object v key x Hown Hobj) as Hdx.
            apply IH; try assumption.
            -- destruct Hy as [Hy|[items [Hx Hin]]].
               ++ subst y. lia.
               ++ subst x. pose proof (depth_item items y Hin). lia.
            -- destruct Hy as [Hy|[items [Hx Hin]]].
               ++ subst y. exact Hxplain.
               ++ subst x. exact (plain_defined_item items y Hxplain Hin).
          * intros Hobj f d'.
            pose proof (depth_own_object v key x Hown Hobj) as Hdx.
            destruct n as [|n']; [lia|]. reflexivity.
          * exact Hxnn.
          * exact (Hall key fm (or_introl eq_refl)).
          * exact Hfield.
      - destruct (negb (noCheck fm) && (required fm || isNestedObject fm))
          eqn:Hmissing; [discriminate Hl|].
        assert (Hmissing1 : negb (noCheck fm) && required fm &&
                            negb (nullable fm) = false).
        { destruct (noCheck fm), (required fm); try reflexivity.
          discriminate Hmissing. }
        rewrite Hmissing1. exact (IHl _ _ Hrest Hl). }
    assert (Hfields : forall r,
               transform_fields host classes (transform_fuel host classes n) v
                 filter d filter [] = Ok r ->
               Rev1.transform_fields host classes
                 (Rev1.transform_fuel host classes n) v filter d filter []
               = Ok r).
    { intros r. apply Hloop. intros key fm Hin.
      exact (comparable_filter_field filter key fm Hfilter Hin). }
    assert (Hbody : (result <- transform_fields host classes
                                 (transform_fuel host classes n) v filter d
                                 filter [] ;;
                     Ok (record result)) = Ok out)
      by (destruct v; first [discriminate Harr|exact H]).
    assert (Hgoal : (result <- Rev1.transform_fields host classes
                                 (Rev1.transform_fuel host classes n) v filter d
                                 filter [] ;;
                     Ok (record result)) = Ok out).
    { destruct (transform_fields host classes (transform_fuel host classes n) v
                  filter d filter []) as [r|] eqn:Hl; cbn [bind] in Hbody;
        [|discriminate Hbody].
      rewrite (Hfields r eq_refl). exact Hbody. }
    destruct v; first [discriminate Harr|exact Hgoal].
Qed.

(** X26.  The later revision strengthens the earlier one.  On plain data in
    which no property holds [undefined], under schemas whose inline objects
    have [typeCheck] 32, whose nullable arrays of scalars are unchecked and
    whose arrays of class name a class of the table, whatever [transform]
    accepts, the earlier [transform] accepts with the same result, for every
    bound on the recursion above the depth of the value. *)
Theorem rev1_accepts_what_transform_accepts :
  forall (v : jsval) (filter : dtoFilter) (dtoName : string) (out : jsval),
    plain_defined v = true ->
    comparable_filter classes filter = true ->
    transform host classes v filter dtoName = Ok out ->
    forall fuel,
      depth v < fuel ->
      Rev1.transform_fuel host classes fuel v filter dtoName = Ok out.
Proof.
  intros v filter dtoName out Hplain Hfilter H fuel Hfuel.
  apply rev1_transform_fuel_accepts; try assumption.
  rewrite (transform_fuel_transform host classes fuel v filter dtoName Hfuel).
  exact H.
Qed.


End Strengthening.

(* ================================================================== *)
(** ** The cache, the interceptor and the earlier revision on examples *)
(* ================================================================== *)

Lemma transformDtoFilter_cached_by_name_witness :
  transformDtoFilter_cached [("ItemDto", filter_of_class ItemDto)]
    (Constructor "ItemDto" (Some UserDto))
  = Ok (filter_of_class ItemDto, [("ItemDto", filter_of_class ItemDto)]).
Proof.
  exact (proj1 (transformDtoFilter_cached_by_name []
                  [("ItemDto", filter_of_class ItemDto)]
                  (Constructor "ItemDto" (Some ItemDto))
                  (Constructor "ItemDto" (Some UserDto))
                  (filter_of_class ItemDto) eq_refl eq_refl)).
Defined.

Lemma transformDtoFilter_cached_coherent_witness :
  transformDtoFilter order_classes (TyClass "OrderDto")
  = Ok (filter_of_class OrderDto) /\
  cache_coherent order_classes [("OrderDto", filter_of_class OrderDto)].
Proof.
  apply (transformDtoFilter_cached_coherent order_classes [] "OrderDto").
  intros name cached Hhit. discriminate Hhit.
Defined.

Lemma intercept_errors_are_bad_requests_witness :
  intercept sample_host no_classes plain_interceptor (Some item_route)
    (Next (record [("id", VStr "x")]))
  = Throw (TypeError "DtoClass._OPENAPI_METADATA_FACTORY is not a function") /\
  exists n,
    intercept sample_host order_classes plain_interceptor (Some item_route)
      (Next (record [("id", VStr "x")])) = Ok n /\
    forall error,
      n = Error error ->
      exists message, error = BadRequestException (error_response message).
Proof.
  split.
  - destruct (intercept_errors_are_bad_requests sample_host no_classes
                plain_interceptor item_route (TyClass "ItemDto")
                (Next (record [("id", VStr "x")])) eq_refl eq_refl)
      as [Hthrown _].
    exact (proj1 (Hthrown _ eq_refl)).
  - destruct (intercept_errors_are_bad_requests sample_host order_classes
                plain_interceptor item_route (TyClass "ItemDto")
                (Next (record [("id", VStr "x")])) eq_refl eq_refl)
      as [_ Hstream].
    destruct (Hstream _ eq_refl) as [n [Hn Herror]].
    exists n. split; [exact Hn|].
    intros error He. destruct (Herror error He) as [_ [[response Hup]|Hbad]];
      [discriminate Hup|exact Hbad].
Defined.

Lemma intercept_class_route_witness :
  intercept sample_host order_classes plain_interceptor
    (Some {| md_type := Some (TyClass "ItemDto");
             md_noTransform := false;
             md_response := record [("ok", VBool true)];
             md_responseKey := Some "item";
             md_dataKey := DataKeyNull |})
    (Next (record [("id", VStr "4"); ("secret", VStr "s")]))
  = Ok (Next (record [("ok", VBool true);
                      ("item", record [("id", VNum (Fin 4))])])).
Proof.
  exact (proj1 (intercept_class_route sample_host order_classes
                  plain_interceptor "ItemDto" ItemDto
                  (record [("ok", VBool true)]) "item"
                  (record [("id", VStr "4"); ("secret", VStr "s")])
                  eq_refl eq_refl)).
Defined.

Lemma intercept_array_route_rejects_non_arrays_witness :
  intercept sample_host order_classes plain_interceptor
    (Some {| md_type := Some (TyArray [TyClass "ItemDto"]);
             md_noTransform := false;
             md_response := VNull;
             md_responseKey := Some "data";
             md_dataKey := DataKeyNull |})
    (Next VNull)
  = Ok (Error
          (BadRequestException
             (error_response
                "Validation error: Expected an array, but received object"))).
Proof.
  exact (intercept_array_route_rejects_non_arrays sample_host order_classes
           plain_interceptor "ItemDto" ItemDto [] VNull "data" VNull
           eq_refl eq_refl).
Defined.

Lemma intercept_class_route_nullish_data_witness :
  intercept sample_host order_classes plain_interceptor
    (Some {| md_type := Some (TyClass "ItemDto");
             md_noTransform := false;
             md_response := record [("ok", VBool true)];
             md_responseKey := Some "item";
             md_dataKey := DataKeyNull |})
    (Next VUndefined)
  = Ok (Next (record [("ok", VBool true); ("item", VNull)])).
Proof.
  exact (intercept_class_route_nullish_data sample_host order_classes
           plain_interceptor "ItemDto" ItemDto (record [("ok", VBool true)])
           "item" VUndefined eq_refl eq_refl eq_refl).
Defined.

Lemma ResponseType_overrides_defaultResponseKey_witness :
  intercept sample_host order_classes payload_interceptor
    (Some (ResponseType items_route_options))
    (Next (VArr [record [("id", VStr "4")]]))
  = Ok (Next (record [("ok", VBool true);
                      ("data", VArr [record [("id", VNum (Fin 4))]])])).
Proof.
  rewrite (ResponseType_overrides_defaultResponseKey sample_host order_classes
             payload_interceptor plain_interceptor items_route_options
             (Next (VArr [record [("id", VStr "4")]])) eq_refl eq_refl).
  reflexivity.
Defined.

Lemma rev1_noCheck_returns_value_witness :
  Rev1.transformField sample_host no_classes
    (Rev1.transform_fuel sample_host no_classes 1)
    (VStr "archived") unchecked_status "AccountDto.status"
  = Ok (VStr "archived").
Proof.
  exact (rev1_noCheck_returns_value sample_host no_classes
           (Rev1.transform_fuel sample_host no_classes 1)
           (VStr "archived") unchecked_status "AccountDto.status"
           eq_refl eq_refl).
Defined.

Lemma rev1_transform_without_own_keys_witness :
  Rev1.transform_fuel sample_host no_classes 1 (record [])
    [("address", optional_address_field)] "UserDto"
  = Ok (record []).
Proof.
  apply (rev1_transform_without_own_keys sample_host no_classes 0 (record [])
           [("address", optional_address_field)] "UserDto"
           eq_refl eq_refl eq_refl eq_refl).
  intros key _. reflexivity.
Defined.

Lemma comparable_order_classes : comparable_classes order_classes.
Proof.
  intros name c H. unfold order_classes in H.
  destruct (name =? "ItemDto"); [inversion H; reflexivity|].
  destruct (name =? "OrderDto"); [inversion H; reflexivity|discriminate H].
Qed.




(** Outside those schemas and values the two revisions part the other
    way: a nullable array of checked bigints holding [null] is accepted by
    the later revision and rejected by the earlier one, and for [undefined]
    the later revision returns [undefined] where the earlier returns
    [null]. *)
Lemma single_pass_revision_differs_elsewhere :
  let ids := prepareField (RawField (TyArray [TyBigInt]) None false true)
               false false in
  transformField sample_host no_classes (transform sample_host no_classes)
    (VArr [VNull]) ids "Dto.ids" = Ok (VArr [VNull]) /\
  Rev1.transformField sample_host no_classes
    (Rev1.transform_fuel sample_host no_classes 2) (VArr [VNull]) ids "Dto.ids"
  = Throw
      (TransformErr
         (TransformError "Field should be a bigint" "Dto.ids[0]" "" VNull
            (Some "bigint") None VNull (OfField ids))) /\
  transformField sample_host no_classes (transform sample_host no_classes)
    VUndefined address_field "UserDto.address" = Ok VUndefined /\
  Rev1.transformField sample_host no_classes
    (Rev1.transform_fuel sample_host no_classes 2) VUndefined address_field
    "UserDto.address" = Ok VNull.
Proof. repeat split; reflexivity. Qed.

Lemma rev1_accepts_what_transform_accepts_witness :
  Rev1.transform_fuel sample_host order_classes 4
    (record [("items", VArr [record [("id", VStr "7"); ("extra", VNum (Fin 1))]]);
             ("quantities", VArr [VStr "3"])])
    (filter_of_class OrderDto) "OrderDto"
  = Ok (record [("items", VArr [record [("id", VNum (Fin 7))]]);
                ("quantities", VArr [VNum (Fin 3)])]).
Proof.
  apply (rev1_accepts_what_transform_accepts sample_host order_classes
           comparable_order_classes
           (record [("items",
                     VArr [record [("id", VStr "7"); ("extra", VNum (Fin 1))]]);
                    ("quantities", VArr [VStr "3"])])
           (filter_of_class OrderDto) "OrderDto"
           (record [("items", VArr [record [("id", VNum (Fin 7))]]);
                    ("quantities", VArr [VNum (Fin 3)])])
           eq_refl eq_refl eq_refl 4).
  cbn. lia.
Defined.

(* ================================================================== *)
(** ** Termination *)
(* ================================================================== *)

(** X27.  [transform] terminates.  Its recursion only descends into the
    value, so a bound above the depth of the value is never reached: the
    outcome is a result, a [TransformError] or a [TypeError], and it is the
    same under every such bound. *)
Theorem transform_terminates :
  forall (host : JSHost) (classes : string -> option dtoClass)
         (obj : jsval) (filter : dtoFilter) (dtoName : string),
    ((exists out, transform host classes obj filter dtoName = Ok out) \/
     (exists e,
         transform host classes obj filter dtoName = Throw (TransformErr e)) \/
     (exists what,
         transform host classes obj filter dtoName = Throw (TypeError what))) /\
    forall fuel,
      depth obj < fuel ->
      transform_fuel host classes fuel obj filter dtoName
      = transform host classes obj filter dtoName.
Proof.
  intros host classes obj filter dtoName. split.
  - pose proof (transform_total host classes obj filter dtoName) as Htotal.
    destruct (transform host classes obj filter dtoName) as [out|[e|what|]].
    + left. exists out. reflexivity.
    + right. left. exists e. reflexivity.
    + right. right. exists what. reflexivity.
    + contradiction Htotal. reflexivity.
  - intros fuel Hfuel. apply transform_fuel_transform. exact Hfuel.
Qed.

(** X28.  The earlier revision recurses into a class-typed field without
    asking for an object, and a string owns its first character under the
    key '0'.  For a class whose first field is named '0' and typed by the
    class itself, its [transform] therefore never returns on a non-empty
    string: every bound on the recursion is exhausted. *)
Theorem rev1_unbounded_recursion_on_strings :
  forall (host : JSHost) (classes : string -> option dtoClass)
         (name : string) (c : dtoClass) (fm : fieldMeta) (rest : dtoFilter),
    classes name = Some c ->
    filter_of_class c = ("0", fm) :: rest ->
    typeCheck fm = 2%Z ->
    type fm = TyClass name ->
    forall (fuel : nat) (ch : ascii) (s dtoName : string),
      Rev1.transform_fuel host classes fuel (VStr (String ch s))
        (filter_of_class c) dtoName
      = Throw FuelExhausted.
Proof.
  intros host classes name c fm rest Hc Hfilter Htc Hty.
  induction fuel as [|fuel IH]; intros ch s dtoName; [reflexivity|].
  cbn [Rev1.transform_fuel]. unfold Rev1.transform_body.
  cbn [is_nullish has_get_function]. rewrite Hfilter.
  cbn [Rev1.transform_fields is_nullish].
  assert (Hown : own_prop (VStr (String ch s)) "0"
                 = Some (VStr (String ch ""))) by reflexivity.
  unfold hasOwnProperty, get_prop. rewrite Hown. cbn [negb is_null].
  unfold Rev1.transformField. rewrite Htc. cbn [Z.eqb Pos.eqb].
  unfold transformDtoFilter. rewrite Hty, Hc. cbn [bind].
  rewrite IH. reflexivity.
Qed.

Lemma rev1_unbounded_recursion_on_strings_witness :
  Rev1.transform_fuel sample_host node_classes 1000 (VStr "abc")
    (filter_of_class NodeDto) "NodeDto"
  = Throw FuelExhausted.
Proof.
  exact (rev1_unbounded_recursion_on_strings sample_host node_classes
           "NodeDto" NodeDto (prepareField (raw (TyClass "NodeDto")) false false)
           [] eq_refl eq_refl eq_refl eq_refl 1000 "a"%char "bc" "NodeDto").
Defined.
